(** * Provider search service: a model of [backend/server.js] and of the
    metering path of the integration layer.

    The relational store is modelled by lists of records (one list per
    table), a query by the list comprehension it denotes, and the request
    handlers by functions into a small writer/exception monad whose trace
    records every round-trip to a store or collaborator.

    Numbers of the request and of the geometry (JavaScript numbers, SQL
    double precision) are exact rationals; texts are strings of 8-bit
    characters, with the white space and the letter case of ASCII.  The
    store's distance function is a parameter.  Failures of the connection
    pool or of a query are not part of the model: a round-trip always
    answers. *)

From Stdlib Require Import ZArith QArith Qcanon Ascii.
From stdpp Require Import base tactics option list strings numbers sorting.

Local Open Scope Z_scope.

(** ** Text *)

Module Text.

(** The characters of a string. *)
Definition chars (s : string) : list ascii := String.list_ascii_of_string s.
Definition of_chars (l : list ascii) : string := String.string_of_list_ascii l.

(** ASCII case folding, as done by [ILIKE] on each character. *)
Definition to_lower (c : ascii) : ascii :=
  let n := nat_of_ascii c in
  if ((65 <=? n) && (n <=? 90))%nat then ascii_of_nat (n + 32) else c.

Definition lower (l : list ascii) : list ascii := map to_lower l.

(** [String.prototype.trim]: white space is dropped at both ends. *)
Fixpoint trim_start (l : list ascii) : list ascii :=
  match l with
  | c :: l' => if Ascii.is_space c then trim_start l' else l
  | [] => []
  end.

Definition trim_end (l : list ascii) : list ascii :=
  reverse (trim_start (reverse l)).

Definition trim (s : string) : string :=
  of_chars (trim_end (trim_start (chars s))).

(** [l] starts with [p]; the rest is returned. *)
Fixpoint strip_prefix (p l : list ascii) : option (list ascii) :=
  match p, l with
  | [], _ => Some l
  | c :: p', d :: l' => if decide (c = d) then strip_prefix p' l' else None
  | _ :: _, [] => None
  end.

Definition starts_with (p l : list ascii) : bool :=
  match strip_prefix p l with Some _ => true | None => false end.

(** [String.prototype.includes]. *)
Fixpoint includes_chars (p l : list ascii) : bool :=
  starts_with p l ||
  match l with
  | [] => false
  | _ :: l' => includes_chars p l'
  end.

Definition includes (s p : string) : bool := includes_chars (chars p) (chars s).

(** The characters with a special meaning in a [LIKE] pattern. *)
Definition percent : ascii := "%"%char.
Definition underscore : ascii := "_"%char.
Definition backslash : ascii := Eval cbv in ascii_of_nat 92.

Definition is_meta (c : ascii) : bool :=
  bool_decide (c = percent) || bool_decide (c = underscore)
  || bool_decide (c = backslash).

(** The store's [LIKE]: [%] stands for any run of characters, [_] for
    any one character, a backslash takes the next pattern character
    literally.  A pattern ending in a lone backslash matches nothing
    here (the store rejects it). *)
Fixpoint like_match (p : list ascii) : list ascii -> bool :=
  match p with
  | [] => fun t => match t with [] => true | _ :: _ => false end
  | c :: p' =>
      if decide (c = percent) then
        fix any (t : list ascii) : bool :=
          like_match p' t ||
          match t with
          | [] => false
          | _ :: t' => any t'
          end
      else if decide (c = underscore) then
        fun t => match t with [] => false | _ :: t' => like_match p' t' end
      else if decide (c = backslash) then
        match p' with
        | [] => fun _ => false
        | e :: p'' =>
            fun t =>
              match t with
              | [] => false
              | d :: t' => bool_decide (e = d) && like_match p'' t'
              end
        end
      else
        fun t =>
          match t with
          | [] => false
          | d :: t' => bool_decide (c = d) && like_match p' t'
          end
  end.

(** [text ILIKE pattern]. *)
Definition ilike (text pattern : string) : bool :=
  like_match (lower (chars pattern)) (lower (chars text)).

(** On a nullable column [NULL ILIKE p] is unknown, which a [WHERE]
    clause made of [AND] and [OR] treats like false. *)
Definition ilike_null (text : option string) (pattern : string) : bool :=
  match text with
  | Some t => ilike t pattern
  | None => false
  end.

(** The spec's notion: [needle] occurs in [hay], letter case ignored. *)
Definition contains_ci (hay needle : string) : Prop :=
  exists pre post,
    lower (chars hay) = pre ++ lower (chars needle) ++ post.

End Text.

(** ** Effects: a trace of round-trips, and exceptions *)

Section Monad.
Context {E X : Type}.

(** A computation leaves the events it caused and either throws or
    returns. *)
Definition M (A : Type) : Type := (list E * (X + A))%type.

Definition ret {A} (a : A) : M A := ([], inr a).
Definition throw {A} (x : X) : M A := ([], inl x).
Definition tell (e : E) : M unit := ([e], inr tt).

Definition bind {A B} (m : M A) (f : A -> M B) : M B :=
  match m with
  | (t, inl x) => (t, inl x)
  | (t, inr a) => let '(t', r) := f a in (t ++ t', r)
  end.

(** [try { m } catch (x) { h x }]. *)
Definition try_catch {A} (m : M A) (h : X -> M A) : M A :=
  match m with
  | (t, inl x) => let '(t', r) := h x in (t ++ t', r)
  | (t, inr a) => (t, inr a)
  end.

Definition trace {A} (m : M A) : list E := fst m.
Definition outcome {A} (m : M A) : X + A := snd m.
End Monad.

Arguments M : clear implicits.

Notation "'let*' x ':=' m 'in' k" := (bind m (fun x => k))
  (at level 10, x name, m at level 100, k at level 200).
Notation "m '>>' k" := (bind m (fun _ => k))
  (at level 100, k at level 200, right associativity).

(** ** Data model: the tables read by the service *)

(** A point geometry of [us_zipcodes.geom]. *)
Record Geom := { ST_X : Qc; ST_Y : Qc }.

(** [us_zipcodes] *)
Record UsZipcode := {
  uz_zip_code : string;
  uz_geom : Geom
}.

(** [npi_details] (alias [nd]) *)
Record NpiDetails := {
  nd_npi : Z;
  nd_provider_first_name : option string;
  nd_provider_last_name_legal_name : option string;
  nd_npi_deactivation_date : option string;
  nd_provider_credential_text : option string;
  nd_healthcare_provider_taxonomy_1_classification : option string;
  nd_healthcare_provider_taxonomy_1_specialization : option string
}.

(** [npi_addresses] (alias [na]), practice location columns *)
Record NpiAddress := {
  na_npi : Z;
  na_first_line : option string;
  na_second_line : option string;
  na_city_name : option string;
  na_state_name : option string;
  na_postal_code : option string;
  na_telephone_number : option string
}.

(** [npi_prescriptions] (alias [np]) *)
Record NpiPrescription := {
  np_prescription_id : Z;
  np_npi : Z;
  np_drug_name : option string;
  np_generic_name : option string;
  np_total_claim_count : Z;
  np_state : string
}.

(** [profiles] of the identity store *)
Record Profile := {
  pr_id : string;
  pr_membership_tier : option string
}.

(** [user_locations] *)
Record UserLocation := {
  ul_user_id : string;
  ul_location_name : string;
  ul_zip_code : option string;
  ul_is_primary : bool
}.

Record Stores := {
  us_zipcodes : list UsZipcode;
  npi_details : list NpiDetails;
  npi_addresses : list NpiAddress;
  npi_prescriptions : list NpiPrescription;
  profiles : list Profile;
  user_locations : list UserLocation
}.

(** A row of the page query: the columns of its [SELECT] list. *)
Module Row.
Record t := {
  npi : Z;
  provider_first_name : option string;
  provider_last_name : option string;
  provider_credential_text : option string;
  healthcare_provider_taxonomy_1_classification : option string;
  healthcare_provider_taxonomy_1_specialization : option string;
  address_line_1 : option string;
  address_line_2 : option string;
  city : option string;
  state : option string;
  postal_code : option string;
  phone : option string;
  longitude : Qc;
  latitude : Qc;
  distance_meters : Qc;
  total_claim_count : Z
}.
End Row.

#[global] Instance Geom_eq_dec : EqDecision Geom.
Proof. solve_decision. Defined.

#[global] Instance Row_eq_dec : EqDecision Row.t.
Proof. solve_decision. Defined.

(** The object built for each row by [findProviders]. *)
Module View.
Record t := {
  id : Z;
  npi : Z;
  name : string;
  first_name : option string;
  last_name : option string;
  title : string;
  specialties : list string;
  city : option string;
  state : option string;
  location : string;
  rating : Z;
  review_count : Z;
  availability : string;
  latitude : Qc;
  longitude : Qc
}.
End View.

(** [{ data, totalCount, nextCursor }] *)
Record SearchResult := {
  data : list View.t;
  totalCount : Z;
  nextCursor : option Z
}.

(** The body of a find-providers request, as the handler reads it.
    [radiusMiles] and [minClaims] are the numbers the body states: a body
    that leaves them out reaches [findProviders] with these fields
    [undefined], a case this model does not cover.  [cursor] and [limit]
    may be absent, [findProviders] defaults them itself; an absent
    [sortBy] behaves like any text other than [claims] and [name].
    [acceptedInsurance] and [minRating] are not read by any query and are
    left out. *)
Record Body := {
  drugName : string;
  radiusMiles : Qc;
  minClaims : Qc;
  taxonomyClass : option string;
  sortBy : string;
  locationName : option string;
  zipCode : option string;
  cursor : option Z;
  limit : option Z
}.

(** The argument object of [providerService.findProviders], for a request
    that states its radius and its minimum number of claims. *)
Record Params := {
  p_zipCode : string;
  p_drugName : string;
  p_radiusMiles : Qc;
  p_minClaims : Qc;
  p_taxonomyClass : option string;
  p_sortBy : string;
  p_cursor : option Z;
  p_limit : option Z
}.

(** ** JavaScript values *)

(** Truthiness of a nullable string: [null], [undefined] and the empty
    string are falsy. *)
Definition truthy (o : option string) : bool :=
  match o with
  | Some s => negb (bool_decide (s = EmptyString))
  | None => false
  end.

(** [o || ''] *)
Definition or_empty (o : option string) : string :=
  match o with
  | Some s => s
  | None => EmptyString
  end.

(** ** providerService.findProviders *)

(** Round-trips made by the service. *)
Inductive Query :=
| SelectProfile (userId : string)
| SelectUserLocation (userId : string) (isPrimary : bool) (locationName : option string)
| SelectZip (zip : string)
| SelectCount
| SelectPage
| SelectSuggestions (pattern : string).

(** A thrown [Error], by its message. *)
Definition Error := string.

Definition query {A} (q : Query) (rows : A) : M Query Error A :=
  tell q >> ret rows.

(** The factor of [radiusMiles * 1609.34], as the exact rational.  The
    code forms the product in double precision, which can differ from the
    exact product in its last place; the statements below take the
    product as the radius that is handed to the store and decide nothing
    at that place. *)
Definition meters_per_mile : Qc := Q2Qc (160934 # 100).

(** A row of the four-way join before projection. *)
Definition Joined : Type := (NpiDetails * NpiAddress * NpiPrescription * UsZipcode)%type.

Definition j_nd (j : Joined) : NpiDetails := j.1.1.1.
Definition j_na (j : Joined) : NpiAddress := j.1.1.2.
Definition j_np (j : Joined) : NpiPrescription := j.1.2.
Definition j_uz (j : Joined) : UsZipcode := j.2.

(** [FROM npi_details nd JOIN npi_addresses na ON nd.npi = na.npi
     JOIN npi_prescriptions np ON nd.npi = np.npi
     JOIN us_zipcodes uz ON na.postal_code = uz.zip_code] *)
Definition from_join (db : Stores) : list Joined :=
  nd ← npi_details db;
  na ← filter (λ na, nd_npi nd = na_npi na) (npi_addresses db);
  np ← filter (λ np, nd_npi nd = np_npi np) (npi_prescriptions db);
  uz ← filter (λ uz, na_postal_code na = Some (uz_zip_code uz)) (us_zipcodes db);
  [(nd, na, np, uz)].

(** [np.drug_name ILIKE $3 OR np.generic_name ILIKE $3], with [$3] the
    drug name of the request as it came. *)
Definition drug_clause (p : Params) (j : Joined) : bool :=
  Text.ilike_null (np_drug_name (j_np j)) (p_drugName p)
  || Text.ilike_null (np_generic_name (j_np j)) (p_drugName p).

(** [np.total_claim_count >= $4].  The column is an [INTEGER]: the store
    takes [$4] when it is an integer of that type and rejects the query
    otherwise, see [store_accepts]. *)
Definition claims_clause (p : Params) (j : Joined) : bool :=
  bool_decide (p_minClaims p ≤ Qc_of_Z (np_total_claim_count (j_np j)))%Qc.

(** [AND nd.healthcare_provider_taxonomy_1_classification ILIKE $5], added
    when [taxonomyClass] is truthy, with [$5] the class between two [%]. *)
Definition taxonomy_clause (p : Params) (j : Joined) : bool :=
  if truthy (p_taxonomyClass p) then
    Text.ilike_null
      (nd_healthcare_provider_taxonomy_1_classification (j_nd j))
      ("%" +:+ or_empty (p_taxonomyClass p) +:+ "%")
  else true.

Section Store.
(** The store's distance between two geometries. *)
Context (ST_Distance : Geom -> Geom -> Qc).

(** [ST_DWithin(a, b, d)]: the distance is at most [d]. *)
Definition ST_DWithin (a b : Geom) (d : Qc) : bool :=
  bool_decide (ST_Distance a b ≤ d)%Qc.

(** The [WHERE] clause of [baseQuery], with its optional taxonomy
    conjunct. *)
Definition where_clause (searchGeom : Geom) (radiusMeters : Qc)
    (p : Params) (j : Joined) : bool :=
  ST_DWithin (uz_geom (j_uz j)) searchGeom radiusMeters
  && drug_clause p j
  && claims_clause p j
  && taxonomy_clause p j.

Definition baseQuery (db : Stores) (searchGeom : Geom) (radiusMeters : Qc)
    (p : Params) : list Joined :=
  filter (λ j, where_clause searchGeom radiusMeters p j = true) (from_join db).

(** [SELECT COUNT(DISTINCT nd.npi)] *)
Definition countQuery (db : Stores) (searchGeom : Geom) (radiusMeters : Qc)
    (p : Params) : Z :=
  Z.of_nat (length (remove_dups (nd_npi ∘ j_nd <$> baseQuery db searchGeom radiusMeters p))).

(** The [SELECT] list of [finalQuery]. *)
Definition select_row (searchGeom : Geom) (j : Joined) : Row.t :=
  let nd := j_nd j in
  let na := j_na j in
  let uz := j_uz j in
  {| Row.npi := nd_npi nd;
     Row.provider_first_name := nd_provider_first_name nd;
     Row.provider_last_name := nd_provider_last_name_legal_name nd;
     Row.provider_credential_text := nd_provider_credential_text nd;
     Row.healthcare_provider_taxonomy_1_classification :=
       nd_healthcare_provider_taxonomy_1_classification nd;
     Row.healthcare_provider_taxonomy_1_specialization :=
       nd_healthcare_provider_taxonomy_1_specialization nd;
     Row.address_line_1 := na_first_line na;
     Row.address_line_2 := na_second_line na;
     Row.city := na_city_name na;
     Row.state := na_state_name na;
     Row.postal_code := na_postal_code na;
     Row.phone := na_telephone_number na;
     Row.longitude := ST_X (uz_geom uz);
     Row.latitude := ST_Y (uz_geom uz);
     Row.distance_meters := ST_Distance (uz_geom uz) searchGeom;
     Row.total_claim_count := np_total_claim_count (j_np j) |}.
End Store.

(** ** Ordering and shaping of the page *)

Definition then_cmp (c1 c2 : comparison) : comparison :=
  match c1 with
  | Eq => c2
  | _ => c1
  end.

(** Ascending order on a nullable text column: [NULL] sorts last.  The
    store compares two names by the collation of its database;
    [String.compare] stands for it, and no property of the search stated
    below depends on how two names compare. *)
Definition cmp_text (a b : option string) : comparison :=
  match a, b with
  | Some x, Some y => String.compare x y
  | Some _, None => Lt
  | None, Some _ => Gt
  | None, None => Eq
  end.

(** The [ORDER BY] chosen by [switch (sortBy)]. *)
Definition order_by (sortBy : string) (r1 r2 : Row.t) : comparison :=
  let by_distance := (Row.distance_meters r1 ?= Row.distance_meters r2)%Qc in
  if decide (sortBy = "claims") then
    then_cmp (Row.total_claim_count r2 ?= Row.total_claim_count r1) by_distance
  else if decide (sortBy = "name") then
    then_cmp (cmp_text (Row.provider_last_name r1) (Row.provider_last_name r2))
      (then_cmp (cmp_text (Row.provider_first_name r1) (Row.provider_first_name r2))
         by_distance)
  else by_distance.

(** Sorting by insertion; rows that compare equal keep their order. *)
Fixpoint insert_row (cmp : Row.t -> Row.t -> comparison) (r : Row.t)
    (l : list Row.t) : list Row.t :=
  match l with
  | [] => [r]
  | x :: l' =>
      match cmp r x with
      | Gt => x :: insert_row cmp r l'
      | _ => r :: l
      end
  end.

Definition sort_rows (cmp : Row.t -> Row.t -> comparison) (l : list Row.t) : list Row.t :=
  foldr (insert_row cmp) [] l.

(** [s.replace(/^, |, $/g, '')]: a leading and a trailing comma-space
    are removed. *)
Definition comma_space : list ascii := Text.chars ", ".

Definition strip_comma_ends (l : list ascii) : list ascii :=
  let l1 := default l (Text.strip_prefix comma_space l) in
  match Text.strip_prefix (reverse comma_space) (reverse l1) with
  | Some r => reverse r
  | None => l1
  end.

Definition display_name (first last : option string) : string :=
  Text.trim (or_empty first +:+ " " +:+ or_empty last).

Definition address_line (a1 a2 city state postal : option string) : string :=
  Text.trim (Text.of_chars (strip_comma_ends (Text.chars
    (or_empty a1 +:+ (if truthy a2 then ", " +:+ or_empty a2 else EmptyString)
     +:+ ", " +:+ or_empty city +:+ ", " +:+ or_empty state +:+ " "
     +:+ or_empty postal)))).

(** [[a, b].filter(Boolean)] *)
Definition filter_Boolean (l : list (option string)) : list string :=
  omap (λ o, if truthy o then o else None) l.

(** The callback of [results.rows.map] in [findProviders]. *)
Definition formatRow (row : Row.t) : View.t :=
  {| View.id := Row.npi row;
     View.npi := Row.npi row;
     View.name := display_name (Row.provider_first_name row) (Row.provider_last_name row);
     View.first_name := Row.provider_first_name row;
     View.last_name := Row.provider_last_name row;
     View.title := or_empty (Row.provider_credential_text row);
     View.specialties :=
       filter_Boolean [Row.healthcare_provider_taxonomy_1_classification row;
                       Row.healthcare_provider_taxonomy_1_specialization row];
     View.city := Row.city row;
     View.state := Row.state row;
     View.location :=
       address_line (Row.address_line_1 row) (Row.address_line_2 row)
         (Row.city row) (Row.state row) (Row.postal_code row);
     View.rating := 0;
     View.review_count := 0;
     View.availability := "N/A";
     View.latitude := Row.latitude row;
     View.longitude := Row.longitude row |}.

(** [SELECT geom FROM us_zipcodes WHERE zip_code = $1 LIMIT 1] *)
Definition zip_rows (db : Stores) (zip : string) : list UsZipcode :=
  take 1 (filter (λ uz, uz_zip_code uz = zip) (us_zipcodes db)).

(** The centroid a zip code resolves to, if any. *)
Definition origin (db : Stores) (zip : string) : option Geom :=
  uz_geom <$> head (zip_rows db zip).

Section Search.
Context (ST_Distance : Geom -> Geom -> Qc).

(** [SELECT DISTINCT ... ORDER BY ... LIMIT limit OFFSET offset] *)
Definition finalQuery (db : Stores) (searchGeom : Geom) (radiusMeters : Qc)
    (p : Params) (limit offset : Z) : list Row.t :=
  take (Z.to_nat limit)
    (drop (Z.to_nat offset)
       (sort_rows (order_by (p_sortBy p))
          (remove_dups
             (select_row ST_Distance searchGeom
                <$> baseQuery ST_Distance db searchGeom radiusMeters p)))).

Definition findProviders (db : Stores) (params : Params) : M Query Error SearchResult :=
  let offset := default 0 (p_cursor params) in
  let limit := default 10 (p_limit params) in
  let radiusMeters := (p_radiusMiles params * meters_per_mile)%Qc in
  let* zipResult :=
    query (SelectZip (p_zipCode params)) (zip_rows db (p_zipCode params)) in
  match zipResult with
  | [] => throw ("Coordinates not found for zip code " +:+ p_zipCode params)
  | uz :: _ =>
      let searchGeom := uz_geom uz in
      let* totalCount :=
        query SelectCount (countQuery ST_Distance db searchGeom radiusMeters params) in
      let* results :=
        query SelectPage (finalQuery db searchGeom radiusMeters params limit offset) in
      let nextOffset := offset + Z.of_nat (length results) in
      let nextCursor :=
        if decide (nextOffset < totalCount) then Some nextOffset else None in
      ret {| data := formatRow <$> results;
             totalCount := totalCount;
             nextCursor := nextCursor |}
  end.
End Search.

(** ** What the store takes as parameters *)

(** The ranges of [INTEGER] (and [SERIAL]) and of [BIGINT]. *)
Definition int4 (z : Z) : Prop := -2147483648 ≤ z ≤ 2147483647.
Definition int8 (z : Z) : Prop := -9223372036854775808 ≤ z ≤ 9223372036854775807.

#[global] Instance int4_dec (z : Z) : Decision (int4 z).
Proof. unfold int4. apply _. Defined.

#[global] Instance int8_dec (z : Z) : Decision (int8 z).
Proof. unfold int8. apply _. Defined.



(** A point of SRID 4326: a longitude and a latitude in degrees. *)
Definition lon_lat (g : Geom) : Prop :=
  (Qc_of_Z (-180) ≤ ST_X g)%Qc ∧ (ST_X g ≤ Qc_of_Z 180)%Qc
  ∧ (Qc_of_Z (-90) ≤ ST_Y g)%Qc ∧ (ST_Y g ≤ Qc_of_Z 90)%Qc.

(** ** userService *)

(** [getUserTier]: the [membership_tier] of the single profile row, [null]
    when there is none. *)
Definition profile_tier (db : Stores) (userId : string) : option string :=
  match filter (λ pr, pr_id pr = userId) (profiles db) with
  | [pr] => pr_membership_tier pr
  | _ => None
  end.

Definition getUserTier (db : Stores) (userId : string) : M Query Error (option string) :=
  query (SelectProfile userId) (profile_tier db userId).

(** [SELECT zip_code, location_name FROM user_locations WHERE user_id = $1
     [AND is_primary = true] [AND location_name = $2] LIMIT 1] *)
Definition location_rows (db : Stores) (userId : string)
    (locationName : option string) (isPrimary : bool) : list UserLocation :=
  take 1
    (filter (λ ul,
       ul_user_id ul = userId
       ∧ (isPrimary = true → ul_is_primary ul = true)
       ∧ (truthy locationName = true → Some (ul_location_name ul) = locationName))
       (user_locations db)).

(** [getUserLocation(userId, { locationName, isPrimary })] *)
Definition getUserLocation (db : Stores) (userId : string)
    (locationName : option string) (isPrimary : bool) : M Query Error UserLocation :=
  let* rows :=
    query (SelectUserLocation userId isPrimary locationName)
      (location_rows db userId locationName isPrimary) in
  match rows with
  | [] =>
      throw (if truthy locationName
             then "Location '" +:+ or_empty locationName +:+ "' not found"
             else "Primary location not found")
  | row :: _ => ret row
  end.

(** ** Routes *)

Inductive Payload :=
| ErrorJson (error : string)
| ValidationErrorJson
| SearchJson (result : SearchResult)
| NamesJson (names : list string).

Record Response := {
  status : Z;
  json : Payload
}.

Definition respond (code : Z) (msg : string) : Response :=
  {| status := code; json := ErrorJson msg |}.

(** What [authenticateToken] learns from the identity service. *)
Inductive Auth :=
| NoToken
| InvalidToken
| Verified (userId : string).

Definition is_digit (c : ascii) : bool :=
  let n := nat_of_ascii c in ((48 <=? n) && (n <=? 57))%nat.

(** [/^\d{5}$/] *)
Definition zip_pattern (s : string) : bool :=
  bool_decide (length (Text.chars s) = 5%nat) && forallb is_digit (Text.chars s).

(** [findProvidersSchema] *)
Definition findProvidersSchema (b : Body) : bool :=
  negb (bool_decide (drugName b = EmptyString))
  && bool_decide (Qc_of_Z 1 ≤ radiusMiles b)%Qc
  && bool_decide (radiusMiles b ≤ Qc_of_Z 100)%Qc
  && bool_decide (Qc_of_Z 0 ≤ minClaims b)%Qc
  && bool_decide (sortBy b ∈ ["distance"; "claims"; "name"])
  && match zipCode b with
     | Some z => bool_decide (z = EmptyString) || zip_pattern z
     | None => true
     end
  && match cursor b with
     | Some c => bool_decide (0 ≤ c)
     | None => true
     end
  && match limit b with
     | Some n => bool_decide (1 ≤ n ≤ 100)
     | None => true
     end.

(** The argument object the handler passes to [findProviders]. *)
Definition params_of (b : Body) (searchZip : string) : Params :=
  {| p_zipCode := searchZip;
     p_drugName := drugName b;
     p_radiusMiles := radiusMiles b;
     p_minClaims := minClaims b;
     p_taxonomyClass := taxonomyClass b;
     p_sortBy := sortBy b;
     p_cursor := cursor b;
     p_limit := limit b |}.

(** The [catch] clause of [findProvidersHandler]. *)
Definition on_search_error (error : Error) : M Query Error Response :=
  if Text.includes error "not found" then ret (respond 404 error)
  else ret (respond 500 "Unexpected error during provider search").

Section Handlers.
Context (ST_Distance : Geom -> Geom -> Qc).

(** The tier cascade of [findProvidersHandler]: either the response of
    an early [return], or the value of [searchZip]. *)
Definition searchZip_of_tier (db : Stores) (userId : string) (b : Body)
    (userTier : option string) : M Query Error (Response + option string) :=
  if decide (userTier = Some "basic") then
    let* loc := getUserLocation db userId None true in
    ret (inr (ul_zip_code loc))
  else if decide (userTier = Some "premium") then
    if negb (truthy (locationName b)) then
      ret (inl (respond 400 "locationName required for premium"))
    else
      let* loc := getUserLocation db userId (locationName b) false in
      ret (inr (ul_zip_code loc))
  else if decide (userTier = Some "expert") then
    if negb (truthy (zipCode b)) then
      ret (inl (respond 400 "zipCode required for expert"))
    else ret (inr (zipCode b))
  else
    if negb (truthy (zipCode b)) then
      ret (inl (respond 400 "Zip code required"))
    else ret (inr (zipCode b)).

(** [findProvidersHandler]; [user] is [customReq.user?.id]. *)
Definition findProvidersHandler (db : Stores) (user : option string) (b : Body)
    : M Query Error Response :=
  if negb (truthy user) then ret (respond 401 "User not authenticated")
  else
    let userId := or_empty user in
    try_catch
      (let* userTier := getUserTier db userId in
       let* resolved := searchZip_of_tier db userId b userTier in
       match resolved with
       | inl early => ret early
       | inr searchZip =>
           if negb (truthy searchZip) then
             ret (respond 400 "Could not determine search location.")
           else
             let* results :=
               findProviders ST_Distance db (params_of b (or_empty searchZip)) in
             ret {| status := 200; json := SearchJson results |}
       end)
      on_search_error.

(** [app.post('/api/find-providers', authenticateToken,
    validate(findProvidersSchema), findProvidersHandler)] *)
Definition find_providers_route (db : Stores) (auth : Auth) (b : Body)
    : M Query Error Response :=
  match auth with
  | NoToken => ret (respond 401 "Auth token required")
  | InvalidToken => ret (respond 403 "Invalid or expired token")
  | Verified userId =>
      if findProvidersSchema b then findProvidersHandler db (Some userId) b
      else ret {| status := 400; json := ValidationErrorJson |}
  end.

(** What the handler answers once the search zip is known: the search
    from that zip, under the handler's [catch]. *)
Definition search_response (db : Stores) (b : Body) (searchZip : string)
    : M Query Error Response :=
  try_catch
    (let* results := findProviders ST_Distance db (params_of b searchZip) in
     ret {| status := 200; json := SearchJson results |})
    on_search_error.

End Handlers.

(** A text without white space at either end. *)
Definition tidy (s : string) : Prop :=
  ∀ c, head (Text.chars s) = Some c ∨ list.last (Text.chars s) = Some c →
       Ascii.is_space c = false.


(** ** Drug suggestions *)

(** [SELECT x FROM npi_prescriptions WHERE x ILIKE $1] for a name column. *)
Definition names_ilike (col : NpiPrescription -> option string) (db : Stores)
    (pattern : string) : list string :=
  omap (λ np, if Text.ilike_null (col np) pattern then col np else None)
    (npi_prescriptions db).

(** [SELECT DISTINCT name FROM (... UNION ...) LIMIT 10] *)
Definition suggestions_query (db : Stores) (pattern : string) : list string :=
  take 10
    (remove_dups
       (remove_dups (names_ilike np_drug_name db pattern
                     ++ names_ilike np_generic_name db pattern))).

(** [getDrugSuggestionsHandler]; [user] is [customReq.user?.id], and [q]
    is [None] when the parameter is not a string.  The quotation marks
    around q in the error text are left out. *)
Definition getDrugSuggestionsHandler (db : Stores) (user : option string)
    (q : option string) : M Query Error Response :=
  if negb (truthy user) then ret (respond 401 "User not authenticated")
  else
    match q with
    | None => ret (respond 400 "Query parameter q must be at least 2 characters long.")
    | Some query_ =>
        if decide (length (Text.chars query_) < 2)%nat then
          ret (respond 400 "Query parameter q must be at least 2 characters long.")
        else
          let searchQuery := "%" +:+ query_ +:+ "%" in
          let* rows :=
            query (SelectSuggestions searchQuery) (suggestions_query db searchQuery) in
          ret {| status := 200; json := NamesJson rows |}
    end.

(** ** Sample data *)

(** A distance for the examples: the sum of the differences of the two
    coordinates, in the unit of the coordinates.  It is never below the
    planar distance of the two points. *)
Definition Qc_dist (x y : Qc) : Qc :=
  if decide (x ≤ y)%Qc then (y - x)%Qc else (x - y)%Qc.

Definition taxicab (a b : Geom) : Qc :=
  (Qc_dist (ST_X a) (ST_X b) + Qc_dist (ST_Y a) (ST_Y b))%Qc.

Definition point (x y : Z) : Geom := {| ST_X := Qc_of_Z x; ST_Y := Qc_of_Z y |}.

(** Zip 19104 is the origin; the centroids of 19103, 19010 and 19301 lie
    at 1000, 15932.466 and 16254.334 units of the coordinates from it. *)
Definition sample_zipcodes : list UsZipcode :=
  [ {| uz_zip_code := "19104"; uz_geom := point 0 0 |};
    {| uz_zip_code := "19103"; uz_geom := point 1000 0 |};
    {| uz_zip_code := "19010";
       uz_geom := {| ST_X := Q2Qc (15932466 # 1000); ST_Y := Qc_of_Z 0 |} |};
    {| uz_zip_code := "19301";
       uz_geom := {| ST_X := Q2Qc (16254334 # 1000); ST_Y := Qc_of_Z 0 |} |} ].

Definition provider (npi : Z) (first last : string) (deactivated : option string)
    : NpiDetails :=
  {| nd_npi := npi;
     nd_provider_first_name := Some first;
     nd_provider_last_name_legal_name := Some last;
     nd_npi_deactivation_date := deactivated;
     nd_provider_credential_text := Some "MD";
     nd_healthcare_provider_taxonomy_1_classification := Some "Psychiatry & Neurology";
     nd_healthcare_provider_taxonomy_1_specialization := Some "Psychiatry" |}.

Definition practice (npi : Z) (zip : string) : NpiAddress :=
  {| na_npi := npi;
     na_first_line := Some "3400 Spruce St";
     na_second_line := None;
     na_city_name := Some "Philadelphia";
     na_state_name := Some "PA";
     na_postal_code := Some zip;
     na_telephone_number := Some "2155550100" |}.

Definition prescription (id npi : Z) (drug generic : string) (claims : Z)
    (st : string) : NpiPrescription :=
  {| np_prescription_id := id;
     np_npi := npi;
     np_drug_name := Some drug;
     np_generic_name := Some generic;
     np_total_claim_count := claims;
     np_state := st |}.

Definition sample_profiles : list Profile :=
  [ {| pr_id := "u-basic"; pr_membership_tier := Some "basic" |};
    {| pr_id := "u-premium"; pr_membership_tier := Some "premium" |};
    {| pr_id := "u-expert"; pr_membership_tier := Some "expert" |} ].

Definition sample_locations : list UserLocation :=
  [ {| ul_user_id := "u-premium"; ul_location_name := "Work";
       ul_zip_code := Some "19103"; ul_is_primary := false |};
    {| ul_user_id := "u-premium"; ul_location_name := "Home";
       ul_zip_code := Some "19104"; ul_is_primary := true |} ].

Definition stores (nd : list NpiDetails) (na : list NpiAddress)
    (np : list NpiPrescription) : Stores :=
  {| us_zipcodes := sample_zipcodes;
     npi_details := nd;
     npi_addresses := na;
     npi_prescriptions := np;
     profiles := sample_profiles;
     user_locations := sample_locations |}.

(** A search from zip 19104 within 10 miles, at least 5 claims. *)
Definition sample_params (drug sort : string) (cur lim : option Z) : Params :=
  {| p_zipCode := "19104";
     p_drugName := drug;
     p_radiusMiles := Qc_of_Z 10;
     p_minClaims := Qc_of_Z 5;
     p_taxonomyClass := None;
     p_sortBy := sort;
     p_cursor := cur;
     p_limit := lim |}.

(** One provider, deactivated in 2020, prescribing sertraline 1 km from
    the origin. *)
Definition db_deactivated : Stores :=
  stores [provider 1001 "Ann" "Lee" (Some "2020-01-01")]
         [practice 1001 "19103"]
         [prescription 1 1001 "SERTRALINE" "SERTRALINE HCL" 12 "PA"].

(** One active provider whose drug and generic names both contain, but
    do not equal, the word sertraline. *)
Definition db_longer_name : Stores :=
  stores [provider 1002 "Bo" "Kim" None]
         [practice 1002 "19103"]
         [prescription 2 1002 "SERTRALINE HCL" "SERTRALINE HYDROCHLORIDE" 40 "PA"].

(** Provider 2001 has two qualifying prescription rows (one per state
    file), provider 2002 has one. *)
Definition db_two_rows : Stores :=
  stores [provider 2001 "Cy" "Ode" None; provider 2002 "Di" "Paz" None]
         [practice 2001 "19104"; practice 2002 "19103"]
         [prescription 3 2001 "SERTRALINE" "SERTRALINE HCL" 20 "PA";
          prescription 4 2001 "SERTRALINE" "SERTRALINE HCL" 10 "NJ";
          prescription 5 2002 "SERTRALINE" "SERTRALINE HCL" 5 "PA"].

(** ** The integration layer: subscription check and metering

    [getPrescriberDataWithSubscriptionCheck] and
    [stripeService.createUsageRecord].  The text of the former ends inside
    its [INSERT INTO api_usage_logs] statement, before any [return],
    [catch] or [finally]: the model is its [try] block up to and including
    that statement, and says nothing of what the function returns. *)

Module Metering.

Record UserSubscription := {
  user_id : string;
  subscription_status : string;
  plan_id : string;
  stripe_subscription_id : string
}.

Record Plan := {
  stripe_product_id : string;
  tier : string;
  usage_based : bool
}.

Record Prescriber := {
  state : string;
  specialty : string;
  prescription_count : Z
}.

Record Filters := {
  f_state : option string;
  f_specialty : option string;
  f_minPrescriptions : option Z
}.

(** The tables, and how the collaborators answer: the payment
    processor on [subscriptions.retrieve] (the ids of the subscription's
    items) and on [subscriptionItems.createUsageRecord], the data service
    on the prescriber query, the pool on the audit insert. *)
Record World := {
  user_subscriptions : list UserSubscription;
  subscription_plans : list Plan;
  prescribers : list Prescriber;
  prescribers_error : option Error;
  stripe_retrieve : string -> Error + list string;
  stripe_usage : string -> Z -> Error + unit;
  insert_usage_log : Error + unit
}.

Inductive Effect :=
| SelectActiveSubscription (userId : string)
| SelectPlan (userId : string)
| SelectPrescribers (row_limit : option Z)
| SelectSubscriptionId (userId : string)
| RetrieveSubscription (subscriptionId : string)
| UsageIncrement (subscriptionItemId : string) (quantity : Z)
| InsertApiUsageLog (columns : list string) (userId endpoint : string)
    (query_params : Filters)
| ConsoleError (message : string).

(** The column list of [INSERT INTO api_usage_logs]; the text shows the
    values of the first three columns, the last of them the filters as
    JSON, and ends before the others. *)
Definition api_usage_logs_columns : list string :=
  ["user_id"; "endpoint"; "query_params"; "results_count"; "subscription_id"].

(** The answer of a collaborator, as a computation. *)
Definition answer {A} (r : Error + A) : M Effect Error A := ([], r).

(** [stripeService.createUsageRecord(subscriptionItemId, quantity)]: the
    increment is sent; a failure is logged and thrown again. *)
Definition createUsageRecord (w : World) (subscriptionItemId : string)
    (quantity : Z) : M Effect Error unit :=
  try_catch
    (tell (UsageIncrement subscriptionItemId quantity) >>
     answer (stripe_usage w subscriptionItemId quantity))
    (λ error, tell (ConsoleError "Error creating usage record:") >> throw error).

(** The filters and the row limit of the tier. *)
Definition passes (filters : Filters) (r : Prescriber) : bool :=
  (if truthy (f_state filters)
   then bool_decide (Some (state r) = f_state filters) else true)
  && (if truthy (f_specialty filters)
      then bool_decide (Some (specialty r) = f_specialty filters) else true)
  && match f_minPrescriptions filters with
     | Some n => bool_decide (n = 0) || bool_decide (n ≤ prescription_count r)
     | None => true
     end.

Definition select_prescribers (w : World) (filters : Filters) (pl : Plan)
    : list Prescriber :=
  let rows := filter (λ r, passes filters r = true) (prescribers w) in
  if decide (tier pl = "basic") then take 100 rows
  else if decide (tier pl = "professional") then take 1000 rows
  else rows.

Definition row_limit (pl : Plan) : option Z :=
  if decide (tier pl = "basic") then Some 100
  else if decide (tier pl = "professional") then Some 1000
  else None.

(** [SELECT * FROM user_subscriptions WHERE user_id = $1
     AND subscription_status = 'active'] *)
Definition active_rows (w : World) (userId : string) : list UserSubscription :=
  filter (λ us, user_id us = userId ∧ subscription_status us = "active")
    (user_subscriptions w).

(** [SELECT sp.* FROM subscription_plans sp JOIN user_subscriptions us
     ON us.plan_id = sp.stripe_product_id WHERE us.user_id = $1] *)
Definition plan_rows (w : World) (userId : string) : list Plan :=
  sp ← subscription_plans w;
  us ← filter (λ us, plan_id us = stripe_product_id sp ∧ user_id us = userId)
         (user_subscriptions w);
  [sp].

(** [SELECT stripe_subscription_id FROM user_subscriptions
     WHERE user_id = $1] *)
Definition subscription_rows (w : World) (userId : string)
    : list UserSubscription :=
  filter (λ us, user_id us = userId) (user_subscriptions w).

(** Step 4 of the function: the metering block.  The name [stripe] used
    for [subscriptions.retrieve] has no binding in the text of the
    integration layer; [stripe_retrieve] answering with an error covers
    the failure of that lookup. *)
Definition record_usage (w : World) (userId : string) (filters : Filters)
    : M Effect Error unit :=
  let* subscription :=
    (tell (SelectSubscriptionId userId) >> ret (subscription_rows w userId)) in
  match subscription with
  | [] => ret tt
  | us :: _ =>
      let* items :=
        (tell (RetrieveSubscription (stripe_subscription_id us)) >>
         answer (stripe_retrieve w (stripe_subscription_id us))) in
      match items with
      | [] => throw "Cannot read properties of undefined (reading 'id')"
      | subscriptionItemId :: _ =>
          createUsageRecord w subscriptionItemId 1 >>
          tell (InsertApiUsageLog api_usage_logs_columns userId "prescribers" filters) >>
          answer (insert_usage_log w)
      end
  end.

(** The [try] block of [getPrescriberDataWithSubscriptionCheck] as far as
    its text goes: [inr tt] says that the last statement of the text was
    reached and came back, [inl e] that [e] was thrown inside the block. *)
Definition getPrescriberDataWithSubscriptionCheck (w : World) (userId : string)
    (filters : Filters) : M Effect Error unit :=
  let* subscriptionResult :=
    (tell (SelectActiveSubscription userId) >> ret (active_rows w userId)) in
  match subscriptionResult with
  | [] => throw "No active subscription found"
  | _ :: _ =>
      let* planResult :=
        (tell (SelectPlan userId) >> ret (plan_rows w userId)) in
      match planResult with
      | [] => throw "Subscription plan not found"
      | pl :: _ =>
          let* data_ :=
            (tell (SelectPrescribers (row_limit pl)) >>
             match prescribers_error w with
             | Some error => throw error
             | None => ret (select_prescribers w filters pl)
             end) in
          if usage_based pl then record_usage w userId filters else ret tt
      end
  end.

Definition is_usage_call (e : Effect) : bool :=
  match e with UsageIncrement _ _ => true | _ => false end.
Definition is_audit_row (e : Effect) : bool :=
  match e with InsertApiUsageLog _ _ _ _ => true | _ => false end.
Definition is_log (e : Effect) : bool :=
  match e with ConsoleError _ => true | _ => false end.

Definition count_of (f : Effect -> bool) (t : list Effect) : nat :=
  length (filter (λ e, f e = true) t).

(** A user on a usage-based plan, and a payment processor whose
    subscription lookup and usage call succeed or fail as told. *)
Definition sample_subscription : UserSubscription :=
  {| user_id := "u-metered";
     subscription_status := "active";
     plan_id := "prod_1";
     stripe_subscription_id := "sub_1" |}.

Definition sample_plan : Plan :=
  {| stripe_product_id := "prod_1"; tier := "enterprise"; usage_based := true |}.

Definition sample_world (retrieve_ok usage_ok : bool) : World :=
  {| user_subscriptions := [sample_subscription];
     subscription_plans := [sample_plan];
     prescribers :=
       [ {| state := "PA"; specialty := "Psychiatry"; prescription_count := 40 |} ];
     prescribers_error := None;
     stripe_retrieve :=
       λ _, if retrieve_ok then inr ["si_1"] else inl "stripe is not defined";
     stripe_usage := λ _ _, if usage_ok then inr tt else inl "StripeConnectionError";
     insert_usage_log := inr tt |}.

Definition no_filters : Filters :=
  {| f_state := None; f_specialty := None; f_minPrescriptions := None |}.

End Metering.

(** Two providers prescribing sertraline, at 15932.466 and 16254.334 units
    from the origin. *)
Definition db_boundary : Stores :=
  stores [provider 3001 "Eve" "Roe" None; provider 3002 "Flo" "Sun" None]
         [practice 3001 "19010"; practice 3002 "19301"]
         [prescription 6 3001 "SERTRALINE" "SERTRALINE HCL" 30 "PA";
          prescription 7 3002 "SERTRALINE" "SERTRALINE HCL" 30 "PA"].

Definition joined_near : Joined :=
  (provider 3001 "Eve" "Roe" None, practice 3001 "19010",
   prescription 6 3001 "SERTRALINE" "SERTRALINE HCL" 30 "PA",
   {| uz_zip_code := "19010";
      uz_geom := {| ST_X := Q2Qc (15932466 # 1000); ST_Y := Qc_of_Z 0 |} |}).

(** A store by longitude and latitude: the origin zip 19104 lies in
    Philadelphia, and the only provider practises in zip 90001 in Los
    Angeles, some 2400 miles away. *)
Definition degree_zipcodes : list UsZipcode :=
  [ {| uz_zip_code := "19104";
       uz_geom := {| ST_X := Q2Qc (-7520 # 100); ST_Y := Q2Qc (3996 # 100) |} |};
    {| uz_zip_code := "90001";
       uz_geom := {| ST_X := Q2Qc (-11825 # 100); ST_Y := Q2Qc (3397 # 100) |} |} ].

Definition db_far : Stores :=
  {| us_zipcodes := degree_zipcodes;
     npi_details := [provider 4001 "Gus" "Lam" None];
     npi_addresses := [practice 4001 "90001"];
     npi_prescriptions := [prescription 8 4001 "SERTRALINE" "SERTRALINE HCL" 30 "CA"];
     profiles := sample_profiles;
     user_locations := sample_locations |}.

Definition origin_19104 : Geom :=
  {| ST_X := Q2Qc (-7520 # 100); ST_Y := Q2Qc (3996 # 100) |}.

Definition joined_far : Joined :=
  (provider 4001 "Gus" "Lam" None, practice 4001 "90001",
   prescription 8 4001 "SERTRALINE" "SERTRALINE HCL" 30 "CA",
   {| uz_zip_code := "90001";
      uz_geom := {| ST_X := Q2Qc (-11825 # 100); ST_Y := Q2Qc (3397 # 100) |} |}).


(** The joined row of the provider of [db_deactivated], its view, and the
    response that holds it. *)
Definition joined_deactivated : Joined :=
  (provider 1001 "Ann" "Lee" (Some "2020-01-01"), practice 1001 "19103",
   prescription 1 1001 "SERTRALINE" "SERTRALINE HCL" 12 "PA",
   {| uz_zip_code := "19103"; uz_geom := point 1000 0 |}).

Definition sample_view : View.t :=
  formatRow (select_row taxicab (point 0 0) joined_deactivated).

Definition sample_result : SearchResult :=
  {| data := [sample_view]; totalCount := 1; nextCursor := None |}.

(** A request for sertraline within 10 miles with at least 5 claims. *)
Definition sample_body (zip label : option string) : Body :=
  {| drugName := "sertraline";
     radiusMiles := Qc_of_Z 10;
     minClaims := Qc_of_Z 5;
     taxonomyClass := None;
     sortBy := "distance";
     locationName := label;
     zipCode := zip;
     cursor := None;
     limit := None |}.

(** Rows of a page, for the shaping of views. *)
Definition sample_row (first city phone : option string) (distance : Qc)
    (claims : Z) : Row.t :=
  {| Row.npi := 1001;
     Row.provider_first_name := first;
     Row.provider_last_name := Some "Lee";
     Row.provider_credential_text := None;
     Row.healthcare_provider_taxonomy_1_classification := Some "Psychiatry & Neurology";
     Row.healthcare_provider_taxonomy_1_specialization := Some EmptyString;
     Row.address_line_1 := Some "3400 Spruce St";
     Row.address_line_2 := None;
     Row.city := city;
     Row.state := Some "PA";
     Row.postal_code := Some "19103";
     Row.phone := phone;
     Row.longitude := Qc_of_Z 1000;
     Row.latitude := Qc_of_Z 0;
     Row.distance_meters := distance;
     Row.total_claim_count := claims |}.

(** What a search outcome shows of its page: the provider identifiers in
    order, the total and the next cursor. *)
Definition page_ids (m : M Query Error SearchResult) : option (list Z * Z * option Z) :=
  match outcome m with
  | inr res => Some (View.npi <$> data res, totalCount res, nextCursor res)
  | inl _ => None
  end.

(** ** The listing behind the pages *)

Section Listing.
Context (ST_Distance : Geom -> Geom -> Qc).

(** The rows of the page query before [LIMIT] and [OFFSET], rows that tie
    on the sort keys in the order in which the sort meets them.  The store
    is free to order such rows otherwise, see [possible_listing]. *)
Definition ordered_rows (db : Stores) (searchGeom : Geom) (radiusMeters : Qc)
    (p : Params) : list Row.t :=
  sort_rows (order_by (p_sortBy p))
    (remove_dups
       (select_row ST_Distance searchGeom
          <$> baseQuery ST_Distance db searchGeom radiusMeters p)).

End Listing.

(** A comparison that behaves like the one of a total preorder. *)
Record Comparator {A : Type} (c : A → A → comparison) : Prop := {
  cmp_antisym : ∀ x y, c y x = CompOpp (c x y);
  cmp_lt_trans : ∀ x y z, c x y = Lt → c y z = Lt → c x z = Lt;
  cmp_eq_l : ∀ x y z, c x y = Eq → c x z = c y z
}.





(** The sample search restricted to a taxonomy class. *)
Definition sample_params_class (class : string) : Params :=
  {| p_zipCode := "19104";
     p_drugName := "sertraline";
     p_radiusMiles := Qc_of_Z 10;
     p_minClaims := Qc_of_Z 5;
     p_taxonomyClass := Some class;
     p_sortBy := "distance";
     p_cursor := None;
     p_limit := None |}.

(** ** Role check *)

(** [requireTier(allowedTiers)]: [None] stands for [next()].  The request
    carries no tier of its own at this point, so the tier is read from the
    profile. *)
Definition tier_refusal : string := "Access denied: Insufficient membership tier.".

Definition requireTier (allowedTiers : list string) (db : Stores)
    (user : option string) : option (Z * string) :=
  match user with
  | None => Some (401, "User not authenticated")
  | Some userId =>
      let userTier := profile_tier db userId in
      if negb (truthy userTier) || negb (bool_decide (or_empty userTier ∈ allowedTiers))
      then Some (403, tier_refusal)
      else None
  end.

(** ** Saved locations: the routes under [/api/user/locations] *)

Module Locations.

(** A row of [user_locations] with its serial key. *)
Record Saved := {
  user_location_id : Z;
  location : UserLocation
}.

(** The table and the next value of its serial. *)
Record Table := {
  rows : list Saved;
  next_id : Z
}.

(** The stores with the saved locations of the table. *)
Definition with_locations (db : Stores) (t : Table) : Stores :=
  {| us_zipcodes := us_zipcodes db;
     npi_details := npi_details db;
     npi_addresses := npi_addresses db;
     npi_prescriptions := npi_prescriptions db;
     profiles := profiles db;
     user_locations := location <$> rows t |}.

(** [{ id, name, zipCode, isPrimary }] *)
Record Item := {
  id : Z;
  name : string;
  zipCode : option string;
  isPrimary : bool
}.

Definition item_of (s : Saved) : Item :=
  {| id := user_location_id s;
     name := ul_location_name (location s);
     zipCode := ul_zip_code (location s);
     isPrimary := ul_is_primary (location s) |}.

Inductive Statement :=
| Begin
| Commit
| Rollback
| SelectLocations (userId : string)
| SelectZipExists (zip : string)
| SelectNameExists (userId name : string)
| InsertLocation (userId name zip : string)
| SelectIsPrimary (locationId : Z) (userId : string)
| DeleteLocation (locationId : Z) (userId : string)
| ClearOtherPrimaries (userId : string) (locationId : Z)
| SetPrimary (userId : string) (locationId : Z).

Inductive Json :=
| ErrorJson (error : string)
| ValidationErrorJson
| ItemJson (item : Item)
| ItemsJson (items : list Item)
| SuccessJson.

Record Reply := {
  status : Z;
  json : Json
}.

(** What a handler leaves: the statements sent, the table, the reply. *)
Definition Run : Type := (list Statement * Table * Reply)%type.

Definition statements (r : Run) : list Statement := r.1.1.
Definition table (r : Run) : Table := r.1.2.
Definition reply (r : Run) : Reply := r.2.

Definition refuse (t : Table) (sent : list Statement) (code : Z) (msg : string) : Run :=
  (sent, t, {| status := code; json := ErrorJson msg |}).

Definition owned_by (userId : string) (s : Saved) : Prop :=
  ul_user_id (location s) = userId.

#[global] Instance owned_by_dec (userId : string) (s : Saved) : Decision (owned_by userId s).
Proof. unfold owned_by. apply _. Defined.

(** [ORDER BY is_primary DESC, location_name ASC].  The store orders the
    names by the collation of its database; [String.compare] stands for
    it, and nothing below is stated about the order of the names. *)
Definition cmp_flag_desc (a b : bool) : comparison :=
  match a, b with
  | true, false => Lt
  | false, true => Gt
  | _, _ => Eq
  end.

Definition listing_order (a b : Saved) : comparison :=
  then_cmp (cmp_flag_desc (ul_is_primary (location a)) (ul_is_primary (location b)))
    (String.compare (ul_location_name (location a)) (ul_location_name (location b))).

Definition listed_before (a b : Saved) : Prop := listing_order a b ≠ Gt.

#[global] Instance listed_before_dec (a b : Saved) : Decision (listed_before a b).
Proof. unfold listed_before. apply _. Defined.

(** [getUserLocationsHandler] *)
Definition getUserLocationsHandler (t : Table) (user : option string) : Run :=
  if negb (truthy user) then refuse t [] 401 "User not authenticated"
  else
    let userId := or_empty user in
    ([SelectLocations userId], t,
     {| status := 200;
        json := ItemsJson (item_of <$> merge_sort listed_before
                                         (filter (owned_by userId) (rows t))) |}).

Definition quotation_mark : ascii := Eval cbv in ascii_of_nat 34.

(** [`Location "${name}" already exists.`] *)
Definition already_exists (name : string) : string :=
  "Location " +:+ String quotation_mark name
  +:+ String quotation_mark " already exists.".

(** [addUserLocationHandler] *)
Definition addUserLocationHandler (db : Stores) (t : Table) (user : option string)
    (name zipCode : string) : Run :=
  if negb (truthy user) then refuse t [] 401 "User not authenticated"
  else
    let userId := or_empty user in
    match filter (λ uz, uz_zip_code uz = zipCode) (us_zipcodes db) with
    | [] => refuse t [SelectZipExists zipCode] 400 ("Invalid zip code: " +:+ zipCode)
    | _ :: _ =>
        match filter (λ s, owned_by userId s ∧ ul_location_name (location s) = name)
                (rows t) with
        | _ :: _ =>
            refuse t [SelectZipExists zipCode; SelectNameExists userId name] 409
              (already_exists name)
        | [] =>
            let saved :=
              {| user_location_id := next_id t;
                 location := {| ul_user_id := userId;
                                ul_location_name := name;
                                ul_zip_code := Some zipCode;
                                ul_is_primary := false |} |} in
            ([SelectZipExists zipCode; SelectNameExists userId name;
              InsertLocation userId name zipCode],
             {| rows := rows t ++ [saved]; next_id := next_id t + 1 |},
             {| status := 201; json := ItemJson (item_of saved) |})
        end
    end.

(** The rows a statement with [WHERE user_location_id = $1 AND user_id = $2]
    touches. *)
Definition targeted (locationId : Z) (userId : string) (s : Saved) : Prop :=
  user_location_id s = locationId ∧ owned_by userId s.

#[global] Instance targeted_dec (locationId : Z) (userId : string) (s : Saved)
  : Decision (targeted locationId userId s).
Proof. unfold targeted. apply _. Defined.

(** [deleteUserLocationHandler]; [locationId] is the path segment as the
    integer the store reads it as.  The definition covers the segments
    that are a value of the [SERIAL] column ([int4]); on any other the
    store raises an error and the handler answers 500. *)
Definition deleteUserLocationHandler (t : Table) (user : option string)
    (locationId : Z) : Run :=
  if negb (truthy user) then refuse t [] 401 "User not authenticated"
  else
    let userId := or_empty user in
    let found := filter (targeted locationId userId) (rows t) in
    if match found with
       | s :: _ => ul_is_primary (location s)
       | [] => false
       end
    then refuse t [SelectIsPrimary locationId userId] 400 "Cannot delete primary location."
    else
      let sent := [SelectIsPrimary locationId userId; DeleteLocation locationId userId] in
      if decide (length found = 0%nat) then refuse t sent 404 "Location not found."
      else
        (sent,
         {| rows := filter (λ s, ¬ targeted locationId userId s) (rows t);
            next_id := next_id t |},
         {| status := 200; json := SuccessJson |}).

Definition set_flag (flag : bool) (s : Saved) : Saved :=
  {| user_location_id := user_location_id s;
     location := {| ul_user_id := ul_user_id (location s);
                    ul_location_name := ul_location_name (location s);
                    ul_zip_code := ul_zip_code (location s);
                    ul_is_primary := flag |} |}.

(** [UPDATE user_locations SET is_primary = false
     WHERE user_id = $1 AND user_location_id != $2] *)
Definition clear_other_primaries (userId : string) (locationId : Z)
    (l : list Saved) : list Saved :=
  (λ s, if decide (owned_by userId s ∧ user_location_id s ≠ locationId)
        then set_flag false s else s) <$> l.

(** [UPDATE user_locations SET is_primary = true
     WHERE user_id = $1 AND user_location_id = $2] *)
Definition set_primary (userId : string) (locationId : Z) (l : list Saved)
    : list Saved :=
  (λ s, if decide (targeted locationId userId s) then set_flag true s else s) <$> l.

(** [setPrimaryLocationHandler]: both updates run inside a transaction that
    is rolled back when the second one touches no row.  As for the
    deletion, [locationId] is a value of the [SERIAL] column ([int4]); on
    any other segment the first update raises an error and the handler
    answers 500. *)
Definition setPrimaryLocationHandler (t : Table) (user : option string)
    (locationId : Z) : Run :=
  if negb (truthy user) then refuse t [] 401 "User not authenticated"
  else
    let userId := or_empty user in
    let cleared := clear_other_primaries userId locationId (rows t) in
    let rowCount := length (filter (targeted locationId userId) cleared) in
    if decide (rowCount = 0%nat) then
      refuse t [Begin; ClearOtherPrimaries userId locationId;
                SetPrimary userId locationId; Rollback] 404 "Location not found."
    else
      ([Begin; ClearOtherPrimaries userId locationId; SetPrimary userId locationId;
        Commit],
       {| rows := set_primary userId locationId cleared; next_id := next_id t |},
       {| status := 200; json := SuccessJson |}).

(** [addLocationSchema] *)
Definition addLocationSchema (name zipCode : string) : bool :=
  negb (bool_decide (name = EmptyString)) && zip_pattern zipCode.

(** A request to one of the four routes. *)
Inductive Request :=
| List
| Add (name zipCode : string)
| Delete (locationId : Z)
| MakePrimary (locationId : Z).

Definition unauthenticated (t : Table) (auth : Auth) : option Run :=
  match auth with
  | NoToken => Some (refuse t [] 401 "Auth token required")
  | InvalidToken => Some (refuse t [] 403 "Invalid or expired token")
  | Verified _ => None
  end.

Definition user_of (auth : Auth) : option string :=
  match auth with
  | Verified userId => Some userId
  | _ => None
  end.

(** The routes: [authenticateToken], then for adding and for choosing the
    primary location [requireTier(['premium', 'expert'])], then for adding
    the schema, then the handler. *)
Definition route (db : Stores) (t : Table) (auth : Auth) (req : Request) : Run :=
  match unauthenticated t auth with
  | Some refused => refused
  | None =>
      let user := user_of auth in
      match req with
      | List => getUserLocationsHandler t user
      | Delete locationId => deleteUserLocationHandler t user locationId
      | Add name zipCode =>
          match requireTier ["premium"; "expert"] db user with
          | Some (code, msg) => refuse t [] code msg
          | None =>
              if addLocationSchema name zipCode
              then addUserLocationHandler db t user name zipCode
              else ([], t, {| status := 400; json := ValidationErrorJson |})
          end
      | MakePrimary locationId =>
          match requireTier ["premium"; "expert"] db user with
          | Some (code, msg) => refuse t [] code msg
          | None => setPrimaryLocationHandler t user locationId
          end
      end
  end.

(** A sequence of requests, each on the table the one before left. *)
Fixpoint serve (db : Stores) (t : Table) (reqs : list (Auth * Request)) : Table :=
  match reqs with
  | [] => t
  | (auth, req) :: rest => serve db (table (route db t auth req)) rest
  end.

(** The table obeys its keys: serial keys are distinct and below the next
    value, and no user has two primary locations. *)
Definition well_keyed (t : Table) : Prop :=
  NoDup (user_location_id <$> rows t)
  ∧ (∀ s, s ∈ rows t → user_location_id s < next_id t)
  ∧ (∀ a b, a ∈ rows t → b ∈ rows t →
            ul_user_id (location a) = ul_user_id (location b) →
            ul_is_primary (location a) = true → ul_is_primary (location b) = true →
            a = b).

Definition saved (id : Z) (userId name : string) (zip : string) (primary : bool)
    : Saved :=
  {| user_location_id := id;
     location := {| ul_user_id := userId; ul_location_name := name;
                    ul_zip_code := Some zip; ul_is_primary := primary |} |}.

Definition sample_table : Table :=
  {| rows := [saved 1 "u-premium" "Work" "19103" false;
              saved 2 "u-premium" "Home" "19104" true;
              saved 3 "u-expert" "Lab" "19103" false];
     next_id := 4 |}.

End Locations.

(** ** providerService.getProviderDetails *)

(** A row of the details query: the columns of its [SELECT] list.  The
    columns of the two left-joined tables are [NULL] when no row joins. *)
Module DetailRow.
(** [json_build_object('id', np.prescription_id, 'name', np.drug_name,
     'genericName', np.generic_name)] *)
Record Medication := {
  id : Z;
  name : option string;
  genericName : option string
}.

Record t := {
  npi : Z;
  provider_first_name : option string;
  provider_last_name : option string;
  provider_credential_text : option string;
  healthcare_provider_taxonomy_1_classification : option string;
  healthcare_provider_taxonomy_1_specialization : option string;
  address_line_1 : option string;
  address_line_2 : option string;
  city : option string;
  state : option string;
  postal_code : option string;
  phone : option string;
  longitude : option Qc;
  latitude : option Qc;
  prescribed_medications : option (list Medication)
}.
End DetailRow.

(** The object built by [getProviderDetails]. *)
Module Detail.
Record t := {
  id : Z;
  npi : Z;
  name : string;
  first_name : option string;
  last_name : option string;
  title : string;
  specialties : list string;
  city : option string;
  state : option string;
  location : string;
  rating : Z;
  review_count : Z;
  availability : string;
  latitude : option Qc;
  longitude : option Qc;
  phone : option string;
  bio : option string;
  prescribed_medications : list DetailRow.Medication
}.
End Detail.

Definition medication_of (np : NpiPrescription) : DetailRow.Medication :=
  {| DetailRow.id := np_prescription_id np;
     DetailRow.name := np_drug_name np;
     DetailRow.genericName := np_generic_name np |}.

(** [json_agg] over the rows of a subquery: [NULL] when there is no row. *)
Definition json_agg {A : Type} (l : list A) : option (list A) :=
  match l with
  | [] => None
  | _ :: _ => Some l
  end.

(** The right side of a [LEFT JOIN]: the matching rows, or one row of
    [NULL]s when there is none. *)
Definition left_rows {A : Type} (matching : list A) : list (option A) :=
  match matching with
  | [] => [None]
  | _ :: _ => Some <$> matching
  end.

Definition LeftJoined : Type := (NpiDetails * option NpiAddress * option UsZipcode)%type.

(** [FROM npi_details nd LEFT JOIN npi_addresses na ON nd.npi = na.npi
     LEFT JOIN us_zipcodes uz ON na.postal_code = uz.zip_code] *)
Definition from_left_join (db : Stores) : list LeftJoined :=
  nd ← npi_details db;
  na ← left_rows (filter (λ na, nd_npi nd = na_npi na) (npi_addresses db));
  uz ← left_rows (filter (λ uz, na ≫= na_postal_code = Some (uz_zip_code uz))
                    (us_zipcodes db));
  [(nd, na, uz)].

(** The [SELECT] list of the details query, with its subquery
    [(SELECT json_agg(...) FROM npi_prescriptions np WHERE np.npi = nd.npi)]. *)
Definition select_details (db : Stores) (j : LeftJoined) : DetailRow.t :=
  let nd := j.1.1 in
  let na := j.1.2 in
  let uz := j.2 in
  {| DetailRow.npi := nd_npi nd;
     DetailRow.provider_first_name := nd_provider_first_name nd;
     DetailRow.provider_last_name := nd_provider_last_name_legal_name nd;
     DetailRow.provider_credential_text := nd_provider_credential_text nd;
     DetailRow.healthcare_provider_taxonomy_1_classification :=
       nd_healthcare_provider_taxonomy_1_classification nd;
     DetailRow.healthcare_provider_taxonomy_1_specialization :=
       nd_healthcare_provider_taxonomy_1_specialization nd;
     DetailRow.address_line_1 := na ≫= na_first_line;
     DetailRow.address_line_2 := na ≫= na_second_line;
     DetailRow.city := na ≫= na_city_name;
     DetailRow.state := na ≫= na_state_name;
     DetailRow.postal_code := na ≫= na_postal_code;
     DetailRow.phone := na ≫= na_telephone_number;
     DetailRow.longitude := ST_X ∘ uz_geom <$> uz;
     DetailRow.latitude := ST_Y ∘ uz_geom <$> uz;
     DetailRow.prescribed_medications :=
       json_agg (medication_of <$>
                   filter (λ np, np_npi np = nd_npi nd) (npi_prescriptions db)) |}.

(** [... WHERE nd.npi = $1 LIMIT 1] *)
Definition details_rows (db : Stores) (providerId : Z) : list DetailRow.t :=
  take 1 (select_details db <$>
            filter (λ j : LeftJoined, nd_npi j.1.1 = providerId) (from_left_join db)).

(** [formattedProvider] *)
Definition formattedProvider (row : DetailRow.t) : Detail.t :=
  {| Detail.id := DetailRow.npi row;
     Detail.npi := DetailRow.npi row;
     Detail.name :=
       display_name (DetailRow.provider_first_name row) (DetailRow.provider_last_name row);
     Detail.first_name := DetailRow.provider_first_name row;
     Detail.last_name := DetailRow.provider_last_name row;
     Detail.title := or_empty (DetailRow.provider_credential_text row);
     Detail.specialties :=
       filter_Boolean [DetailRow.healthcare_provider_taxonomy_1_classification row;
                       DetailRow.healthcare_provider_taxonomy_1_specialization row];
     Detail.city := DetailRow.city row;
     Detail.state := DetailRow.state row;
     Detail.location :=
       address_line (DetailRow.address_line_1 row) (DetailRow.address_line_2 row)
         (DetailRow.city row) (DetailRow.state row) (DetailRow.postal_code row);
     Detail.rating := 0;
     Detail.review_count := 0;
     Detail.availability := "N/A";
     Detail.latitude := DetailRow.latitude row;
     Detail.longitude := DetailRow.longitude row;
     Detail.phone := DetailRow.phone row;
     Detail.bio := None;
     Detail.prescribed_medications := default [] (DetailRow.prescribed_medications row) |}.

(** [getProviderDetails]; [providerId] is the path segment as the integer
    the store reads it as.  The definition covers the segments that are a
    value of the [BIGINT] column ([int8]); on any other the query raises
    an error and the handler answers 500. *)
Definition getProviderDetails (db : Stores) (providerId : Z) : option Detail.t :=
  match details_rows db providerId with
  | [] => None
  | row :: _ => Some (formattedProvider row)
  end.

Inductive DetailsReply :=
| DetailsRefused (code : Z) (error : string)
| DetailsFound (provider : Detail.t).

(** [getProviderDetailsHandler]; a path segment is never empty, so the
    check of [providerId] always passes. *)
Definition getProviderDetailsHandler (db : Stores) (user : option string)
    (providerId : Z) : DetailsReply :=
  if negb (truthy user) then DetailsRefused 401 "User not authenticated"
  else
    match getProviderDetails db providerId with
    | None => DetailsRefused 404 "Provider not found."
    | Some providerDetails => DetailsFound providerDetails
    end.

(** [app.get('/api/providers/:id', authenticateToken,
     getProviderDetailsHandler)] *)
Definition provider_details_route (db : Stores) (auth : Auth) (providerId : Z)
    : DetailsReply :=
  match auth with
  | NoToken => DetailsRefused 401 "Auth token required"
  | InvalidToken => DetailsRefused 403 "Invalid or expired token"
  | Verified userId => getProviderDetailsHandler db (Some userId) providerId
  end.

(** ** authenticateToken *)

Module Authn.
(** What the middleware reads of a request: the [authorization] header
    and the [auth_token] cookie. *)
Record Headers := {
  authorization : option string;
  auth_token : option string
}.

(** [s.split(' ')] *)
Fixpoint split_space_chars (l : list ascii) : list (list ascii) :=
  match l with
  | [] => [[]]
  | c :: l' =>
      if bool_decide (c = " "%char) then [] :: split_space_chars l'
      else
        match split_space_chars l' with
        | segment :: rest => (c :: segment) :: rest
        | [] => [[c]]
        end
  end.

Definition split_space (s : string) : list string :=
  Text.of_chars <$> split_space_chars (Text.chars s).

(** [authHeader && authHeader.split(' ')[1]] *)
Definition token_of (authHeader : option string) : option string :=
  if truthy authHeader then split_space (or_empty authHeader) !! 1%nat
  else authHeader.

(** [data.user] of the identity service. *)
Record IdentityUser := {
  id : string;
  email : option string
}.

(** What [supabase.auth.getUser] answers: [data.user] and [error], or an
    exception. *)
Inductive Answer :=
| Resolved (user : option IdentityUser) (error : option string)
| Thrown (message : string).

(** [customReq.user] *)
Record User := {
  user_id : string;
  user_email : string
}.

Inductive Outcome :=
| Next (user : User)
| Refused (code : Z) (error : string).

(** What the middleware leaves: the tokens it sent to the identity
    service, whether it cleared the cookie, and how it ends. *)
Record Run := {
  asked : list string;
  cleared_cookie : bool;
  outcome : Outcome
}.

Definition authenticateToken (getUser : string → Answer) (h : Headers) : Run :=
  let token := token_of (authorization h) in
  let cookieToken := auth_token h in
  if negb (truthy token) && negb (truthy cookieToken) then
    {| asked := []; cleared_cookie := false;
       outcome := Refused 401 "Auth token required" |}
  else
    let authToken := or_empty (if truthy token then token else cookieToken) in
    match getUser authToken with
    | Resolved (Some user) None =>
        {| asked := [authToken]; cleared_cookie := false;
           outcome := Next {| user_id := id user;
                              user_email := if truthy (email user)
                                            then or_empty (email user) else "N/A" |} |}
    | Resolved _ _ =>
        {| asked := [authToken]; cleared_cookie := truthy cookieToken;
           outcome := Refused 403 "Invalid or expired token" |}
    | Thrown _ =>
        {| asked := [authToken]; cleared_cookie := false;
           outcome := Refused 500 "Internal server error during authentication" |}
    end.

(** The outcome as the routes see it. *)
Definition auth_of (r : Run) : option Auth :=
  match outcome r with
  | Next user => Some (Verified (user_id user))
  | Refused code _ =>
      if decide (code = 401) then Some NoToken
      else if decide (code = 403) then Some InvalidToken
      else None
  end.

(** An identity service that knows one token. *)
Definition sample_getUser (token : string) : Answer :=
  if decide (token = "tok-1")
  then Resolved (Some {| id := "u-premium"; email := None |}) None
  else Resolved None (Some "invalid JWT").
End Authn.

(** ** Sync and membership endpoints *)

Module Accounts.
(** A row of [profiles] with its [email] column. *)
Record Account := {
  profile : Profile;
  email : option string
}.

Definition Table : Type := list Account.

(** The store whose [profiles] are those of the accounts. *)
Definition with_profiles (db : Stores) (t : Table) : Stores :=
  {| us_zipcodes := us_zipcodes db;
     npi_details := npi_details db;
     npi_addresses := npi_addresses db;
     npi_prescriptions := npi_prescriptions db;
     profiles := profile <$> t;
     user_locations := user_locations db |}.

(** [.eq('id', userId).single()]: the row when there is exactly one. *)
Definition single (t : Table) (userId : string) : option Account :=
  match filter (λ a, pr_id (profile a) = userId) t with
  | [a] => Some a
  | _ => None
  end.

(** [.update({ email: userEmail }).eq('id', userId)] *)
Definition update_email (userId userEmail : string) (t : Table) : Table :=
  (λ a, if decide (pr_id (profile a) = userId)
        then {| profile := profile a; email := Some userEmail |}
        else a) <$> t.

Inductive Json :=
| Failure (message : string)
| Success (message : string) (membershipTier : option string).

Record Reply := {
  status : Z;
  json : Json
}.

(** [syncUserHandler]; [user] is [customReq.user]. *)
Definition syncUserHandler (t : Table) (user : option Authn.User) : Table * Reply :=
  let userId := Authn.user_id <$> user in
  let userEmail := Authn.user_email <$> user in
  if negb (truthy userId) || negb (truthy userEmail) then
    (t, {| status := 401; json := Failure "User not authenticated." |})
  else
    match single t (or_empty userId) with
    | Some existingProfile =>
        (if decide (email existingProfile ≠ userEmail)
         then update_email (or_empty userId) (or_empty userEmail) t
         else t,
         {| status := 200;
            json := Success "User synced."
                      (pr_membership_tier (profile existingProfile)) |})
    | None =>
        let defaultTier := "basic" in
        (t ++ [{| profile := {| pr_id := or_empty userId;
                                pr_membership_tier := Some defaultTier |};
                  email := userEmail |}],
         {| status := 201; json := Success "Profile created." (Some defaultTier) |})
    end.

(** [app.post('/api/sync-user', authenticateToken, syncUserHandler)] *)
Definition sync_route (getUser : string → Authn.Answer) (t : Table)
    (h : Authn.Headers) : Table * (Authn.Outcome + Reply) :=
  match Authn.outcome (Authn.authenticateToken getUser h) with
  | Authn.Next user =>
      let '(t', reply) := syncUserHandler t (Some user) in (t', inr reply)
  | refused => (t, inl refused)
  end.

Inductive MembershipReply :=
| NotAuthenticated
| Membership (membershipTier : option string)
| MembershipError (code : Z) (error : string).

(** [getMembershipHandler] *)
Definition getMembershipHandler (db : Stores) (user : option string)
    : M Query Error MembershipReply :=
  if negb (truthy user) then ret NotAuthenticated
  else
    try_catch
      (let* tier := getUserTier db (or_empty user) in
       ret (Membership tier))
      (λ error,
         if Text.includes_chars (Text.chars "not found") (Text.lower (Text.chars error))
         then ret (MembershipError 404 "Profile not found.")
         else ret (MembershipError 500 "Internal server error")).

Definition account (userId : string) (tier : option string) (mail : option string)
    : Account :=
  {| profile := {| pr_id := userId; pr_membership_tier := tier |}; email := mail |}.

Definition sample_accounts : Table :=
  [account "u-premium" (Some "premium") (Some "old@example.org");
   account "u-expert" (Some "expert") None].
End Accounts.

(** ** Stripe webhook *)

Module Webhook.
Import Metering.

(** What the handlers read of a Stripe subscription object: [id],
    [status] and [items.data[0].price.product], absent when the
    subscription has no item. *)
Record Subscription := {
  id : string;
  status : string;
  product : option string
}.

(** [session.client_reference_id] and [session.subscription] *)
Record Session := {
  client_reference_id : string;
  subscription : string
}.

(** [invoice.subscription] *)
Record Invoice := {
  invoice_subscription : string
}.

(** [event.type] with [event.data.object] *)
Inductive Event :=
| checkout_session_completed (session : Session)
| invoice_paid (invoice : Invoice)
| invoice_payment_failed (invoice : Invoice)
| customer_subscription_updated (subscription : Subscription)
| customer_subscription_deleted (subscription : Subscription)
| other_event (type : string).

(** How the collaborators answer: the signature check, the subscription
    lookup, and the inserts into [subscription_payments] and
    [subscription_payment_failures]. *)
Record Answers := {
  constructEvent : string → string → Error + Event;
  subscriptions_retrieve : string → Error + Subscription;
  insert_payment : Error + unit;
  insert_payment_failure : Error + unit
}.

Inductive Step :=
| Begin
| Commit
| Rollback
| Retrieve (subscriptionId : string)
| UpsertSubscription (userId : string)
| UpdateSubscription (subscriptionId : string)
| UpdateFailureCount (subscriptionId : string)
| InsertPayment (subscriptionId : string)
| InsertPaymentFailure (subscriptionId : string)
| ConsoleError (message : string).

(** What a handler leaves: the steps taken, the rows of
    [user_subscriptions], and whether it threw. *)
Definition Run : Type := (list Step * list UserSubscription * (Error + unit))%type.

Definition steps (r : Run) : list Step := r.1.1.
Definition subscriptions (r : Run) : list UserSubscription := r.1.2.
Definition result (r : Run) : Error + unit := r.2.

(** [INSERT INTO user_subscriptions ... ON CONFLICT (user_id) DO UPDATE
     SET stripe_subscription_id = $3, subscription_status = $4,
     plan_id = $7, ...] *)
Definition upsert (row : UserSubscription) (l : list UserSubscription)
    : list UserSubscription :=
  if decide (Exists (λ us, user_id us = user_id row) l) then
    (λ us, if decide (user_id us = user_id row)
           then {| user_id := user_id us;
                   subscription_status := subscription_status row;
                   plan_id := plan_id row;
                   stripe_subscription_id := stripe_subscription_id row |}
           else us) <$> l
  else l ++ [row].

(** [UPDATE user_subscriptions SET subscription_status = $1, ...
     WHERE stripe_subscription_id = $n] *)
Definition update_status (subscriptionId status : string)
    (l : list UserSubscription) : list UserSubscription :=
  (λ us, if decide (stripe_subscription_id us = subscriptionId)
         then {| user_id := user_id us;
                 subscription_status := status;
                 plan_id := plan_id us;
                 stripe_subscription_id := stripe_subscription_id us |}
         else us) <$> l.

(** The [catch] of the handlers that run in a transaction. *)
Definition rolled_back (sent : list Step) (l : list UserSubscription)
    (message : string) (error : Error) : Run :=
  (sent ++ [Rollback; ConsoleError message], l, inl error).

(** [handleCheckoutComplete] *)
Definition handleCheckoutComplete (a : Answers) (l : list UserSubscription)
    (session : Session) : Run :=
  let message := "Error handling checkout completion:" in
  let sent := [Begin; Retrieve (subscription session)] in
  match subscriptions_retrieve a (subscription session) with
  | inl error => rolled_back sent l message error
  | inr sub =>
      match product sub with
      | None =>
          rolled_back sent l message
            "Cannot read properties of undefined (reading 'price')"
      | Some productId =>
          (sent ++ [UpsertSubscription (client_reference_id session); Commit],
           upsert {| user_id := client_reference_id session;
                     subscription_status := status sub;
                     plan_id := productId;
                     stripe_subscription_id := id sub |} l,
           inr tt)
      end
  end.

(** [handleInvoicePaid] *)
Definition handleInvoicePaid (a : Answers) (l : list UserSubscription)
    (invoice : Invoice) : Run :=
  let message := "Error handling invoice payment:" in
  let sent := [Begin; Retrieve (invoice_subscription invoice)] in
  match subscriptions_retrieve a (invoice_subscription invoice) with
  | inl error => rolled_back sent l message error
  | inr sub =>
      let sent' := sent ++ [UpdateSubscription (id sub); InsertPayment (id sub)] in
      match insert_payment a with
      | inl error => rolled_back sent' l message error
      | inr _ => (sent' ++ [Commit], update_status (id sub) (status sub) l, inr tt)
      end
  end.

(** [handlePaymentFailed]: the update touches the failure counter and
    dates only. *)
Definition handlePaymentFailed (a : Answers) (l : list UserSubscription)
    (invoice : Invoice) : Run :=
  let sent := [Begin; UpdateFailureCount (invoice_subscription invoice);
               InsertPaymentFailure (invoice_subscription invoice)] in
  match insert_payment_failure a with
  | inl error => rolled_back sent l "Error handling payment failure:" error
  | inr _ => (sent ++ [Commit], l, inr tt)
  end.

(** [handleSubscriptionUpdated] *)
Definition handleSubscriptionUpdated (l : list UserSubscription)
    (sub : Subscription) : Run :=
  ([UpdateSubscription (id sub)], update_status (id sub) (status sub) l, inr tt).

(** [handleSubscriptionCancelled] *)
Definition handleSubscriptionCancelled (l : list UserSubscription)
    (sub : Subscription) : Run :=
  ([UpdateSubscription (id sub)], update_status (id sub) (status sub) l, inr tt).

(** [handleStripeWebhook(rawBody, signature)] *)
Definition handleStripeWebhook (a : Answers) (l : list UserSubscription)
    (rawBody signature : string) : Run :=
  let message := "Error handling Stripe webhook:" in
  match constructEvent a rawBody signature with
  | inl error => ([ConsoleError message], l, inl error)
  | inr event =>
      let r :=
        match event with
        | checkout_session_completed session => handleCheckoutComplete a l session
        | invoice_paid invoice => handleInvoicePaid a l invoice
        | invoice_payment_failed invoice => handlePaymentFailed a l invoice
        | customer_subscription_updated sub => handleSubscriptionUpdated l sub
        | customer_subscription_deleted sub => handleSubscriptionCancelled l sub
        | other_event _ => ([], l, inr tt)
        end in
      match result r with
      | inl error => (steps r ++ [ConsoleError message], subscriptions r, inl error)
      | inr _ => r
      end
  end.

(** The world with other rows of [user_subscriptions]. *)
Definition with_subscriptions (w : World) (l : list UserSubscription) : World :=
  {| user_subscriptions := l;
     subscription_plans := subscription_plans w;
     prescribers := prescribers w;
     prescribers_error := prescribers_error w;
     stripe_retrieve := stripe_retrieve w;
     stripe_usage := stripe_usage w;
     insert_usage_log := insert_usage_log w |}.

(** The world after a webhook call. *)
Definition after (a : Answers) (w : World) (rawBody signature : string) : World :=
  with_subscriptions w
    (subscriptions (handleStripeWebhook a (user_subscriptions w) rawBody signature)).

(** A payment processor that accepts one signature and delivers the
    given event for it. *)
Definition sample_answers (event : Event) (sub : Subscription) : Answers :=
  {| constructEvent := λ _ signature,
       if decide (signature = "sig-ok") then inr event
       else inl "No signatures found matching the expected signature for payload";
     subscriptions_retrieve := λ _, inr sub;
     insert_payment := inr tt;
     insert_payment_failure := inr tt |}.
End Webhook.

(** * Properties *)

(** ** Patterns without wildcards *)

Section LikeFacts.
Import Text.

Lemma chars_app (a b : string) : chars (a +:+ b) = chars a ++ chars b.
Proof. induction a as [|c a IH]; simpl; [done|]. by rewrite <- IH. Qed.

Lemma of_chars_chars (s : string) : of_chars (chars s) = s.
Proof. apply String.string_of_list_ascii_of_string. Qed.

Lemma chars_of_chars (l : list ascii) : chars (of_chars l) = l.
Proof. apply String.list_ascii_of_string_of_list_ascii. Qed.

Lemma like_percent (p t : list ascii) :
  like_match (percent :: p) t =
  like_match p t
  || match t with [] => false | _ :: t' => like_match (percent :: p) t' end.
Proof. destruct t; simpl; by destruct (decide (percent = percent)). Qed.

Lemma like_literal (c : ascii) (p t : list ascii) :
  is_meta c = false →
  like_match (c :: p) t =
  match t with [] => false | d :: t' => bool_decide (c = d) && like_match p t' end.
Proof.
  unfold is_meta. intros Hc.
  apply orb_false_elim in Hc as [Hc Hb].
  apply orb_false_elim in Hc as [Hp Hu].
  apply bool_decide_eq_false in Hp, Hu, Hb. simpl.
  destruct (decide (c = percent)); [done|].
  destruct (decide (c = underscore)); [done|].
  by destruct (decide (c = backslash)).
Qed.

(** [%] followed by [p] matches [t] when [p] matches a suffix of [t]. *)
Lemma like_percent_iff (p t : list ascii) :
  like_match (percent :: p) t = true ↔
  ∃ pre post, t = pre ++ post ∧ like_match p post = true.
Proof.
  induction t as [|d t IH]; rewrite like_percent, orb_true_iff.
  - split.
    + intros [H|H]; [|done]. by exists [], [].
    + intros (pre & post & Heq & H). left.
      symmetry in Heq. apply app_eq_nil in Heq as [_ ->]. done.
  - rewrite IH. split.
    + intros [H|(pre & post & -> & H)].
      * by exists [], (d :: t).
      * by exists (d :: pre), post.
    + intros (pre & post & Heq & H). destruct pre as [|e pre]; simpl in Heq.
      * left. by subst.
      * right. injection Heq as -> ->. by exists pre, post.
Qed.

(** A run of ordinary characters matches itself only. *)
Lemma like_literals_iff (q p t : list ascii) :
  Forall (λ c, is_meta c = false) q →
  like_match (q ++ p) t = true ↔ ∃ rest, t = q ++ rest ∧ like_match p rest = true.
Proof.
  intros Hq. revert t. induction Hq as [|c q Hc Hq IH]; intros t.
  - simpl. split; [by exists t | by intros (rest & -> & H)].
  - change ((c :: q) ++ p) with (c :: (q ++ p)).
    rewrite like_literal by done. destruct t as [|d t].
    + split; [done | by intros (rest & Heq & _)].
    + rewrite andb_true_iff, bool_decide_eq_true, IH. split.
      * intros [-> (rest & -> & H)]. by exists rest.
      * intros (rest & Heq & H). injection Heq as -> ->. eauto.
Qed.

Lemma like_exact_iff (q t : list ascii) :
  Forall (λ c, is_meta c = false) q →
  like_match q t = true ↔ t = q.
Proof.
  intros Hq. rewrite <- (app_nil_r q) at 1. rewrite like_literals_iff by done.
  split.
  - intros (rest & -> & H). destruct rest; [by rewrite app_nil_r | done].
  - intros ->. exists []. by rewrite app_nil_r.
Qed.

(** [%q%] matches the texts in which [q] occurs. *)
Lemma like_infix_iff (q t : list ascii) :
  Forall (λ c, is_meta c = false) q →
  like_match (percent :: q ++ [percent]) t = true ↔
  ∃ pre post, t = pre ++ q ++ post.
Proof.
  intros Hq. rewrite like_percent_iff. split.
  - intros (pre & post & -> & H).
    apply (like_literals_iff q [percent] post Hq) in H as (rest & -> & _).
    by exists pre, rest.
  - intros (pre & post & ->). exists pre, (q ++ post). split; [done|].
    apply (like_literals_iff q [percent] _ Hq). exists post. split; [done|].
    apply like_percent_iff. exists post, []. by rewrite app_nil_r.
Qed.

Lemma to_lower_not_meta (c : ascii) : is_meta c = false → is_meta (to_lower c) = false.
Proof.
  destruct c as [[] [] [] [] [] [] [] []]; vm_compute; congruence.
Qed.

Lemma lower_not_meta (q : list ascii) :
  Forall (λ c, is_meta c = false) q → Forall (λ c, is_meta c = false) (lower q).
Proof.
  intros H. unfold lower. induction H as [|c q Hc _ IH]; simpl.
  - constructor.
  - constructor; [by apply to_lower_not_meta | exact IH].
Qed.

(** On a query without wildcards, [name ILIKE '%q%'] is containment
    with letter case ignored. *)
Lemma ilike_infix_contains (name q : string) :
  Forall (λ c, is_meta c = false) (chars q) →
  ilike name ("%" +:+ q +:+ "%") = true ↔ contains_ci name q.
Proof.
  intros Hq. unfold ilike, contains_ci.
  rewrite !chars_app. unfold lower. rewrite !map_app. simpl.
  change (to_lower "%") with percent.
  apply (like_infix_iff (lower (chars q))). by apply lower_not_meta.
Qed.

(** On a name without wildcards, [name ILIKE q] is equality with letter
    case ignored. *)
Lemma ilike_plain_equal (name q : string) :
  Forall (λ c, is_meta c = false) (chars q) →
  ilike name q = true ↔ lower (chars name) = lower (chars q).
Proof.
  intros Hq. unfold ilike. apply like_exact_iff. by apply lower_not_meta.
Qed.
End LikeFacts.

Example ilike_whole_name : Text.ilike "SERTRALINE" "sertraline" = true.
Proof. reflexivity. Qed.

Example ilike_longer_name : Text.ilike "SERTRALINE HCL" "sertraline" = false.
Proof. reflexivity. Qed.

Example ilike_between_percents : Text.ilike "SERTRALINE HCL" "%sertraline%" = true.
Proof. reflexivity. Qed.

Example ilike_underscore : Text.ilike "Zoloft" "z_l%" = true.
Proof. reflexivity. Qed.

Example ilike_percent_in_the_middle : Text.ilike "Zoloft" "z%x" = false.
Proof. reflexivity. Qed.

Example trim_both_ends : Text.trim "  a b  " = "a b".
Proof. reflexivity. Qed.

Example includes_not_found :
  Text.includes "Coordinates not found for zip code 00000" "not found" = true.
Proof. reflexivity. Qed.

Example zip_pattern_cases :
  zip_pattern "19104" = true ∧ zip_pattern "1910" = false
  ∧ zip_pattern "19104-1234" = false ∧ zip_pattern "1910a" = false.
Proof. repeat split. Qed.

Example address_line_cases :
  address_line (Some "3400 Spruce St") (Some "Suite 2") (Some "Philadelphia")
    (Some "PA") (Some "19103")
  = "3400 Spruce St, Suite 2, Philadelphia, PA 19103"
  ∧ address_line None None (Some "Philadelphia") (Some "PA") (Some "19103")
    = "Philadelphia, PA 19103"
  ∧ address_line None None None None None = ",".
Proof. repeat split; vm_compute; reflexivity. Qed.

(** With a requested name free of pattern characters, the drug conjunct
    holds exactly for the rows whose drug name or generic name is that
    name, letter case ignored. *)
Lemma drug_clause_plain (p : Params) (j : Joined) :
  Forall (λ c, Text.is_meta c = false) (Text.chars (p_drugName p)) →
  drug_clause p j = true ↔
  (∃ n, (np_drug_name (j_np j) = Some n ∨ np_generic_name (j_np j) = Some n)
        ∧ Text.lower (Text.chars n) = Text.lower (Text.chars (p_drugName p))).
Proof.
  intros Hplain. unfold drug_clause, Text.ilike_null.
  rewrite orb_true_iff. split.
  - intros [H|H].
    + destruct (np_drug_name (j_np j)) as [n|]; [|done].
      exists n. split; [by left|]. by apply ilike_plain_equal.
    + destruct (np_generic_name (j_np j)) as [n|]; [|done].
      exists n. split; [by right|]. by apply ilike_plain_equal.
  - intros (n & [Hn|Hn] & Heq); rewrite Hn; [left|right];
      by apply ilike_plain_equal.
Qed.

(** ** The search query *)

Section SearchFacts.
Context (ST_Distance : Geom -> Geom -> Qc).

Lemma elem_of_from_join (db : Stores) (nd : NpiDetails) (na : NpiAddress)
    (np : NpiPrescription) (uz : UsZipcode) :
  (nd, na, np, uz) ∈ from_join db ↔
  nd ∈ npi_details db
  ∧ (na ∈ npi_addresses db ∧ nd_npi nd = na_npi na)
  ∧ (np ∈ npi_prescriptions db ∧ nd_npi nd = np_npi np)
  ∧ (uz ∈ us_zipcodes db ∧ na_postal_code na = Some (uz_zip_code uz)).
Proof.
  unfold from_join. split.
  - intros H.
    apply list_elem_of_bind in H as (nd' & H & Hnd).
    apply list_elem_of_bind in H as (na' & H & Hna).
    apply list_elem_of_bind in H as (np' & H & Hnp).
    apply list_elem_of_bind in H as (uz' & H & Huz).
    apply list_elem_of_singleton in H. injection H as -> -> -> ->.
    apply list_elem_of_filter in Hna as [Ea Hna].
    apply list_elem_of_filter in Hnp as [Ep Hnp].
    apply list_elem_of_filter in Huz as [Ez Huz]. done.
  - intros (Hnd & [Hna Ea] & [Hnp Ep] & [Huz Ez]).
    apply list_elem_of_bind. exists nd. split; [|done].
    apply list_elem_of_bind. exists na. split; [|by apply list_elem_of_filter].
    apply list_elem_of_bind. exists np. split; [|by apply list_elem_of_filter].
    apply list_elem_of_bind. exists uz. split; [|by apply list_elem_of_filter].
    by apply list_elem_of_singleton.
Qed.

Lemma where_clause_iff (g : Geom) (radiusMeters : Qc) (p : Params) (j : Joined) :
  where_clause ST_Distance g radiusMeters p j = true ↔
  (ST_Distance (uz_geom (j_uz j)) g ≤ radiusMeters)%Qc
  ∧ (Text.ilike_null (np_drug_name (j_np j)) (p_drugName p) = true
     ∨ Text.ilike_null (np_generic_name (j_np j)) (p_drugName p) = true)
  ∧ (p_minClaims p ≤ Qc_of_Z (np_total_claim_count (j_np j)))%Qc
  ∧ (truthy (p_taxonomyClass p) = true →
     Text.ilike_null (nd_healthcare_provider_taxonomy_1_classification (j_nd j))
       ("%" +:+ or_empty (p_taxonomyClass p) +:+ "%") = true).
Proof.
  unfold where_clause, ST_DWithin, drug_clause, claims_clause, taxonomy_clause.
  rewrite !andb_true_iff, orb_true_iff, !bool_decide_eq_true.
  destruct (truthy (p_taxonomyClass p)); intuition congruence.
Qed.

Lemma elem_of_baseQuery (db : Stores) (g : Geom) (radiusMeters : Qc)
    (p : Params) (j : Joined) :
  j ∈ baseQuery ST_Distance db g radiusMeters p ↔
  j ∈ from_join db ∧ where_clause ST_Distance g radiusMeters p j = true.
Proof. unfold baseQuery. rewrite list_elem_of_filter. tauto. Qed.


Lemma zip_rows_origin (db : Stores) (zip : string) :
  match zip_rows db zip with
  | [] => origin db zip = None
  | uz :: _ => origin db zip = Some (uz_geom uz)
  end.
Proof. unfold origin. by destruct (zip_rows db zip). Qed.

(** A search from a zip that has a centroid makes three round-trips and
    returns. *)
Lemma findProviders_found (db : Stores) (p : Params) (g : Geom) :
  origin db (p_zipCode p) = Some g →
  findProviders ST_Distance db p =
  ([SelectZip (p_zipCode p); SelectCount; SelectPage],
   inr
     (let offset := default 0 (p_cursor p) in
      let radiusMeters := (p_radiusMiles p * meters_per_mile)%Qc in
      let results :=
        finalQuery ST_Distance db g radiusMeters p (default 10 (p_limit p)) offset in
      let totalCount := countQuery ST_Distance db g radiusMeters p in
      {| data := formatRow <$> results;
         totalCount := totalCount;
         nextCursor :=
           if decide (offset + Z.of_nat (length results) < totalCount)
           then Some (offset + Z.of_nat (length results)) else None |})).
Proof.
  intros Ho. unfold findProviders, query.
  pose proof (zip_rows_origin db (p_zipCode p)) as Hz.
  destruct (zip_rows db (p_zipCode p)) as [|uz rows]; [congruence|].
  rewrite Ho in Hz. injection Hz as ->. reflexivity.
Qed.

(** A search from a zip without centroid throws after the first
    round-trip. *)
Lemma findProviders_not_found (db : Stores) (p : Params) :
  origin db (p_zipCode p) = None →
  findProviders ST_Distance db p =
  ([SelectZip (p_zipCode p)],
   inl ("Coordinates not found for zip code " +:+ p_zipCode p)).
Proof.
  intros Ho. unfold findProviders, query.
  pose proof (zip_rows_origin db (p_zipCode p)) as Hz.
  destruct (zip_rows db (p_zipCode p)) as [|uz rows]; [reflexivity|congruence].
Qed.
End SearchFacts.

(** ** Counting and paging *)

(** Discharging [store_accepts] at a request whose minimum number of
    claims is the integer [k]. *)
Ltac accepted k :=
  split_and!;
    [ exists k; split; [unfold int4; lia | reflexivity]
    | reflexivity
    | cbn; unfold id; lia
    | unfold int8; cbn; unfold id; lia
    | cbn; unfold id; lia
    | unfold int8; cbn; unfold id; lia ].






(** ** The radius *)

Lemma Qc_dist_bound (x y lo hi : Qc) :
  (lo ≤ x)%Qc → (x ≤ hi)%Qc → (lo ≤ y)%Qc → (y ≤ hi)%Qc →
  (Qc_dist x y ≤ hi - lo)%Qc.
Proof.
  intros Hx1 Hx2 Hy1 Hy2. unfold Qc_dist, Qcminus.
  destruct (decide (x ≤ y)%Qc).
  - apply Qcplus_le_compat; [done|]. by apply Qcopp_le_compat.
  - apply Qcplus_le_compat; [done|]. by apply Qcopp_le_compat.
Qed.

(** Any two points given by longitude and latitude are within 540 units
    of each other, less than one mile in meters. *)
Lemma taxicab_lon_lat (a b : Geom) :
  lon_lat a → lon_lat b → (taxicab a b ≤ Qc_of_Z 540)%Qc.
Proof.
  intros (Ha1 & Ha2 & Ha3 & Ha4) (Hb1 & Hb2 & Hb3 & Hb4). unfold taxicab.
  replace (Qc_of_Z 540)
    with ((Qc_of_Z 180 - Qc_of_Z (-180)) + (Qc_of_Z 90 - Qc_of_Z (-90)))%Qc
    by (apply Qc_is_canon; reflexivity).
  apply Qcplus_le_compat; by apply Qc_dist_bound.
Qed.

Lemma one_mile_covers_the_globe (r : Qc) :
  (Qc_of_Z 1 ≤ r)%Qc → (Qc_of_Z 540 ≤ r * meters_per_mile)%Qc.
Proof.
  intros Hr. etrans; [|apply Qcmult_le_compat_r; [exact Hr|done]].
  done.
Qed.

(** C8: the radius does not exclude.  The code multiplies the radius by
    1609.34 and calls the product [radiusMeters], but [us_zipcodes.geom]
    holds longitude and latitude (SRID 4326), on which the store's distance
    is the planar distance of these coordinates, never more than the sum of
    their differences.  Hence for every radius of a mile or more the
    distance test holds for any two zip centroids; and the 10-mile search
    from zip 19104 in Philadelphia returns and counts the provider who
    practises in zip 90001 in Los Angeles. *)
Theorem C8_far_provider_is_returned (ST_Distance : Geom -> Geom -> Qc) :
  (∀ a b, (ST_Distance a b ≤ taxicab a b)%Qc) →
  (∀ a b r, lon_lat a → lon_lat b → (Qc_of_Z 1 ≤ r)%Qc →
            ST_DWithin ST_Distance a b (r * meters_per_mile) = true)
  ∧ page_ids (findProviders ST_Distance db_far
                (sample_params "sertraline" "distance" None None))
    = Some ([4001], 1, None).
Proof.
  intros Hplanar.
  assert (Hwithin : ∀ a b r, lon_lat a → lon_lat b → (Qc_of_Z 1 ≤ r)%Qc →
                             ST_DWithin ST_Distance a b (r * meters_per_mile) = true).
  { intros a b r Ha Hb Hr. unfold ST_DWithin. apply bool_decide_eq_true.
    etrans; [apply Hplanar|]. etrans; [by apply taxicab_lon_lat|].
    by apply one_mile_covers_the_globe. }
  split; [exact Hwithin|].
  set (p := sample_params "sertraline" "distance" None None).
  assert (Ho : origin db_far (p_zipCode p) = Some origin_19104) by reflexivity.
  assert (Hrows : baseQuery ST_Distance db_far origin_19104
                    (p_radiusMiles p * meters_per_mile)%Qc p = [joined_far]).
  { unfold baseQuery.
    change (from_join db_far) with [joined_far].
    rewrite filter_cons_True; [done|].
    unfold where_clause. rewrite Hwithin; [reflexivity|..].
    - unfold lon_lat. cbn. split_and!; done.
    - unfold lon_lat. cbn. split_and!; done.
    - done. }
  unfold page_ids. rewrite (findProviders_found _ _ _ _ Ho).
  cbn [outcome snd data totalCount nextCursor].
  unfold finalQuery, countQuery. rewrite Hrows. reflexivity.
Qed.

Lemma C8_witness :
  (∀ a b r, lon_lat a → lon_lat b → (Qc_of_Z 1 ≤ r)%Qc →
            ST_DWithin taxicab a b (r * meters_per_mile) = true)
  ∧ page_ids (findProviders taxicab db_far
                (sample_params "sertraline" "distance" None None))
    = Some ([4001], 1, None).
Proof. apply (C8_far_provider_is_returned taxicab). intros a b. reflexivity. Defined.

(** ** The search at three concrete stores *)

(** C1: at a store whose only provider has a deactivation date and
    otherwise matches the request, the search returns that provider and
    counts it: no query of [findProviders] reads the deactivation date. *)
Theorem C1_deactivated_provider_is_returned :
  nd_npi_deactivation_date <$> npi_details db_deactivated = [Some "2020-01-01"]
  ∧ page_ids (findProviders taxicab db_deactivated
                (sample_params "sertraline" "distance" None None))
    = Some ([1001], 1, None).
Proof. split; vm_compute; reflexivity. Qed.

(** C2: at a store whose only prescription has the drug name
    SERTRALINE HCL and the generic name SERTRALINE HYDROCHLORIDE, both of
    which contain the requested name, a search for sertraline finds nothing:
    the request's drug name is the whole [ILIKE] pattern, so only a name
    equal to it (letter case ignored) passes. *)
Theorem C2_containing_names_do_not_match :
  Text.contains_ci "SERTRALINE HCL" "sertraline"
  ∧ Text.contains_ci "SERTRALINE HYDROCHLORIDE" "sertraline"
  ∧ Text.ilike "SERTRALINE HCL" "sertraline" = false
  ∧ Text.ilike "SERTRALINE HYDROCHLORIDE" "sertraline" = false
  ∧ Text.ilike "Sertraline" "sertraline" = true
  ∧ page_ids (findProviders taxicab db_longer_name
                (sample_params "sertraline" "distance" None None))
    = Some ([], 0, None).
Proof.
  split; [|split; [|repeat split; vm_compute; reflexivity]].
  - exists [], (Text.chars " hcl"). reflexivity.
  - exists [], (Text.chars " hydrochloride"). reflexivity.
Qed.

(** C3: at a store where provider 2001 has two qualifying prescription
    rows (20 and 10 claims) and provider 2002 has one, pages of one row
    sorted by claims give provider 2001 at cursor 0 with next cursor 1,
    provider 2001 again at cursor 1 with no next cursor, so the traversal
    repeats 2001 and never reaches 2002 although [totalCount] is 2; and a
    single page of ten rows lists 2001 twice. *)
Theorem C3_pages_repeat_a_provider :
  page_ids (findProviders taxicab db_two_rows
              (sample_params "sertraline" "claims" (Some 0) (Some 1)))
  = Some ([2001], 2, Some 1)
  ∧ page_ids (findProviders taxicab db_two_rows
                (sample_params "sertraline" "claims" (Some 1) (Some 1)))
    = Some ([2001], 2, None)
  ∧ page_ids (findProviders taxicab db_two_rows
                (sample_params "sertraline" "claims" (Some 0) (Some 10)))
    = Some ([2001; 2001; 2002], 2, None).
Proof. repeat split; vm_compute; reflexivity. Qed.

(** ** Shaping of a provider view *)

Section ViewFacts.
Import Text.

Lemma trim_start_head (l : list ascii) (c : ascii) :
  head (trim_start l) = Some c → Ascii.is_space c = false.
Proof.
  induction l as [|d l IH]; simpl; [done|].
  destruct (Ascii.is_space d) eqn:Hd; [done|].
  simpl. intros [= <-]. done.
Qed.

Lemma trim_start_suffix (l : list ascii) : ∃ pre, l = pre ++ trim_start l.
Proof.
  induction l as [|d l [pre IH]]; simpl; [by exists []|].
  destruct (Ascii.is_space d).
  - exists (d :: pre). simpl. by f_equal.
  - by exists [].
Qed.

Lemma trim_end_prefix (l : list ascii) : ∃ suf, l = trim_end l ++ suf.
Proof.
  unfold trim_end. destruct (trim_start_suffix (reverse l)) as [pre H].
  exists (reverse pre).
  rewrite <- reverse_app, <- H. by rewrite reverse_involutive.
Qed.

Lemma trim_end_last (l : list ascii) (c : ascii) :
  list.last (trim_end l) = Some c → Ascii.is_space c = false.
Proof. unfold trim_end. rewrite last_reverse. apply trim_start_head. Qed.

(** A trimmed text has no white space at either end. *)
Lemma tidy_trim (s : string) : tidy (trim s).
Proof.
  unfold tidy, trim. rewrite chars_of_chars. intros c [Hh|Hl].
  - destruct (trim_end_prefix (trim_start (chars s))) as [suf Hsuf].
    apply (trim_start_head (chars s)). rewrite Hsuf.
    destruct (trim_end (trim_start (chars s))); [done|]. exact Hh.
  - by apply trim_end_last in Hl.
Qed.

Lemma elem_of_filter_Boolean (l : list (option string)) (s : string) :
  s ∈ filter_Boolean l ↔ s ≠ EmptyString ∧ Some s ∈ l.
Proof.
  unfold filter_Boolean. rewrite list_elem_of_omap. split.
  - intros (o & Ho & Hs). destruct o as [t|]; simpl in Hs; [|done].
    destruct (bool_decide (t = EmptyString)) eqn:Ht; simpl in Hs; [done|].
    injection Hs as ->. by apply bool_decide_eq_false in Ht.
  - intros [Hne Hin]. exists (Some s). split; [done|]. simpl.
    by rewrite bool_decide_eq_false_2.
Qed.

Lemma elem_of_insert_row (cmp : Row.t → Row.t → comparison) (r x : Row.t)
    (l : list Row.t) :
  x ∈ insert_row cmp r l ↔ x = r ∨ x ∈ l.
Proof.
  induction l as [|y l IH]; simpl.
  - rewrite list_elem_of_singleton, elem_of_nil. tauto.
  - destruct (cmp r y); rewrite ?elem_of_cons, ?IH, ?elem_of_cons; tauto.
Qed.

Lemma elem_of_sort_rows (cmp : Row.t → Row.t → comparison) (x : Row.t)
    (l : list Row.t) :
  x ∈ sort_rows cmp l ↔ x ∈ l.
Proof.
  unfold sort_rows. induction l as [|y l IH]; simpl; [done|].
  by rewrite elem_of_insert_row, IH, elem_of_cons.
Qed.

(** Every row of a page is the projection of a joined row that passes
    the [WHERE] clause. *)
Lemma finalQuery_rows (ST_Distance : Geom → Geom → Qc) (db : Stores) (g : Geom)
    (radiusMeters : Qc) (p : Params) (lim offset : Z) (row : Row.t) :
  row ∈ finalQuery ST_Distance db g radiusMeters p lim offset →
  ∃ j, j ∈ baseQuery ST_Distance db g radiusMeters p
       ∧ row = select_row ST_Distance g j.
Proof.
  unfold finalQuery. intros H.
  apply subseteq_take, subseteq_drop in H.
  rewrite elem_of_sort_rows, elem_of_remove_dups in H.
  apply list_elem_of_fmap in H as (j & -> & Hj). eauto.
Qed.
End ViewFacts.

(** C9: every provider view of a search response is built from a joined
    row that passed the filters, and carries the display name composed of
    first and last name and trimmed, the credential text with [null] turned
    into the empty text, the list of the non-empty entries among
    classification and specialization, the composed and trimmed address
    line, and the coordinates of the practice-zip centroid; first name, last
    name, city and state are handed on as stored. *)
Theorem C9_provider_view
    (ST_Distance : Geom -> Geom -> Qc) (db : Stores) (p : Params)
    (res : SearchResult) (v : View.t) :
  outcome (findProviders ST_Distance db p) = inr res →
  v ∈ data res →
  ∃ g j,
    origin db (p_zipCode p) = Some g
    ∧ j ∈ baseQuery ST_Distance db g (p_radiusMiles p * meters_per_mile)%Qc p
    ∧ v = formatRow (select_row ST_Distance g j)
    ∧ View.name v =
      Text.trim (or_empty (nd_provider_first_name (j_nd j)) +:+ " "
                 +:+ or_empty (nd_provider_last_name_legal_name (j_nd j)))
    ∧ tidy (View.name v)
    ∧ View.title v = or_empty (nd_provider_credential_text (j_nd j))
    ∧ (∀ s, s ∈ View.specialties v ↔
            s ≠ EmptyString
            ∧ (nd_healthcare_provider_taxonomy_1_classification (j_nd j) = Some s
               ∨ nd_healthcare_provider_taxonomy_1_specialization (j_nd j) = Some s))
    ∧ View.location v =
      address_line (na_first_line (j_na j)) (na_second_line (j_na j))
        (na_city_name (j_na j)) (na_state_name (j_na j)) (na_postal_code (j_na j))
    ∧ tidy (View.location v)
    ∧ View.longitude v = ST_X (uz_geom (j_uz j))
    ∧ View.latitude v = ST_Y (uz_geom (j_uz j))
    ∧ View.first_name v = nd_provider_first_name (j_nd j)
    ∧ View.last_name v = nd_provider_last_name_legal_name (j_nd j)
    ∧ View.city v = na_city_name (j_na j)
    ∧ View.state v = na_state_name (j_na j).
Proof.
  intros Hres Hv.
  destruct (origin db (p_zipCode p)) as [g|] eqn:Ho.
  2: { rewrite (findProviders_not_found _ _ _ Ho) in Hres. discriminate. }
  rewrite (findProviders_found _ _ _ _ Ho) in Hres. simpl in Hres.
  injection Hres as <-. cbn [data] in Hv.
  apply list_elem_of_fmap in Hv as (row & -> & Hrow).
  apply finalQuery_rows in Hrow as (j & Hj & ->).
  exists g, j. split_and!; try done.
  - apply tidy_trim.
  - intros s. unfold formatRow. cbn [View.specialties].
    rewrite elem_of_filter_Boolean. cbn.
    rewrite !elem_of_cons, elem_of_nil.
    split; intros [Hne Hs]; (split; [done|]); intuition congruence.
  - apply tidy_trim.
Qed.

Example sample_view_texts :
  View.name sample_view = "Ann Lee"
  ∧ View.title sample_view = "MD"
  ∧ View.specialties sample_view = ["Psychiatry & Neurology"; "Psychiatry"]
  ∧ View.location sample_view = "3400 Spruce St, Philadelphia, PA 19103".
Proof. repeat split; vm_compute; reflexivity. Qed.

Lemma C9_witness :
  ∃ g j,
    origin db_deactivated "19104" = Some g
    ∧ j ∈ baseQuery taxicab db_deactivated g (Qc_of_Z 10 * meters_per_mile)%Qc
            (sample_params "sertraline" "distance" None None)
    ∧ sample_view = formatRow (select_row taxicab g j)
    ∧ View.name sample_view =
      Text.trim (or_empty (nd_provider_first_name (j_nd j)) +:+ " "
                 +:+ or_empty (nd_provider_last_name_legal_name (j_nd j)))
    ∧ tidy (View.name sample_view)
    ∧ View.title sample_view = or_empty (nd_provider_credential_text (j_nd j))
    ∧ (∀ s, s ∈ View.specialties sample_view ↔
            s ≠ EmptyString
            ∧ (nd_healthcare_provider_taxonomy_1_classification (j_nd j) = Some s
               ∨ nd_healthcare_provider_taxonomy_1_specialization (j_nd j) = Some s))
    ∧ View.location sample_view =
      address_line (na_first_line (j_na j)) (na_second_line (j_na j))
        (na_city_name (j_na j)) (na_state_name (j_na j)) (na_postal_code (j_na j))
    ∧ tidy (View.location sample_view)
    ∧ View.longitude sample_view = ST_X (uz_geom (j_uz j))
    ∧ View.latitude sample_view = ST_Y (uz_geom (j_uz j))
    ∧ View.first_name sample_view = nd_provider_first_name (j_nd j)
    ∧ View.last_name sample_view = nd_provider_last_name_legal_name (j_nd j)
    ∧ View.city sample_view = na_city_name (j_na j)
    ∧ View.state sample_view = na_state_name (j_na j).
Proof.
  apply (C9_provider_view taxicab db_deactivated
           (sample_params "sertraline" "distance" None None)
           sample_result sample_view).
  - vm_compute. reflexivity.
  - apply list_elem_of_here.
Defined.

(** Against C9 as stated: two rows that differ in phone, distance and claim
    count are shaped into the same view, so a view carries none of the
    three; and a row without first name and city yields a view whose
    [first_name] and [city] are [null]. *)
Lemma C9_counterexample :
  formatRow (sample_row (Some "Ann") (Some "Philadelphia") (Some "2155550100")
               (Qc_of_Z 1000) 12)
  = formatRow (sample_row (Some "Ann") (Some "Philadelphia") None (Qc_of_Z 2000) 40)
  ∧ View.first_name (formatRow (sample_row None None None (Qc_of_Z 1000) 12)) = None
  ∧ View.city (formatRow (sample_row None None None (Qc_of_Z 1000) 12)) = None.
Proof. repeat split. Qed.

(** ** Containment *)

Section IncludesFacts.
Import Text.

Lemma strip_prefix_Some (p l r : list ascii) :
  strip_prefix p l = Some r ↔ l = p ++ r.
Proof.
  revert l. induction p as [|c p IH]; intros l; simpl.
  - split; [by intros [= ->] | by intros ->].
  - destruct l as [|d l]; [done|].
    destruct (decide (c = d)) as [->|Hne].
    + rewrite IH. split; [by intros -> | by intros [= ->]].
    + split; [done | intros [= -> _]; done].
Qed.

Lemma starts_with_iff (p l : list ascii) :
  starts_with p l = true ↔ ∃ r, l = p ++ r.
Proof.
  unfold starts_with. destruct (strip_prefix p l) as [r|] eqn:H.
  - apply strip_prefix_Some in H. split; [eauto | done].
  - split; [done|]. intros [r Hr]. apply strip_prefix_Some in Hr. congruence.
Qed.

Lemma includes_chars_iff (p l : list ascii) :
  includes_chars p l = true ↔ ∃ pre post, l = pre ++ p ++ post.
Proof.
  induction l as [|d l IH]; simpl; rewrite orb_true_iff, starts_with_iff.
  - split.
    + intros [[r Hr]|?]; [|done]. by exists [], r.
    + intros (pre & post & H). left. destruct pre; [by exists post | done].
  - rewrite IH. split.
    + intros [[r Hr]|(pre & post & ->)]; [by exists [], r|].
      by exists (d :: pre), post.
    + intros (pre & post & H). destruct pre as [|e pre]; simpl in H.
      * left. by exists post.
      * right. injection H as -> ->. by exists pre, post.
Qed.


End IncludesFacts.

(** ** Drug suggestions *)

Lemma elem_of_names_ilike (col : NpiPrescription → option string) (db : Stores)
    (pattern n : string) :
  n ∈ names_ilike col db pattern ↔
  ∃ np, np ∈ npi_prescriptions db ∧ col np = Some n ∧ Text.ilike n pattern = true.
Proof.
  unfold names_ilike. rewrite list_elem_of_omap. split.
  - intros (np & Hin & H). exists np. split; [done|].
    destruct (col np) as [t|]; simpl in H; [|done].
    destruct (Text.ilike t pattern) eqn:Hlike; [|done].
    injection H as ->. done.
  - intros (np & Hin & Hcol & Hlike). exists np. split; [done|].
    rewrite Hcol. simpl. by rewrite Hlike.
Qed.




(** ** Resolution of the search origin by tier *)

Section TierFacts.
Context (ST_Distance : Geom -> Geom -> Qc).




Lemma truthy_Some (s : string) : s ≠ EmptyString → truthy (Some s) = true.
Proof. intros H. simpl. by rewrite bool_decide_eq_false_2. Qed.
End TierFacts.

Arguments findProviders : simpl never.

Section HandlerFacts.
Context (ST_Distance : Geom -> Geom -> Qc).

(** The handler when the tier cascade yields a search zip. *)
Lemma handler_searches (db : Stores) (userId : string) (b : Body)
    (t : list Query) (z : string) :
  userId ≠ EmptyString →
  searchZip_of_tier db userId b (profile_tier db userId) = (t, inr (inr (Some z))) →
  z ≠ EmptyString →
  findProvidersHandler ST_Distance db (Some userId) b =
  (tell (SelectProfile userId) >> ((t, inr tt) : M Query Error unit) >>
   search_response ST_Distance db b z).
Proof.
  intros Huser Hres Hne.
  unfold findProvidersHandler, getUserTier, query, search_response.
  rewrite (truthy_Some userId Huser). cbn. rewrite Hres. cbn. rewrite bool_decide_eq_false_2 by done. cbn.
  destruct (findProviders ST_Distance db (params_of b z)) as [tf [e|r]]; cbn.
  - unfold on_search_error. destruct (Text.includes e "not found"); cbn;
      by rewrite <- ?app_assoc.
  - by rewrite app_nil_r.
Qed.


(** The handler when the location lookup throws. *)
Lemma handler_catches (db : Stores) (userId : string) (b : Body)
    (t : list Query) (error : Error) :
  userId ≠ EmptyString →
  searchZip_of_tier db userId b (profile_tier db userId) = (t, inl error) →
  findProvidersHandler ST_Distance db (Some userId) b =
  (SelectProfile userId :: t ++ trace (on_search_error error),
   outcome (on_search_error error)).
Proof.
  intros Huser Hres. unfold findProvidersHandler, getUserTier, query.
  rewrite (truthy_Some userId Huser). cbn. rewrite Hres. cbn. by destruct (on_search_error error).
Qed.



End HandlerFacts.



(** ** Metering in the integration layer *)

Arguments Metering.record_usage : simpl never.
Arguments Metering.createUsageRecord : simpl never.

Section MeteringFacts.
Import Metering.

(** The run of [getPrescriberDataWithSubscriptionCheck] up to the
    metering block, for a user with an active subscription and a plan. *)
Lemma subscription_check_run (w : World) (userId : string) (filters : Filters)
    (us : UserSubscription) (rest : list UserSubscription)
    (pl : Plan) (plans : list Plan) :
  active_rows w userId = us :: rest →
  plan_rows w userId = pl :: plans →
  prescribers_error w = None →
  getPrescriberDataWithSubscriptionCheck w userId filters =
  ((([SelectActiveSubscription userId; SelectPlan userId;
      SelectPrescribers (row_limit pl)],
     inr tt) : M Effect Error unit) >>
   (if usage_based pl then record_usage w userId filters else ret tt)).
Proof.
  intros Ha Hp He. unfold getPrescriberDataWithSubscriptionCheck.
  rewrite Ha. cbn. rewrite Hp. cbn. rewrite He. cbn.
  by destruct (if usage_based pl then record_usage w userId filters else ret tt)
    as [t [e|[]]].
Qed.

(** The metering block once the subscription item is known. *)
Lemma record_usage_run (w : World) (userId : string) (filters : Filters)
    (us : UserSubscription) (rest : list UserSubscription)
    (item : string) (items : list string) :
  subscription_rows w userId = us :: rest →
  stripe_retrieve w (stripe_subscription_id us) = inr (item :: items) →
  record_usage w userId filters =
  ((([SelectSubscriptionId userId; RetrieveSubscription (stripe_subscription_id us)],
     inr tt) : M Effect Error unit) >>
   createUsageRecord w item 1 >>
   tell (InsertApiUsageLog api_usage_logs_columns userId "prescribers" filters) >>
   answer (insert_usage_log w)).
Proof.
  intros Hs Hr. unfold record_usage. rewrite Hs. cbn. rewrite Hr. cbn.
  by destruct (createUsageRecord w item 1) as [t [e|[]]].
Qed.
End MeteringFacts.

(** C5: in the [try] block of [getPrescriberDataWithSubscriptionCheck], for
    a user with an active subscription on a usage-based plan whose data
    query succeeds and whose subscription item the payment processor
    returns, exactly one usage increment, of quantity 1, is sent.  When it
    is accepted, the steps are, in this order: the three queries, the
    lookup of the subscription, the increment and one insert into the
    audit log, for the columns user, endpoint, query parameters, result
    count and subscription, with the user, the endpoint prescribers and
    the filters as its first values; nothing is logged.  When the
    increment is refused, [createUsageRecord] logs the failure once and
    throws it again: the steps end there, no audit row is written and the
    error is thrown inside the block. *)
Theorem C5_metering
    (w : Metering.World) (userId : string) (filters : Metering.Filters)
    (active us : Metering.UserSubscription)
    (rest subs : list Metering.UserSubscription)
    (pl : Metering.Plan) (plans : list Metering.Plan)
    (item : string) (items : list string) :
  Metering.active_rows w userId = active :: rest →
  Metering.plan_rows w userId = pl :: plans →
  Metering.usage_based pl = true →
  Metering.prescribers_error w = None →
  Metering.subscription_rows w userId = us :: subs →
  Metering.stripe_retrieve w (Metering.stripe_subscription_id us) = inr (item :: items) →
  let run := Metering.getPrescriberDataWithSubscriptionCheck w userId filters in
  let lookups :=
    [Metering.SelectActiveSubscription userId; Metering.SelectPlan userId;
     Metering.SelectPrescribers (Metering.row_limit pl);
     Metering.SelectSubscriptionId userId;
     Metering.RetrieveSubscription (Metering.stripe_subscription_id us)] in
  Metering.count_of Metering.is_usage_call (trace run) = 1%nat
  ∧ (Metering.stripe_usage w item 1 = inr tt →
     trace run
     = lookups ++ [Metering.UsageIncrement item 1;
                   Metering.InsertApiUsageLog Metering.api_usage_logs_columns
                     userId "prescribers" filters]
     ∧ Metering.count_of Metering.is_audit_row (trace run) = 1%nat
     ∧ Metering.count_of Metering.is_log (trace run) = 0%nat)
  ∧ (∀ error, Metering.stripe_usage w item 1 = inl error →
     trace run
     = lookups ++ [Metering.UsageIncrement item 1;
                   Metering.ConsoleError "Error creating usage record:"]
     ∧ Metering.count_of Metering.is_audit_row (trace run) = 0%nat
     ∧ Metering.count_of Metering.is_log (trace run) = 1%nat
     ∧ outcome run = inl error).
Proof.
  intros Ha Hp Hu He Hs Hr run lookups. subst run lookups.
  rewrite (subscription_check_run w userId filters active rest pl plans Ha Hp He).
  rewrite Hu, (record_usage_run w userId filters us subs item items Hs Hr).
  unfold Metering.createUsageRecord, Metering.answer.
  destruct (Metering.stripe_usage w item 1) as [e|[]] eqn:Husage.
  - cbn. split_and!; [done|done|]. intros error [= <-]. by split_and!.
  - destruct (Metering.insert_usage_log w) as [e|[]] eqn:Hins.
    + cbn. split_and!; [done| |done]. intros _. by split_and!.
    + cbn. split_and!; [done| |done]. intros _. by split_and!.
Qed.

Lemma C5_witness :
  let filters :=
    {| Metering.f_state := Some "PA"; Metering.f_specialty := None;
       Metering.f_minPrescriptions := Some 10 |} in
  let accepted :=
    Metering.getPrescriberDataWithSubscriptionCheck (Metering.sample_world true true)
      "u-metered" filters in
  let refused :=
    Metering.getPrescriberDataWithSubscriptionCheck (Metering.sample_world true false)
      "u-metered" filters in
  let lookups :=
    [Metering.SelectActiveSubscription "u-metered"; Metering.SelectPlan "u-metered";
     Metering.SelectPrescribers None;
     Metering.SelectSubscriptionId "u-metered";
     Metering.RetrieveSubscription "sub_1"] in
  (Metering.count_of Metering.is_usage_call (trace accepted) = 1%nat
   ∧ trace accepted
     = lookups ++ [Metering.UsageIncrement "si_1" 1;
                   Metering.InsertApiUsageLog Metering.api_usage_logs_columns
                     "u-metered" "prescribers" filters]
   ∧ Metering.count_of Metering.is_audit_row (trace accepted) = 1%nat
   ∧ Metering.count_of Metering.is_log (trace accepted) = 0%nat)
  ∧ (Metering.count_of Metering.is_usage_call (trace refused) = 1%nat
     ∧ trace refused
       = lookups ++ [Metering.UsageIncrement "si_1" 1;
                     Metering.ConsoleError "Error creating usage record:"]
     ∧ Metering.count_of Metering.is_audit_row (trace refused) = 0%nat
     ∧ Metering.count_of Metering.is_log (trace refused) = 1%nat
     ∧ outcome refused = inl "StripeConnectionError").
Proof.
  intros filters accepted refused lookups. split.
  - destruct (C5_metering (Metering.sample_world true true) "u-metered"
                filters Metering.sample_subscription Metering.sample_subscription [] []
                Metering.sample_plan [] "si_1" [])
      as (Hone & Haccepted & _); [reflexivity..|].
    destruct Haccepted as (Htrace & Haudit & Hlog); [reflexivity|].
    split_and!; [exact Hone|exact Htrace|exact Haudit|exact Hlog].
  - destruct (C5_metering (Metering.sample_world true false) "u-metered"
                filters Metering.sample_subscription Metering.sample_subscription [] []
                Metering.sample_plan [] "si_1" [])
      as (Hone & _ & Hrefused); [reflexivity..|].
    destruct (Hrefused "StripeConnectionError") as (Htrace & Haudit & Hlog & Hout);
      [reflexivity|].
    split_and!; [exact Hone|exact Htrace|exact Haudit|exact Hlog|exact Hout].
Defined.

(** Against C5 as stated: when the payment processor refuses the usage
    increment, the one call is made and logged, no audit row is written,
    and the error, thrown again, leaves the block; and when the
    subscription lookup before it fails, neither a usage call nor an audit
    row is made. *)
Lemma C5_counterexample :
  let refused :=
    Metering.getPrescriberDataWithSubscriptionCheck
      (Metering.sample_world true false) "u-metered" Metering.no_filters in
  let unbound :=
    Metering.getPrescriberDataWithSubscriptionCheck
      (Metering.sample_world false true) "u-metered" Metering.no_filters in
  (Metering.count_of Metering.is_usage_call (trace refused) = 1%nat
   ∧ Metering.count_of Metering.is_audit_row (trace refused) = 0%nat
   ∧ Metering.count_of Metering.is_log (trace refused) = 1%nat
   ∧ outcome refused = inl "StripeConnectionError")
  ∧ (Metering.count_of Metering.is_usage_call (trace unbound) = 0%nat
     ∧ Metering.count_of Metering.is_audit_row (trace unbound) = 0%nat
     ∧ outcome unbound = inl "stripe is not defined").
Proof. repeat split. Qed.

(** * Further properties of the service *)

(** ** Comparators *)

Section Comparators.
Context {A : Type}.

Lemma cmp_eq_r (c : A → A → comparison) (x y z : A) :
  Comparator c → c y z = Eq → c x y = c x z.
Proof.
  intros Hc Hyz.
  rewrite (cmp_antisym c Hc y x), (cmp_antisym c Hc z x).
  f_equal. by apply (cmp_eq_l c Hc).
Qed.

Lemma cmp_le_trans (c : A → A → comparison) (x y z : A) :
  Comparator c → c x y ≠ Gt → c y z ≠ Gt → c x z ≠ Gt.
Proof.
  intros Hc Hxy Hyz.
  destruct (c x y) eqn:Exy; [| |done].
  - by rewrite (cmp_eq_l c Hc x y z Exy).
  - destruct (c y z) eqn:Eyz; [| |done].
    + rewrite <- (cmp_eq_r c x y z Hc Eyz). by rewrite Exy.
    + by rewrite (cmp_lt_trans c Hc x y z Exy Eyz).
Qed.

Lemma cmp_gt_le (c : A → A → comparison) (x y : A) :
  Comparator c → c x y = Gt → c y x ≠ Gt.
Proof. intros Hc Hxy. rewrite (cmp_antisym c Hc x y), Hxy. done. Qed.

(** Lexicographic combination, as in a two-key [ORDER BY]. *)
Lemma Comparator_then (c1 c2 : A → A → comparison) :
  Comparator c1 → Comparator c2 →
  Comparator (λ x y, then_cmp (c1 x y) (c2 x y)).
Proof.
  intros H1 H2. split.
  - intros x y. rewrite (cmp_antisym c1 H1 x y), (cmp_antisym c2 H2 x y).
    by destruct (c1 x y).
  - intros x y z. unfold then_cmp.
    destruct (c1 x y) eqn:Exy; [| |done].
    + rewrite (cmp_eq_l c1 H1 x y z Exy).
      destruct (c1 y z) eqn:Eyz; [|done..].
      intros Hxy Hyz. by apply (cmp_lt_trans c2 H2 x y z).
    + intros _. destruct (c1 y z) eqn:Eyz; [| |done].
      * intros _. by rewrite <- (cmp_eq_r c1 x y z H1 Eyz), Exy.
      * intros _. by rewrite (cmp_lt_trans c1 H1 x y z Exy Eyz).
  - intros x y z. unfold then_cmp.
    destruct (c1 x y) eqn:Exy; [|done..].
    intros E2. rewrite (cmp_eq_l c1 H1 x y z Exy).
    by rewrite (cmp_eq_l c2 H2 x y z E2).
Qed.

Lemma Comparator_flip (c : A → A → comparison) :
  Comparator c → Comparator (λ x y, c y x).
Proof.
  intros Hc. split.
  - intros x y. apply (cmp_antisym c Hc).
  - intros x y z Hxy Hyz. by apply (cmp_lt_trans c Hc z y x).
  - intros x y z Hxy. symmetry. by apply (cmp_eq_r c z y x Hc).
Qed.

Lemma Comparator_on {B : Type} (f : B → A) (c : A → A → comparison) :
  Comparator c → Comparator (λ x y, c (f x) (f y)).
Proof.
  intros Hc. split.
  - intros x y. apply (cmp_antisym c Hc).
  - intros x y z. apply (cmp_lt_trans c Hc).
  - intros x y z. apply (cmp_eq_l c Hc).
Qed.
End Comparators.

Lemma Comparator_Z : Comparator Z.compare.
Proof.
  split.
  - intros x y. apply Z.compare_antisym.
  - intros x y z. rewrite !Z.compare_lt_iff. lia.
  - intros x y z Hxy. apply Z.compare_eq in Hxy. by subst.
Qed.

Lemma Comparator_Qc : Comparator Qccompare.
Proof.
  split.
  - intros x y. unfold Qccompare. symmetry. apply Qcompare_antisym.
  - intros x y z. rewrite <- !Qclt_alt. apply Qclt_trans.
  - intros x y z Hxy. apply Qceq_alt in Hxy. by subst.
Qed.

Lemma Comparator_string : Comparator String.compare.
Proof.
  assert (Hle : ∀ s t, String.le s t ↔ String.compare s t ≠ Gt).
  { intros s t. unfold String.le, String.leb.
    destruct (String.compare s t); simpl; intuition congruence. }
  split.
  - intros x y. apply String.compare_antisym.
  - intros x y z Hxy Hyz.
    assert (Hxz : String.compare x z ≠ Gt).
    { apply Hle. transitivity y; apply Hle; congruence. }
    destruct (String.compare x z) eqn:Exz; [|done..].
    apply String.compare_eq_iff in Exz. subst z.
    rewrite (String.compare_antisym y x), Hxy in Hyz. done.
  - intros x y z Hxy. apply String.compare_eq_iff in Hxy. by subst.
Qed.

Lemma Comparator_text : Comparator cmp_text.
Proof.
  pose proof Comparator_string as Hs. split.
  - intros [x|] [y|]; simpl; try done. apply (cmp_antisym _ Hs).
  - intros [x|] [y|] [z|]; simpl; try done. apply (cmp_lt_trans _ Hs).
  - intros [x|] [y|] [z|]; simpl; try done. apply (cmp_eq_l _ Hs).
Qed.

(** Each [ORDER BY] of the page query is such a comparison. *)
Lemma Comparator_order_by (sortBy : string) : Comparator (order_by sortBy).
Proof.
  pose proof (Comparator_on Row.distance_meters _ Comparator_Qc) as Hd.
  unfold order_by.
  destruct (decide (sortBy = "claims")); [|destruct (decide (sortBy = "name"))].
  - apply (Comparator_then
             (λ r1 r2, Row.total_claim_count r2 ?= Row.total_claim_count r1)); [|done].
    apply (Comparator_flip (λ r1 r2, Row.total_claim_count r1 ?= Row.total_claim_count r2)).
    apply (Comparator_on Row.total_claim_count _ Comparator_Z).
  - apply (Comparator_then
             (λ r1 r2, cmp_text (Row.provider_last_name r1) (Row.provider_last_name r2))).
    + apply (Comparator_on Row.provider_last_name _ Comparator_text).
    + apply (Comparator_then
               (λ r1 r2, cmp_text (Row.provider_first_name r1) (Row.provider_first_name r2)));
        [|done].
      apply (Comparator_on Row.provider_first_name _ Comparator_text).
  - done.
Qed.

(** ** The sorted listing and its pages *)

Section ListingFacts.
Context (ST_Distance : Geom -> Geom -> Qc).



Lemma insert_row_Sorted (cmp : Row.t → Row.t → comparison) (r : Row.t)
    (l : list Row.t) :
  Comparator cmp →
  Sorted (λ a b, cmp a b ≠ Gt) l → Sorted (λ a b, cmp a b ≠ Gt) (insert_row cmp r l).
Proof.
  intros Hc. induction l as [|x l IH]; intros Hs; simpl.
  - by repeat constructor.
  - inversion Hs as [|? ? Hl Hhd]; subst.
    destruct (cmp r x) eqn:Hrx.
    + constructor; [exact Hs|]. constructor. by rewrite Hrx.
    + constructor; [exact Hs|]. constructor. by rewrite Hrx.
    + constructor; [by apply IH|].
      destruct l as [|y l']; simpl.
      * constructor. by apply cmp_gt_le.
      * inversion Hhd; subst.
        destruct (cmp r y); constructor; try done; by apply cmp_gt_le.
Qed.

Lemma sort_rows_StronglySorted (cmp : Row.t → Row.t → comparison) (l : list Row.t) :
  Comparator cmp → StronglySorted (λ a b, cmp a b ≠ Gt) (sort_rows cmp l).
Proof.
  intros Hc. apply Sorted.Sorted_StronglySorted.
  - intros x y z. by apply cmp_le_trans.
  - unfold sort_rows. induction l as [|x l IH]; simpl; [constructor|].
    by apply insert_row_Sorted.
Qed.

Lemma StronglySorted_weaken {A : Type} (R R' : relation A) (l : list A) :
  (∀ x y, R x y → R' x y) → StronglySorted R l → StronglySorted R' l.
Proof.
  intros HR. induction 1 as [|x l Hl IH Hall]; constructor; [done|].
  eapply Forall_impl; [exact Hall|]. intros y. apply HR.
Qed.

Lemma StronglySorted_window {A : Type} (R : relation A) (l : list A) (n m : nat) :
  StronglySorted R l → StronglySorted R (take n (drop m l)).
Proof.
  intros Hl.
  assert (Hd : StronglySorted R (drop m l)).
  { rewrite <- (take_drop m l) in Hl. by apply StronglySorted_app_1_r in Hl. }
  rewrite <- (take_drop n (drop m l)) in Hd. by apply StronglySorted_app_1_l in Hd.
Qed.

Lemma finalQuery_window (db : Stores) (g : Geom) (radiusMeters : Qc) (p : Params)
    (lim offset : Z) :
  finalQuery ST_Distance db g radiusMeters p lim offset
  = take (Z.to_nat lim) (drop (Z.to_nat offset)
                           (ordered_rows ST_Distance db g radiusMeters p)).
Proof. reflexivity. Qed.


End ListingFacts.




(** X2: a page sorted by distance or by claims is in that order.  By
    default the distances never decrease along the page; for [claims] the
    claim counts never increase and rows with equal counts are in order of
    distance. *)
Theorem pages_are_sorted
    (ST_Distance : Geom -> Geom -> Qc) (db : Stores) (g : Geom) (radiusMeters : Qc)
    (p : Params) (lim offset : Z) :
  let page := finalQuery ST_Distance db g radiusMeters p lim offset in
  let nearer := λ a b : Row.t, (Row.distance_meters a ≤ Row.distance_meters b)%Qc in
  (p_sortBy p ≠ "claims" → p_sortBy p ≠ "name" → StronglySorted nearer page)
  ∧ (p_sortBy p = "claims" →
     StronglySorted
       (λ a b, Row.total_claim_count b < Row.total_claim_count a
               ∨ (Row.total_claim_count a = Row.total_claim_count b ∧ nearer a b))
       page).
Proof.
  intros page nearer. subst page. rewrite finalQuery_window.
  assert (Hs : StronglySorted (λ a b, order_by (p_sortBy p) a b ≠ Gt)
                 (take (Z.to_nat lim)
                    (drop (Z.to_nat offset)
                       (ordered_rows ST_Distance db g radiusMeters p)))).
  { apply StronglySorted_window, sort_rows_StronglySorted, Comparator_order_by. }
  assert (Hnear : ∀ a b : Row.t,
             (Row.distance_meters a ?= Row.distance_meters b)%Qc ≠ Gt → nearer a b).
  { intros a b. apply Qcle_alt. }
  split.
  - intros H1 H2. eapply StronglySorted_weaken; [|exact Hs].
    intros a b. unfold order_by.
    rewrite decide_False by done. rewrite decide_False by done. apply Hnear.
  - intros H1. eapply StronglySorted_weaken; [|exact Hs].
    intros a b. unfold order_by. rewrite decide_True by done. unfold then_cmp.
    destruct (Row.total_claim_count b ?= Row.total_claim_count a) eqn:E; [| |done].
    + apply Z.compare_eq in E. intros H. right. split; [done|]. by apply Hnear.
    + apply Z.compare_lt_iff in E. intros _. by left.
Qed.

Lemma pages_are_sorted_witness :
  StronglySorted
    (λ a b : Row.t, (Row.distance_meters a ≤ Row.distance_meters b)%Qc)
    (finalQuery taxicab db_two_rows (point 0 0) (Qc_of_Z 10 * meters_per_mile)%Qc
       (sample_params "sertraline" "distance" None None) 10 0)
  ∧ StronglySorted
      (λ a b, Row.total_claim_count b < Row.total_claim_count a
              ∨ (Row.total_claim_count a = Row.total_claim_count b
                 ∧ (Row.distance_meters a ≤ Row.distance_meters b)%Qc))
      (finalQuery taxicab db_two_rows (point 0 0) (Qc_of_Z 10 * meters_per_mile)%Qc
         (sample_params "sertraline" "claims" None None) 10 0).
Proof.
  split.
  - apply (pages_are_sorted taxicab db_two_rows (point 0 0)
             (Qc_of_Z 10 * meters_per_mile)%Qc
             (sample_params "sertraline" "distance" None None) 10 0); discriminate.
  - apply (pages_are_sorted taxicab db_two_rows (point 0 0)
             (Qc_of_Z 10 * meters_per_mile)%Qc
             (sample_params "sertraline" "claims" None None) 10 0).
    reflexivity.
Defined.

(** X3: every row of a page lies within the radius handed to the query and
    has at least the requested number of claims. *)
Theorem page_rows_pass_filters
    (ST_Distance : Geom -> Geom -> Qc) (db : Stores) (g : Geom) (radiusMeters : Qc)
    (p : Params) (lim offset : Z) (row : Row.t) :
  row ∈ finalQuery ST_Distance db g radiusMeters p lim offset →
  (Row.distance_meters row ≤ radiusMeters)%Qc
  ∧ (p_minClaims p ≤ Qc_of_Z (Row.total_claim_count row))%Qc.
Proof.
  intros Hrow. apply finalQuery_rows in Hrow as (j & Hj & ->).
  apply elem_of_baseQuery in Hj as [_ Hw].
  apply where_clause_iff in Hw as (Hd & _ & Hc & _). by split.
Qed.

Lemma page_rows_pass_filters_witness :
  (Row.distance_meters (select_row taxicab (point 0 0) joined_near)
   ≤ Qc_of_Z 10 * meters_per_mile)%Qc
  ∧ (Qc_of_Z 5 ≤ Qc_of_Z (Row.total_claim_count
                            (select_row taxicab (point 0 0) joined_near)))%Qc.
Proof.
  apply (page_rows_pass_filters taxicab db_boundary (point 0 0)
           (Qc_of_Z 10 * meters_per_mile)%Qc
           (sample_params "sertraline" "distance" None None) 10 0).
  vm_compute. apply list_elem_of_here.
Defined.

(** ** Outcomes of the search route *)

Lemma includes_infix (a b c : string) : Text.includes (a +:+ b +:+ c) b = true.
Proof.
  unfold Text.includes. rewrite !chars_app. apply includes_chars_iff.
  by exists (Text.chars a), (Text.chars c).
Qed.

(** X4: a search from a zip code without centroid is answered 404 with the
    message naming the zip, after the one lookup of the centroid: for a user
    of a tier other than basic and premium who sends such a zip, the route
    makes the profile and the centroid round-trips only. *)
Theorem unknown_zip_is_answered_404
    (ST_Distance : Geom -> Geom -> Qc) (db : Stores) (userId : string) (b : Body)
    (z : string) :
  userId ≠ EmptyString →
  profile_tier db userId ≠ Some "basic" →
  profile_tier db userId ≠ Some "premium" →
  findProvidersSchema b = true →
  zipCode b = Some z → z ≠ EmptyString →
  origin db z = None →
  find_providers_route ST_Distance db (Verified userId) b
  = ([SelectProfile userId; SelectZip z],
     inr (respond 404 ("Coordinates not found for zip code " +:+ z))).
Proof.
  intros Huser Hnb Hnp Hvalid Hz Hne Ho. unfold find_providers_route.
  rewrite Hvalid.
  rewrite (handler_searches _ db userId b [] z); [|done| |done].
  - unfold search_response.
    assert (Ho' : origin db (p_zipCode (params_of b z)) = None) by exact Ho.
    rewrite (findProviders_not_found _ _ _ Ho'). cbn.
    unfold on_search_error.
    change ("Coordinates not found for zip code " +:+ z)
      with ("Coordinates " +:+ "not found" +:+ (" for zip code " +:+ z)).
    by rewrite includes_infix.
  - unfold searchZip_of_tier.
    rewrite (decide_False (P := profile_tier db userId = Some "basic")) by done.
    rewrite (decide_False (P := profile_tier db userId = Some "premium")) by done.
    rewrite Hz, (truthy_Some z Hne).
    by destruct (decide (profile_tier db userId = Some "expert")).
Qed.

Lemma unknown_zip_is_answered_404_witness :
  find_providers_route taxicab db_two_rows (Verified "u-expert")
    (sample_body (Some "00000") None)
  = ([SelectProfile "u-expert"; SelectZip "00000"],
     inr (respond 404 ("Coordinates not found for zip code " +:+ "00000"))).
Proof.
  apply (unknown_zip_is_answered_404 taxicab db_two_rows "u-expert"
           (sample_body (Some "00000") None) "00000"); done.
Defined.

(** X5: with a taxonomy class free of pattern characters, every provider of
    the response has a classification containing that class, letter case
    ignored, and that classification heads the view's specialties. *)
Theorem taxonomy_filter_holds
    (ST_Distance : Geom -> Geom -> Qc) (db : Stores) (p : Params)
    (res : SearchResult) (class : string) (v : View.t) :
  outcome (findProviders ST_Distance db p) = inr res →
  p_taxonomyClass p = Some class → class ≠ EmptyString →
  Forall (λ c, Text.is_meta c = false) (Text.chars class) →
  v ∈ data res →
  ∃ s, head (View.specialties v) = Some s ∧ Text.contains_ci s class.
Proof.
  intros Hres Hclass Hne Hplain Hv.
  destruct (origin db (p_zipCode p)) as [g|] eqn:Ho.
  2: { rewrite (findProviders_not_found _ _ _ Ho) in Hres. discriminate. }
  rewrite (findProviders_found _ _ _ _ Ho) in Hres. simpl in Hres.
  injection Hres as <-. cbn [data] in Hv.
  apply list_elem_of_fmap in Hv as (row & -> & Hrow).
  apply finalQuery_rows in Hrow as (j & Hj & ->).
  apply elem_of_baseQuery in Hj as [_ Hw].
  apply where_clause_iff in Hw as (_ & _ & _ & Ht).
  rewrite Hclass in Ht. specialize (Ht (truthy_Some class Hne)). simpl in Ht.
  destruct (nd_healthcare_provider_taxonomy_1_classification (j_nd j)) as [s|] eqn:Hs;
    [|done].
  simpl in Ht. apply ilike_infix_contains in Ht; [|done].
  exists s. split; [|done].
  assert (Hs_ne : s ≠ EmptyString).
  { intros ->. destruct Ht as (pre & post & Heq). simpl in Heq.
    destruct pre; [|done]. simpl in Heq.
    destruct (Text.chars class) as [|c l] eqn:Hc; [|done].
    apply Hne. rewrite <- (of_chars_chars class), Hc. done. }
  unfold formatRow, select_row. cbn. rewrite Hs. cbn.
  by rewrite bool_decide_eq_false_2.
Qed.

Lemma taxonomy_filter_holds_witness :
  ∃ s, head (View.specialties sample_view) = Some s ∧ Text.contains_ci s "psych".
Proof.
  apply (taxonomy_filter_holds taxicab db_deactivated (sample_params_class "psych")
           sample_result "psych" sample_view).
  - vm_compute. reflexivity.
  - reflexivity.
  - done.
  - repeat constructor.
  - apply list_elem_of_here.
Defined.

(** ** Saved locations *)

Section LocationFacts.
Import Locations.

Lemma requireTier_passes (db : Stores) (userId : string) :
  requireTier ["premium"; "expert"] db (Some userId) = None ↔
  profile_tier db userId = Some "premium" ∨ profile_tier db userId = Some "expert".
Proof.
  unfold requireTier. destruct (profile_tier db userId) as [tier|]; simpl.
  - destruct (bool_decide (tier = EmptyString)) eqn:He; simpl.
    + apply bool_decide_eq_true in He. subst. split; [done|]. by intros [|].
    + destruct (bool_decide (tier ∈ ["premium"; "expert"])) eqn:Hin; simpl.
      * apply bool_decide_eq_true in Hin.
        rewrite !elem_of_cons, elem_of_nil in Hin. split; [|done].
        intros _. destruct Hin as [->|[->|[]]]; auto.
      * apply bool_decide_eq_false in Hin.
        rewrite !elem_of_cons, elem_of_nil in Hin. split; [done|].
        intros [[= ->]|[= ->]]; destruct Hin; auto.
  - split; [done|]. by intros [|].
Qed.

Lemma requireTier_refuses (db : Stores) (userId : string) :
  profile_tier db userId ≠ Some "premium" →
  profile_tier db userId ≠ Some "expert" →
  requireTier ["premium"; "expert"] db (Some userId) = Some (403, tier_refusal).
Proof.
  intros Hp He.
  destruct (requireTier ["premium"; "expert"] db (Some userId)) as [[code msg]|] eqn:Hr.
  - unfold requireTier in Hr.
    by destruct (negb (truthy (profile_tier db userId)) || _); simplify_eq.
  - apply requireTier_passes in Hr. tauto.
Qed.

Lemma set_flag_id (flag : bool) (s : Saved) :
  user_location_id (set_flag flag s) = user_location_id s.
Proof. done. Qed.

(** The two updates of [setPrimaryLocationHandler] taken together. *)
Lemma set_primary_after_clear (userId : string) (locationId : Z) (l : list Saved) :
  set_primary userId locationId (clear_other_primaries userId locationId l)
  = (λ s, if decide (owned_by userId s)
          then set_flag (bool_decide (user_location_id s = locationId)) s
          else s) <$> l.
Proof.
  unfold set_primary, clear_other_primaries. rewrite <- list_fmap_compose.
  apply list_fmap_ext. intros _ s _. simpl.
  repeat case_decide; unfold targeted, owned_by in *; simpl in *; tauto.
Qed.

Lemma targeted_after_clear (userId : string) (locationId : Z) (l : list Saved) :
  length (filter (targeted locationId userId) (clear_other_primaries userId locationId l))
  = length (filter (targeted locationId userId) l).
Proof.
  unfold clear_other_primaries. induction l as [|s l IH]; [done|].
  rewrite fmap_cons, !filter_cons.
  destruct (decide (owned_by userId s ∧ user_location_id s ≠ locationId)) as [H|H].
  - rewrite decide_False by (unfold targeted, owned_by in *; simpl; tauto).
    by rewrite decide_False by (unfold targeted in *; tauto).
  - destruct (decide (targeted locationId userId s)); simpl; by rewrite IH.
Qed.

Lemma same_key_same_row (l : list Saved) (a b : Saved) :
  NoDup (user_location_id <$> l) → a ∈ l → b ∈ l →
  user_location_id a = user_location_id b → a = b.
Proof.
  induction l as [|s l IH]; [by rewrite elem_of_nil|].
  rewrite fmap_cons, NoDup_cons, !elem_of_cons.
  intros [Hs Hl] [->|Ha] [->|Hb] Heq; try done.
  - destruct Hs. rewrite Heq. apply list_elem_of_fmap. eauto.
  - destruct Hs. rewrite <- Heq. apply list_elem_of_fmap. eauto.
  - by apply IH.
Qed.

Lemma add_keeps_keys (db : Stores) (t : Table) (user : option string)
    (name zipCode : string) :
  well_keyed t → well_keyed (table (addUserLocationHandler db t user name zipCode)).
Proof.
  intros (Hnd & Hlt & Hone). unfold addUserLocationHandler.
  destruct (negb (truthy user)); [done|].
  destruct (filter _ (us_zipcodes db)); [done|].
  destruct (filter _ (rows t)); [|done].
  unfold table, well_keyed. cbn. split_and!.
  - rewrite fmap_app. apply NoDup_app. split_and!; [done| |by apply NoDup_singleton].
    intros i Hi. apply list_elem_of_fmap in Hi as (s & -> & Hs).
    cbn. rewrite list_elem_of_singleton. specialize (Hlt s Hs). lia.
  - intros s. rewrite elem_of_app, list_elem_of_singleton.
    intros [Hs| ->]; [specialize (Hlt s Hs); lia | cbn; lia].
  - intros a b. rewrite !elem_of_app, !list_elem_of_singleton.
    intros [Ha| ->] [Hb| ->] Hu Hpa Hpb; try done. by apply Hone.
Qed.

Lemma delete_keeps_keys (t : Table) (user : option string) (locationId : Z) :
  well_keyed t → well_keyed (table (deleteUserLocationHandler t user locationId)).
Proof.
  intros (Hnd & Hlt & Hone). unfold deleteUserLocationHandler.
  destruct (negb (truthy user)); [done|].
  destruct (match filter _ (rows t) with [] => false | s :: _ => _ end); [done|].
  destruct (decide _); [done|].
  unfold table, well_keyed. cbn. split_and!.
  - eapply sublist_NoDup; [exact Hnd|]. apply fmap_sublist, sublist_filter.
  - intros s Hs. apply list_elem_of_filter in Hs as [_ Hs]. by apply Hlt.
  - intros a b Ha Hb. apply list_elem_of_filter in Ha as [_ Ha].
    apply list_elem_of_filter in Hb as [_ Hb]. by apply Hone.
Qed.

Lemma make_primary_keeps_keys (t : Table) (user : option string) (locationId : Z) :
  well_keyed t → well_keyed (table (setPrimaryLocationHandler t user locationId)).
Proof.
  intros (Hnd & Hlt & Hone). unfold setPrimaryLocationHandler.
  destruct (negb (truthy user)); [done|].
  destruct (decide _); [done|].
  unfold table, well_keyed. cbn. rewrite set_primary_after_clear.
  assert (Hids : ∀ l : list Saved,
             user_location_id <$>
               ((λ s, if decide (owned_by (or_empty user) s)
                      then set_flag (bool_decide (user_location_id s = locationId)) s
                      else s) <$> l)
             = user_location_id <$> l).
  { intros l. rewrite <- list_fmap_compose. apply list_fmap_ext.
    intros _ s _. simpl. by destruct (decide _). }
  split_and!.
  - by rewrite Hids.
  - intros s' Hs'. apply list_elem_of_fmap in Hs' as (s & -> & Hs).
    specialize (Hlt s Hs). by destruct (decide _).
  - intros a' b' Ha' Hb'.
    apply list_elem_of_fmap in Ha' as (a & -> & Ha).
    apply list_elem_of_fmap in Hb' as (b & -> & Hb).
    destruct (decide (owned_by (or_empty user) a)) as [Hoa|Hoa];
      destruct (decide (owned_by (or_empty user) b)) as [Hob|Hob];
      unfold owned_by in *; cbn; intros Hu Hpa Hpb.
    + apply bool_decide_eq_true in Hpa, Hpb.
      assert (a = b) as -> by (apply (same_key_same_row (rows t)); congruence).
      done.
    + congruence.
    + congruence.
    + by apply Hone.
Qed.

(** X6: every request to the location routes keeps the keys of the table:
    serial keys stay distinct and below the next serial value, and no user
    ever has two primary locations; so does every sequence of requests. *)
Theorem location_routes_keep_keys
    (db : Stores) (t : Table) (reqs : list (Auth * Request)) :
  well_keyed t → well_keyed (serve db t reqs).
Proof.
  revert t. induction reqs as [|[auth req] reqs IH]; intros t Ht; [done|].
  cbn [serve]. apply IH. unfold route.
  destruct auth as [| |userId]; cbn [unauthenticated user_of]; [done..|].
  destruct req as [|name zipCode|locationId|locationId].
  - unfold getUserLocationsHandler. by destruct (negb _).
  - destruct (requireTier ["premium"; "expert"] db (Some userId)) as [[code msg]|];
      [done|].
    destruct (addLocationSchema name zipCode); [|done]. by apply add_keeps_keys.
  - by apply delete_keeps_keys.
  - destruct (requireTier ["premium"; "expert"] db (Some userId)) as [[code msg]|];
      [done|].
    by apply make_primary_keeps_keys.
Qed.

Lemma location_routes_keep_keys_witness :
  well_keyed
    (serve db_two_rows sample_table
       [(Verified "u-premium", MakePrimary 1);
        (Verified "u-expert", Add "Home" "19104");
        (Verified "u-premium", Delete 2)]).
Proof.
  apply (location_routes_keep_keys db_two_rows sample_table).
  unfold well_keyed. cbn. split_and!.
  - repeat constructor; rewrite ?elem_of_cons, ?elem_of_nil; intros H;
      repeat destruct H as [H|H]; done.
  - intros s. rewrite !elem_of_cons, elem_of_nil.
    intros [->|[->|[->|[]]]]; cbn; lia.
  - intros a b. rewrite !elem_of_cons, !elem_of_nil.
    intros [->|[->|[->|[]]]] [->|[->|[->|[]]]]; cbn; done.
Defined.

Lemma filter_none {A : Type} (P : A → Prop) `{∀ x, Decision (P x)} (l : list A) :
  (∀ x, x ∈ l → ¬ P x) → filter P l = [].
Proof.
  induction l as [|x l IH]; intros Hl; [done|].
  rewrite filter_cons_False by (apply Hl, list_elem_of_here).
  apply IH. intros y Hy. apply Hl. by apply list_elem_of_further.
Qed.

Lemma origin_known (db : Stores) (zip : string) (g : Geom) :
  origin db zip = Some g →
  ∃ uz rest, filter (λ uz, uz_zip_code uz = zip) (us_zipcodes db) = uz :: rest.
Proof.
  unfold origin, zip_rows.
  destruct (filter _ (us_zipcodes db)) as [|uz rest]; [done|]. eauto.
Qed.



(** X8: a refused addition leaves the table as it was.  A user whose tier
    is neither premium nor expert is answered 403 before any statement; a
    zip without centroid is answered 400 naming the zip; a name the user
    already has is answered 409; and whatever the request, a reply other
    than 201 comes with an unchanged table. *)
Theorem refused_addition_changes_nothing
    (db : Stores) (t : Table) (auth : Auth) (userId name zipCode : string) :
  (profile_tier db userId ≠ Some "premium" → profile_tier db userId ≠ Some "expert" →
   route db t (Verified userId) (Add name zipCode) = refuse t [] 403 tier_refusal)
  ∧ (userId ≠ EmptyString →
     requireTier ["premium"; "expert"] db (Some userId) = None →
     addLocationSchema name zipCode = true →
     (origin db zipCode = None →
      route db t (Verified userId) (Add name zipCode)
      = refuse t [SelectZipExists zipCode] 400 ("Invalid zip code: " +:+ zipCode))
     ∧ (∀ g s, origin db zipCode = Some g →
               s ∈ rows t → owned_by userId s → ul_location_name (location s) = name →
               route db t (Verified userId) (Add name zipCode)
               = refuse t [SelectZipExists zipCode; SelectNameExists userId name] 409
                   (already_exists name)))
  ∧ (status (reply (route db t auth (Add name zipCode))) ≠ 201 →
     table (route db t auth (Add name zipCode)) = t).
Proof.
  split_and!.
  - intros Hp He. unfold route. cbn [unauthenticated user_of].
    by rewrite (requireTier_refuses db userId Hp He).
  - intros Huser Htier Hschema. unfold route. cbn [unauthenticated user_of].
    rewrite Htier, Hschema. unfold addUserLocationHandler.
    rewrite (truthy_Some userId Huser). cbn [negb or_empty]. split.
    + intros Ho. unfold origin, zip_rows in Ho.
      by destruct (filter _ (us_zipcodes db)).
    + intros g s Ho Hs Hown Hname.
      destruct (origin_known db zipCode g Ho) as (uz & rest & ->).
      destruct (filter (λ s0, owned_by userId s0 ∧ ul_location_name (location s0) = name)
                  (rows t)) as [|s' l] eqn:Hf; [|done].
      by destruct (filter_nil_not_elem_of _ _ s Hf).
  - unfold route. destruct auth as [| |u]; cbn [unauthenticated user_of]; [done..|].
    destruct (requireTier ["premium"; "expert"] db (Some u)) as [[code msg]|]; [done|].
    destruct (addLocationSchema name zipCode); [|done].
    unfold addUserLocationHandler. destruct (negb (truthy (Some u))); [done|].
    destruct (filter _ (us_zipcodes db)); [done|].
    destruct (filter _ (rows t)); [|done]. cbn. done.
Qed.

Lemma refused_addition_changes_nothing_witness :
  route db_two_rows sample_table (Verified "u-basic") (Add "Home" "19104")
  = refuse sample_table [] 403 tier_refusal
  ∧ route db_two_rows sample_table (Verified "u-expert") (Add "Home" "00000")
    = refuse sample_table [SelectZipExists "00000"] 400 ("Invalid zip code: " +:+ "00000")
  ∧ route db_two_rows sample_table (Verified "u-premium") (Add "Home" "19104")
    = refuse sample_table [SelectZipExists "19104"; SelectNameExists "u-premium" "Home"]
        409 (already_exists "Home")
  ∧ table (route db_two_rows sample_table NoToken (Add "Home" "19104")) = sample_table.
Proof.
  split_and!.
  4: { destruct (refused_addition_changes_nothing db_two_rows sample_table NoToken
                   "u-basic" "Home" "19104") as (_ & _ & Hsame).
       by apply Hsame. }
  - destruct (refused_addition_changes_nothing db_two_rows sample_table NoToken
                "u-basic" "Home" "19104") as (Htier & _).
    by apply Htier.
  - destruct (refused_addition_changes_nothing db_two_rows sample_table NoToken
                "u-expert" "Home" "00000") as (_ & Hzip & _).
    by apply Hzip.
  - destruct (refused_addition_changes_nothing db_two_rows sample_table NoToken
                "u-premium" "Home" "19104") as (_ & Hname & _).
    destruct Hname as [_ Hname]; [done..|].
    apply (Hname (point 0 0) (saved 2 "u-premium" "Home" "19104" true)); try done.
    cbn. rewrite !elem_of_cons. auto.
Defined.
Lemma filter_only {A : Type} (P : A → Prop) `{∀ x, Decision (P x)}
    (l1 : list A) (x : A) (l2 : list A) :
  (∀ y, y ∈ l1 → ¬ P y) → P x → (∀ y, y ∈ l2 → ¬ P y) →
  filter P (l1 ++ x :: l2) = [x].
Proof.
  intros H1 Hx H2.
  rewrite filter_app, filter_cons_True by done.
  by rewrite (filter_none P l1), (filter_none P l2).
Qed.

(** With distinct keys, a row is the only one of its key. *)
Lemma split_at_key (l : list Saved) (s : Saved) :
  NoDup (user_location_id <$> l) → s ∈ l →
  ∃ l1 l2, l = l1 ++ s :: l2
           ∧ (∀ y, y ∈ l1 → user_location_id y ≠ user_location_id s)
           ∧ (∀ y, y ∈ l2 → user_location_id y ≠ user_location_id s).
Proof.
  intros Hnd Hs. apply list_elem_of_split in Hs as (l1 & l2 & ->).
  exists l1, l2. split; [done|].
  rewrite fmap_app, fmap_cons in Hnd.
  apply NoDup_app in Hnd as (_ & Hdis & Hnd2).
  apply NoDup_cons in Hnd2 as [Hnot _].
  split; intros y Hy Heq.
  - apply (Hdis (user_location_id y)).
    + apply list_elem_of_fmap. eauto.
    + rewrite Heq. apply list_elem_of_here.
  - apply Hnot. rewrite <- Heq. apply list_elem_of_fmap. eauto.
Qed.

Lemma filter_targeted_unique (l : list Saved) (locationId : Z) (userId : string)
    (s : Saved) :
  NoDup (user_location_id <$> l) → s ∈ l → targeted locationId userId s →
  filter (targeted locationId userId) l = [s].
Proof.
  intros Hnd Hs [Hid Hown].
  destruct (split_at_key l s Hnd Hs) as (l1 & l2 & -> & H1 & H2).
  apply filter_only; [|done|].
  - intros y Hy [Hy' _]. apply (H1 y Hy). congruence.
  - intros y Hy [Hy' _]. apply (H2 y Hy). congruence.
Qed.

(** X9: choosing a primary location.  For a premium or expert user and a
    location of theirs, the reply is 200 and the transaction is committed;
    afterwards the lookup of the user's primary location, as a basic
    search makes it, returns the chosen location; among the user's
    locations the chosen one is the only primary one; and the locations of
    other users are as before. *)
Theorem chosen_location_becomes_primary
    (db : Stores) (t : Table) (userId : string) (locationId : Z) (s : Saved) :
  userId ≠ EmptyString →
  profile_tier db userId = Some "premium" ∨ profile_tier db userId = Some "expert" →
  well_keyed t → s ∈ rows t → targeted locationId userId s →
  let r := route db t (Verified userId) (MakePrimary locationId) in
  reply r = {| status := 200; json := SuccessJson |}
  ∧ statements r = [Begin; ClearOtherPrimaries userId locationId;
                    SetPrimary userId locationId; Commit]
  ∧ location_rows (with_locations db (table r)) userId None true
    = [location (set_flag true s)]
  ∧ (∀ s', s' ∈ rows (table r) → owned_by userId s' →
           (ul_is_primary (location s') = true ↔ user_location_id s' = locationId))
  ∧ (∀ s', ¬ owned_by userId s' → (s' ∈ rows (table r) ↔ s' ∈ rows t)).
Proof.
  intros Huser Htier (Hnd & _ & _) Hs Ht r. subst r.
  unfold route. cbn [unauthenticated user_of].
  apply requireTier_passes in Htier. rewrite Htier.
  unfold setPrimaryLocationHandler. rewrite (truthy_Some userId Huser).
  cbn [negb or_empty]. rewrite targeted_after_clear.
  rewrite (filter_targeted_unique _ _ _ s Hnd Hs Ht).
  rewrite decide_False by done. rewrite set_primary_after_clear.
  unfold reply, statements, table. cbn [fst snd rows].
  split_and!; [done|done| | |].
  - unfold location_rows. cbn [user_locations with_locations rows].
    destruct (split_at_key (rows t) s Hnd Hs) as (l1 & l2 & -> & H1 & H2).
    destruct Ht as [Hid Hown].
    rewrite !fmap_app, !fmap_cons.
    rewrite filter_only.
    + cbn. rewrite decide_True by done. rewrite bool_decide_eq_true_2 by done. done.
    + intros ul Hul (Hu & Hp & _). specialize (Hp eq_refl).
      apply list_elem_of_fmap in Hul as (s1 & -> & Hs1).
      apply list_elem_of_fmap in Hs1 as (s0 & -> & Hs0).
      destruct (decide (owned_by userId s0)) as [Ho|Ho]; [|done].
      cbn in Hp. apply bool_decide_eq_true in Hp.
      apply (H1 s0 Hs0). congruence.
    + rewrite decide_True by done. cbn. rewrite bool_decide_eq_true_2 by done.
      by split_and!.
    + intros ul Hul (Hu & Hp & _). specialize (Hp eq_refl).
      apply list_elem_of_fmap in Hul as (s1 & -> & Hs1).
      apply list_elem_of_fmap in Hs1 as (s0 & -> & Hs0).
      destruct (decide (owned_by userId s0)) as [Ho|Ho]; [|done].
      cbn in Hp. apply bool_decide_eq_true in Hp.
      apply (H2 s0 Hs0). congruence.
  - intros s' Hs' Hown.
    apply list_elem_of_fmap in Hs' as (s0 & -> & Hs0).
    destruct (decide (owned_by userId s0)) as [Ho|Ho]; [|done].
    cbn. apply bool_decide_eq_true.
  - intros s' Hown. rewrite list_elem_of_fmap. split.
    + intros (s0 & -> & Hs0).
      destruct (decide (owned_by userId s0)) as [Ho|Ho]; [|done].
      by destruct Hown.
    + intros Hs'. exists s'. by rewrite decide_False.
Qed.

Lemma chosen_location_becomes_primary_witness :
  let r := route db_two_rows sample_table (Verified "u-premium") (MakePrimary 1) in
  reply r = {| status := 200; json := SuccessJson |}
  ∧ statements r = [Begin; ClearOtherPrimaries "u-premium" 1;
                    SetPrimary "u-premium" 1; Commit]
  ∧ location_rows (with_locations db_two_rows (table r)) "u-premium" None true
    = [location (saved 1 "u-premium" "Work" "19103" true)]
  ∧ (∀ s', s' ∈ rows (table r) → owned_by "u-premium" s' →
           (ul_is_primary (location s') = true ↔ user_location_id s' = 1))
  ∧ (∀ s', ¬ owned_by "u-premium" s' → (s' ∈ rows (table r) ↔ s' ∈ rows sample_table)).
Proof.
  apply (chosen_location_becomes_primary db_two_rows sample_table "u-premium" 1
           (saved 1 "u-premium" "Work" "19103" false)); try done.
  - by left.
  - split_and!.
    + cbn. repeat constructor; rewrite ?elem_of_cons, ?elem_of_nil; intuition lia.
    + intros s0. cbn. rewrite !elem_of_cons, elem_of_nil.
      intros [->|[->|[->|[]]]]; cbn; lia.
    + intros a b. cbn. rewrite !elem_of_cons, !elem_of_nil.
      intros [->|[->|[->|[]]]] [->|[->|[->|[]]]]; cbn; done.
  - cbn. apply list_elem_of_here.
Defined.

(** X10: a choice of primary location that is not answered 200 changes
    nothing.  In particular, when the key is within the range of the
    [SERIAL] column and the user has no location of that key, the first
    update (which clears the user's primary flags) is rolled back with the
    transaction and the reply is 404. *)
Theorem refused_choice_is_rolled_back
    (db : Stores) (t : Table) (auth : Auth) (locationId : Z) :
  (status (reply (route db t auth (MakePrimary locationId))) ≠ 200 →
   table (route db t auth (MakePrimary locationId)) = t)
  ∧ (∀ userId, auth = Verified userId → userId ≠ EmptyString →
       requireTier ["premium"; "expert"] db (Some userId) = None →
       int4 locationId →
       (∀ s, s ∈ rows t → ¬ targeted locationId userId s) →
       route db t auth (MakePrimary locationId)
       = refuse t [Begin; ClearOtherPrimaries userId locationId;
                   SetPrimary userId locationId; Rollback] 404 "Location not found.").
Proof.
  split.
  - unfold route. destruct auth as [| |u]; cbn [unauthenticated user_of]; [done..|].
    destruct (requireTier ["premium"; "expert"] db (Some u)) as [[code msg]|]; [done|].
    unfold setPrimaryLocationHandler. destruct (negb (truthy (Some u))); [done|].
    case_decide; [done|]. cbn. done.
  - intros userId -> Huser Htier _ Hnone.
    unfold route. cbn [unauthenticated user_of]. rewrite Htier.
    unfold setPrimaryLocationHandler. rewrite (truthy_Some userId Huser).
    cbn [negb or_empty]. rewrite targeted_after_clear.
    rewrite (filter_none _ (rows t)) by done.
    by rewrite decide_True.
Qed.

Lemma refused_choice_is_rolled_back_witness :
  table (route db_two_rows sample_table (Verified "u-basic") (MakePrimary 1)) = sample_table
  ∧ route db_two_rows sample_table (Verified "u-premium") (MakePrimary 3)
    = refuse sample_table [Begin; ClearOtherPrimaries "u-premium" 3;
                           SetPrimary "u-premium" 3; Rollback] 404 "Location not found.".
Proof.
  split.
  - destruct (refused_choice_is_rolled_back db_two_rows sample_table
                (Verified "u-basic") 1) as [Hsame _].
    by apply Hsame.
  - destruct (refused_choice_is_rolled_back db_two_rows sample_table
                (Verified "u-premium") 3) as [_ Hnone].
    apply Hnone; [done|done|done|unfold int4; lia|].
    intros s. cbn. rewrite !elem_of_cons, elem_of_nil.
    intros [->|[->|[->|[]]]] [Hid Hown]; cbn in *; done.
Defined.

(** X11: what a deletion removes.  The key is within the range of the
    [SERIAL] column.  With distinct keys, deleting a location
    of one's own that is not primary is answered 200 and removes that row;
    a primary one is answered 400 and a key the user does not own 404, both
    with the table unchanged; and in every case each row that is primary,
    or is not the user's row of that key, is still there, and no row is
    added. *)
Theorem deletion_removes_only_the_target
    (db : Stores) (t : Table) (userId : string) (locationId : Z) :
  userId ≠ EmptyString → well_keyed t → int4 locationId →
  let r := route db t (Verified userId) (Delete locationId) in
  (∀ s, s ∈ rows t → targeted locationId userId s →
        if ul_is_primary (location s)
        then r = refuse t [SelectIsPrimary locationId userId] 400
                   "Cannot delete primary location."
        else reply r = {| status := 200; json := SuccessJson |}
             ∧ ∀ s', s' ∈ rows (table r) ↔ s' ∈ rows t ∧ s' ≠ s)
  ∧ ((∀ s, s ∈ rows t → ¬ targeted locationId userId s) →
     r = refuse t [SelectIsPrimary locationId userId; DeleteLocation locationId userId]
           404 "Location not found.")
  ∧ (∀ s, s ∈ rows t →
          ¬ targeted locationId userId s ∨ ul_is_primary (location s) = true →
          s ∈ rows (table r))
  ∧ (∀ s, s ∈ rows (table r) → s ∈ rows t).
Proof.
  intros Huser (Hnd & _ & _) _ r.
  assert (Hr : r = deleteUserLocationHandler t (Some userId) locationId) by done.
  clearbody r. subst r.
  unfold deleteUserLocationHandler. rewrite (truthy_Some userId Huser).
  cbn [negb or_empty]. split_and!.
  - intros s Hs Ht. rewrite (filter_targeted_unique _ _ _ s Hnd Hs Ht).
    destruct (ul_is_primary (location s)) eqn:Hp; [done|].
    rewrite decide_False by done. unfold reply, table. cbn [fst snd rows].
    split; [done|]. intros s'. rewrite list_elem_of_filter. split.
    + intros [Hnot Hs']. split; [done|]. by intros ->.
    + intros [Hs' Hne]. split; [|done]. intros [Hid Hown]. apply Hne.
      apply (same_key_same_row (rows t)); try done.
      destruct Ht as [Hid' _]. congruence.
  - intros Hnone. rewrite (filter_none _ (rows t)) by done.
    by rewrite decide_True.
  - intros s Hs Hkeep.
    destruct (filter (targeted locationId userId) (rows t)) as [|s0 found] eqn:Hf.
    + by rewrite decide_True.
    + destruct (ul_is_primary (location s0)) eqn:Hp0; [done|].
      rewrite decide_False by done. unfold table. cbn [fst snd rows].
      apply list_elem_of_filter. split; [|done].
      intros Ht. destruct Hkeep as [Hkeep|Hkeep]; [done|].
      rewrite (filter_targeted_unique _ _ _ s Hnd Hs Ht) in Hf.
      injection Hf as -> _. congruence.
  - intros s.
    destruct (filter (targeted locationId userId) (rows t)) as [|s0 found].
    + by rewrite decide_True.
    + destruct (ul_is_primary (location s0)); [done|].
      rewrite decide_False by done. unfold table. cbn [fst snd rows].
      rewrite list_elem_of_filter. tauto.
Qed.

Lemma deletion_removes_only_the_target_witness :
  let r := route db_two_rows sample_table (Verified "u-premium") (Delete 1) in
  reply r = {| status := 200; json := SuccessJson |}
  ∧ rows (table r) = [saved 2 "u-premium" "Home" "19104" true;
                      saved 3 "u-expert" "Lab" "19103" false]
  ∧ route db_two_rows sample_table (Verified "u-premium") (Delete 2)
    = refuse sample_table [SelectIsPrimary 2 "u-premium"] 400
        "Cannot delete primary location."
  ∧ route db_two_rows sample_table (Verified "u-premium") (Delete 3)
    = refuse sample_table [SelectIsPrimary 3 "u-premium"; DeleteLocation 3 "u-premium"]
        404 "Location not found.".
Proof.
  assert (Hk : well_keyed sample_table).
  { split_and!.
    - cbn. repeat constructor; rewrite ?elem_of_cons, ?elem_of_nil; intuition lia.
    - intros s0. cbn. rewrite !elem_of_cons, elem_of_nil.
      intros [->|[->|[->|[]]]]; cbn; lia.
    - intros a b. cbn. rewrite !elem_of_cons, !elem_of_nil.
      intros [->|[->|[->|[]]]] [->|[->|[->|[]]]]; cbn; done. }
  assert (Hin : ∀ k, 1 ≤ k ≤ 3 → int4 k) by (unfold int4; lia).
  split_and!; [|done| |].
  - destruct (deletion_removes_only_the_target db_two_rows sample_table "u-premium" 1
                ltac:(done) Hk (Hin 1 ltac:(lia))) as (Hdel & _).
    specialize (Hdel (saved 1 "u-premium" "Work" "19103" false)).
    cbn [ul_is_primary location saved] in Hdel.
    apply Hdel; [apply list_elem_of_here|done].
  - destruct (deletion_removes_only_the_target db_two_rows sample_table "u-premium" 2
                ltac:(done) Hk (Hin 2 ltac:(lia))) as (Hdel & _).
    specialize (Hdel (saved 2 "u-premium" "Home" "19104" true)).
    cbn [ul_is_primary location saved] in Hdel.
    apply Hdel; [|done]. cbn. rewrite !elem_of_cons. auto.
  - destruct (deletion_removes_only_the_target db_two_rows sample_table "u-premium" 3
                ltac:(done) Hk (Hin 3 ltac:(lia))) as (_ & Hnone & _).
    apply Hnone. intros s. cbn. rewrite !elem_of_cons, elem_of_nil.
    intros [->|[->|[->|[]]]] [Hid Hown]; cbn in *; done.
Defined.
(** The routes give no primary location to a user whose tier is neither
    premium nor expert. *)
Lemma route_keeps_no_primary (db : Stores) (t : Table) (auth : Auth) (req : Request)
    (userId : string) :
  profile_tier db userId ≠ Some "premium" → profile_tier db userId ≠ Some "expert" →
  (∀ s, s ∈ rows t → owned_by userId s → ul_is_primary (location s) = false) →
  ∀ s, s ∈ rows (table (route db t auth req)) → owned_by userId s →
       ul_is_primary (location s) = false.
Proof.
  intros Hp He Hno. unfold route.
  destruct auth as [| |u]; cbn [unauthenticated user_of]; [done..|].
  destruct req as [|name zipCode|locationId|locationId].
  - unfold getUserLocationsHandler. by destruct (negb (truthy (Some u))).
  - destruct (requireTier ["premium"; "expert"] db (Some u)) as [[code msg]|]; [done|].
    destruct (addLocationSchema name zipCode); [|done].
    unfold addUserLocationHandler. destruct (negb (truthy (Some u))); [done|].
    destruct (filter _ (us_zipcodes db)); [done|].
    destruct (filter _ (rows t)); [|done].
    unfold table. cbn [fst snd rows]. intros s Hs Hown.
    apply elem_of_app in Hs as [Hs|Hs]; [by apply Hno|].
    apply list_elem_of_singleton in Hs. by subst.
  - unfold deleteUserLocationHandler. destruct (negb (truthy (Some u))); [done|].
    destruct (match filter _ (rows t) with [] => false | s :: _ => _ end); [done|].
    case_decide; [done|]. unfold table. cbn [fst snd rows]. intros s Hs Hown.
    apply list_elem_of_filter in Hs as [_ Hs]. by apply Hno.
  - destruct (requireTier ["premium"; "expert"] db (Some u)) as [[code msg]|] eqn:Ht;
      [done|].
    apply requireTier_passes in Ht.
    assert (Hne : u ≠ userId) by (intros ->; tauto).
    unfold setPrimaryLocationHandler. destruct (negb (truthy (Some u))); [done|].
    case_decide; [done|]. unfold table. cbn [fst snd rows or_empty].
    rewrite set_primary_after_clear. intros s Hs Hown.
    apply list_elem_of_fmap in Hs as (s0 & -> & Hs0).
    destruct (decide (owned_by u s0)) as [Ho|Ho]; [|by apply Hno].
    unfold owned_by in *. cbn in Hown. congruence.
Qed.

Lemma serve_keeps_no_primary (db : Stores) (reqs : list (Auth * Request))
    (userId : string) :
  profile_tier db userId ≠ Some "premium" → profile_tier db userId ≠ Some "expert" →
  ∀ t, (∀ s, s ∈ rows t → owned_by userId s → ul_is_primary (location s) = false) →
       ∀ s, s ∈ rows (serve db t reqs) → owned_by userId s →
            ul_is_primary (location s) = false.
Proof.
  intros Hp He. induction reqs as [|[auth req] reqs IH]; intros t Hno; [done|].
  cbn [serve]. apply IH. by apply route_keeps_no_primary.
Qed.

(** A basic search by a user without primary location. *)
Lemma search_without_primary (ST_Distance : Geom → Geom → Qc) (db : Stores)
    (userId : string) (b : Body) :
  userId ≠ EmptyString →
  profile_tier db userId = Some "basic" →
  findProvidersSchema b = true →
  (∀ ul, ul ∈ user_locations db → ul_user_id ul = userId → ul_is_primary ul = false) →
  find_providers_route ST_Distance db (Verified userId) b
  = ([SelectProfile userId; SelectUserLocation userId true None],
     inr (respond 404 "Primary location not found")).
Proof.
  intros Huser Htier Hschema Hno.
  unfold find_providers_route. rewrite Hschema.
  rewrite (handler_catches ST_Distance _ userId b
             [SelectUserLocation userId true None] "Primary location not found" Huser).
  - reflexivity.
  - rewrite Htier. unfold searchZip_of_tier. rewrite decide_True by done.
    unfold getUserLocation, location_rows.
    rewrite filter_none; [reflexivity|].
    intros ul Hul (Hu & Hp & _). specialize (Hp eq_refl).
    specialize (Hno ul Hul Hu). congruence.
Qed.

(** X12: a basic user cannot obtain a primary location through the
    service, so their searches stay unanswered.  If a user of tier basic
    has no primary location, then after any sequence of requests to the
    location routes, by anyone, a valid search by that user is still
    answered 404 [Primary location not found], after the profile and the
    location lookups and without any provider query. *)
Theorem basic_search_stays_without_origin
    (ST_Distance : Geom → Geom → Qc) (db : Stores) (t : Table)
    (reqs : list (Auth * Request)) (userId : string) (b : Body) :
  userId ≠ EmptyString →
  profile_tier db userId = Some "basic" →
  findProvidersSchema b = true →
  (∀ s, s ∈ rows t → owned_by userId s → ul_is_primary (location s) = false) →
  find_providers_route ST_Distance (with_locations db (serve db t reqs))
    (Verified userId) b
  = ([SelectProfile userId; SelectUserLocation userId true None],
     inr (respond 404 "Primary location not found")).
Proof.
  intros Huser Htier Hschema Hno.
  apply search_without_primary; try done.
  cbn [user_locations with_locations]. intros ul Hul Hu.
  apply list_elem_of_fmap in Hul as (s & -> & Hs).
  apply (serve_keeps_no_primary db reqs userId) with (t := t); try done.
  all: rewrite Htier; done.
Qed.

Lemma basic_search_stays_without_origin_witness :
  find_providers_route taxicab
    (with_locations db_two_rows
       (serve db_two_rows sample_table
          [(Verified "u-basic", Add "Home" "19104");
           (Verified "u-basic", MakePrimary 1);
           (Verified "u-premium", MakePrimary 1)]))
    (Verified "u-basic") (sample_body (Some "19104") (Some "Home"))
  = ([SelectProfile "u-basic"; SelectUserLocation "u-basic" true None],
     inr (respond 404 "Primary location not found")).
Proof.
  apply (basic_search_stays_without_origin taxicab db_two_rows sample_table);
    try done.
  intros s. cbn. rewrite !elem_of_cons, elem_of_nil.
  intros [->|[->|[->|[]]]]; cbn; done.
Defined.

Lemma Comparator_flag_desc : Comparator cmp_flag_desc.
Proof.
  split.
  - by intros [] [].
  - by intros [] [] [].
  - by intros [] [] [].
Qed.

Lemma Comparator_listing_order : Comparator listing_order.
Proof.
  apply (Comparator_then
           (λ a b, cmp_flag_desc (ul_is_primary (location a)) (ul_is_primary (location b)))
           (λ a b, String.compare (ul_location_name (location a))
                     (ul_location_name (location b)))).
  - apply (Comparator_on (λ a, ul_is_primary (location a)) _ Comparator_flag_desc).
  - apply (Comparator_on (λ a, ul_location_name (location a)) _ Comparator_string).
Qed.

(** X13: the listing of saved locations.  An authenticated user is
    answered 200 with exactly their own locations, each once, the table
    untouched, and every primary location comes before every other one. *)
Theorem listing_is_own_and_sorted
    (db : Stores) (t : Table) (userId : string) :
  userId ≠ EmptyString →
  ∃ items,
    route db t (Verified userId) List
    = ([SelectLocations userId], t, {| status := 200; json := ItemsJson items |})
    ∧ items ≡ₚ item_of <$> filter (owned_by userId) (rows t)
    ∧ StronglySorted (λ a b, isPrimary b = true → isPrimary a = true) items.
Proof.
  intros Huser. unfold route. cbn [unauthenticated user_of].
  unfold getUserLocationsHandler. rewrite (truthy_Some userId Huser).
  cbn [negb or_empty]. eexists. split_and!; [reflexivity| |].
  - by rewrite merge_sort_Permutation.
  - pose proof Comparator_listing_order as Hc.
    assert (Htrans : Transitive listed_before).
    { intros x y z. apply (cmp_le_trans listing_order x y z Hc). }
    assert (Htotal : Total listed_before).
    { intros x y. unfold listed_before.
      destruct (listing_order x y) eqn:Hxy; [by left..|].
      right. by apply (cmp_gt_le listing_order x y Hc). }
    apply (StronglySorted_fmap item_of listed_before);
      [|by apply StronglySorted_merge_sort].
    intros x y. unfold listed_before, listing_order. cbn.
    by destruct (ul_is_primary (location x)), (ul_is_primary (location y)).
Qed.

Lemma listing_is_own_and_sorted_witness :
  ∃ items,
    route db_two_rows sample_table (Verified "u-premium") List
    = ([SelectLocations "u-premium"], sample_table,
       {| status := 200; json := ItemsJson items |})
    ∧ items ≡ₚ item_of <$> filter (owned_by "u-premium") (rows sample_table)
    ∧ StronglySorted (λ a b, isPrimary b = true → isPrimary a = true) items.
Proof. apply (listing_is_own_and_sorted db_two_rows sample_table "u-premium"). done. Defined.
End LocationFacts.

(** ** Provider details *)

Lemma same_key {A B : Type} (f : A → B) (l : list A) (a b : A) :
  NoDup (f <$> l) → a ∈ l → b ∈ l → f a = f b → a = b.
Proof.
  induction l as [|s l IH]; [by rewrite elem_of_nil|].
  rewrite fmap_cons, NoDup_cons, !elem_of_cons.
  intros [Hs Hl] [->|Ha] [->|Hb] Heq; try done.
  - destruct Hs. rewrite Heq. apply list_elem_of_fmap. eauto.
  - destruct Hs. rewrite <- Heq. apply list_elem_of_fmap. eauto.
  - by apply IH.
Qed.

Lemma elem_of_left_rows {A : Type} (l : list A) (o : option A) :
  o ∈ left_rows l ↔ (l = [] ∧ o = None) ∨ (∃ a, o = Some a ∧ a ∈ l).
Proof.
  destruct l as [|x l]; unfold left_rows.
  - rewrite list_elem_of_singleton. split.
    + intros ->. by left.
    + intros [[_ ->]|(a & _ & Ha)]; [done|]. by apply elem_of_nil in Ha.
  - rewrite list_elem_of_fmap. split.
    + intros (a & -> & Ha). right. eauto.
    + intros [[? _]|(a & -> & Ha)]; [done|]. eauto.
Qed.

Lemma left_rows_inhabited {A : Type} (l : list A) : ∃ o, o ∈ left_rows l.
Proof.
  destruct l as [|x l].
  - exists None. apply list_elem_of_here.
  - exists (Some x). apply list_elem_of_here.
Qed.

Lemma elem_of_from_left_join (db : Stores) (nd : NpiDetails) (na : option NpiAddress)
    (uz : option UsZipcode) :
  (nd, na, uz) ∈ from_left_join db ↔
  nd ∈ npi_details db
  ∧ na ∈ left_rows (filter (λ na, nd_npi nd = na_npi na) (npi_addresses db))
  ∧ uz ∈ left_rows (filter (λ uz, na ≫= na_postal_code = Some (uz_zip_code uz))
                      (us_zipcodes db)).
Proof.
  unfold from_left_join. split.
  - intros H.
    apply list_elem_of_bind in H as (nd' & H & Hnd).
    apply list_elem_of_bind in H as (na' & H & Hna).
    apply list_elem_of_bind in H as (uz' & H & Huz).
    apply list_elem_of_singleton in H. injection H as -> -> ->. done.
  - intros (Hnd & Hna & Huz).
    apply list_elem_of_bind. exists nd. split; [|done].
    apply list_elem_of_bind. exists na. split; [|done].
    apply list_elem_of_bind. exists uz. split; [|done].
    apply list_elem_of_here.
Qed.

Lemma from_left_join_covers (db : Stores) (nd : NpiDetails) :
  nd ∈ npi_details db → ∃ na uz, (nd, na, uz) ∈ from_left_join db.
Proof.
  intros Hnd.
  destruct (left_rows_inhabited
              (filter (λ na, nd_npi nd = na_npi na) (npi_addresses db))) as [na Hna].
  destruct (left_rows_inhabited
              (filter (λ uz, na ≫= na_postal_code = Some (uz_zip_code uz))
                 (us_zipcodes db))) as [uz Huz].
  exists na, uz. by apply elem_of_from_left_join.
Qed.

(** The row the details query returns, when it returns one. *)
Lemma details_rows_head (db : Stores) (providerId : Z) (row : DetailRow.t)
    (rest : list DetailRow.t) :
  details_rows db providerId = row :: rest →
  ∃ nd na uz, (nd, na, uz) ∈ from_left_join db ∧ nd_npi nd = providerId
              ∧ row = select_details db (nd, na, uz).
Proof.
  unfold details_rows. intros H.
  assert (Hin : row ∈ select_details db <$>
            filter (λ j : LeftJoined, nd_npi j.1.1 = providerId) (from_left_join db)).
  { eapply subseteq_take. rewrite H. apply list_elem_of_here. }
  apply list_elem_of_fmap in Hin as ([[nd na] uz] & -> & Hj).
  apply list_elem_of_filter in Hj as [Hid Hj]. eauto 6.
Qed.

Lemma details_rows_found (db : Stores) (nd : NpiDetails) :
  nd ∈ npi_details db →
  ∃ row rest, details_rows db (nd_npi nd) = row :: rest.
Proof.
  intros Hnd. destruct (from_left_join_covers db nd Hnd) as (na & uz & Hj).
  unfold details_rows.
  destruct (filter (λ j : LeftJoined, nd_npi j.1.1 = nd_npi nd) (from_left_join db))
    as [|j l] eqn:Hf.
  - by destruct (filter_nil_not_elem_of _ _ (nd, na, uz) Hf).
  - cbn. eauto.
Qed.

Lemma json_agg_default {A : Type} (l : list A) : default [] (json_agg l) = l.
Proof. by destruct l. Qed.

(** X14: every provider of a search response has a details page.  With
    [npi] a key of [npi_details], the details route answers each provider
    of a page with the provider of that identifier, with the same name,
    title and specialties as in the search view, and with a prescribed
    medication whose name or generic name matches the searched drug. *)
Theorem search_hits_have_details
    (ST_Distance : Geom → Geom → Qc) (db : Stores) (p : Params)
    (res : SearchResult) (v : View.t) (userId : string) :
  NoDup (nd_npi <$> npi_details db) →
  outcome (findProviders ST_Distance db p) = inr res →
  v ∈ data res →
  userId ≠ EmptyString →
  ∃ d, provider_details_route db (Verified userId) (View.id v) = DetailsFound d
       ∧ Detail.id d = View.id v
       ∧ Detail.name d = View.name v
       ∧ Detail.first_name d = View.first_name v
       ∧ Detail.last_name d = View.last_name v
       ∧ Detail.title d = View.title v
       ∧ Detail.specialties d = View.specialties v
       ∧ ∃ m, m ∈ Detail.prescribed_medications d
              ∧ (Text.ilike_null (DetailRow.name m) (p_drugName p) = true
                 ∨ Text.ilike_null (DetailRow.genericName m) (p_drugName p) = true).
Proof.
  intros Hkey Hres Hv Huser.
  destruct (origin db (p_zipCode p)) as [g|] eqn:Ho.
  2: { rewrite (findProviders_not_found _ _ _ Ho) in Hres. discriminate. }
  rewrite (findProviders_found _ _ _ _ Ho) in Hres. simpl in Hres.
  injection Hres as <-. cbn [data] in Hv.
  apply list_elem_of_fmap in Hv as (row & -> & Hrow).
  apply finalQuery_rows in Hrow as ([[[nd na] np] uz] & Hj & ->).
  apply elem_of_baseQuery in Hj as [Hj Hw].
  apply elem_of_from_join in Hj as (Hnd & _ & [Hnp Ep] & _).
  apply where_clause_iff in Hw as (_ & Hdrug & _ & _).
  cbn [provider_details_route getProviderDetailsHandler].
  unfold getProviderDetailsHandler. rewrite (truthy_Some userId Huser). cbn [negb].
  change (View.id (formatRow (select_row ST_Distance g (nd, na, np, uz))))
    with (nd_npi nd).
  unfold getProviderDetails.
  destruct (details_rows_found db nd Hnd) as (row & rest & Hrows). rewrite Hrows.
  apply details_rows_head in Hrows as (nd' & na' & uz' & Hj' & Hid & ->).
  apply elem_of_from_left_join in Hj' as (Hnd' & _ & _).
  assert (nd' = nd) as -> by (by apply (same_key nd_npi (npi_details db))).
  eexists. split; [reflexivity|]. split_and!; try reflexivity.
  exists (medication_of np). split; [|exact Hdrug].
  cbn. rewrite json_agg_default. apply list_elem_of_fmap. exists np. split; [done|].
  apply list_elem_of_filter. split; [|done]. by symmetry.
Qed.

Lemma search_hits_have_details_witness :
  ∃ d, provider_details_route db_deactivated (Verified "u-expert") (View.id sample_view)
       = DetailsFound d
       ∧ Detail.id d = View.id sample_view
       ∧ Detail.name d = View.name sample_view
       ∧ Detail.first_name d = View.first_name sample_view
       ∧ Detail.last_name d = View.last_name sample_view
       ∧ Detail.title d = View.title sample_view
       ∧ Detail.specialties d = View.specialties sample_view
       ∧ ∃ m, m ∈ Detail.prescribed_medications d
              ∧ (Text.ilike_null (DetailRow.name m) "sertraline" = true
                 ∨ Text.ilike_null (DetailRow.genericName m) "sertraline" = true).
Proof.
  apply (search_hits_have_details taxicab db_deactivated (sample_params_class "psych")
           sample_result sample_view "u-expert").
  - cbn. repeat constructor; rewrite ?elem_of_cons, ?elem_of_nil; intuition lia.
  - vm_compute. reflexivity.
  - apply list_elem_of_here.
  - done.
Defined.

(** X15: what the details route answers for an identifier within the
    range of the [BIGINT] column.  An authenticated request is
    answered 404 exactly when [npi_details] has no row of the requested
    identifier; a provider that is returned carries that identifier and
    the medications of exactly the prescription rows of that identifier,
    in their order, an empty list when there is none; and when the
    provider has no address row, its city, phone and coordinates are
    [null]. *)
Theorem provider_details_outcomes
    (db : Stores) (userId : string) (providerId : Z) :
  userId ≠ EmptyString → int8 providerId →
  (provider_details_route db (Verified userId) providerId
   = DetailsRefused 404 "Provider not found."
   ↔ ∀ nd, nd ∈ npi_details db → nd_npi nd ≠ providerId)
  ∧ ∀ d, provider_details_route db (Verified userId) providerId = DetailsFound d →
         Detail.npi d = providerId
         ∧ Detail.prescribed_medications d
           = medication_of <$>
               filter (λ np, np_npi np = providerId) (npi_prescriptions db)
         ∧ ((∀ na, na ∈ npi_addresses db → na_npi na ≠ providerId) →
            Detail.city d = None ∧ Detail.phone d = None
            ∧ Detail.latitude d = None ∧ Detail.longitude d = None).
Proof.
  intros Huser _. cbn [provider_details_route].
  unfold getProviderDetailsHandler. rewrite (truthy_Some userId Huser). cbn [negb].
  unfold getProviderDetails. split.
  - split.
    + intros H nd Hnd Hid.
      destruct (details_rows_found db nd Hnd) as (row & rest & Hrows).
      rewrite Hid in Hrows. by rewrite Hrows in H.
    + intros Hnone.
      destruct (details_rows db providerId) as [|row rest] eqn:Hrows; [done|].
      apply details_rows_head in Hrows as (nd & na & uz & Hj & Hid & _).
      apply elem_of_from_left_join in Hj as (Hnd & _ & _).
      by destruct (Hnone nd Hnd).
  - intros d.
    destruct (details_rows db providerId) as [|row rest] eqn:Hrows; [done|].
    intros [= <-].
    apply details_rows_head in Hrows as (nd & na & uz & Hj & Hid & ->).
    apply elem_of_from_left_join in Hj as (Hnd & Hna & Huz).
    split_and!.
    + done.
    + cbn. rewrite json_agg_default, Hid. done.
    + intros Hnone.
      apply elem_of_left_rows in Hna as [[_ ->]|(a & -> & Ha)].
      * apply elem_of_left_rows in Huz as [[_ ->]|(z & -> & Hz)]; [done|].
        apply list_elem_of_filter in Hz as [Hz _]. done.
      * apply list_elem_of_filter in Ha as [Ea Ha].
        destruct (Hnone a Ha). congruence.
Qed.

Lemma provider_details_outcomes_witness :
  provider_details_route db_deactivated (Verified "u-expert") 77
  = DetailsRefused 404 "Provider not found.".
Proof.
  assert (Hid : int8 77) by (unfold int8; lia).
  destruct (provider_details_outcomes db_deactivated "u-expert" 77 ltac:(done) Hid)
    as [[_ Hnone] _].
  apply Hnone. intros nd. cbn. rewrite elem_of_cons, elem_of_nil.
  intros [->|[]]. cbn. lia.
Defined.

(** ** Authentication *)

Section AuthnFacts.
Import Authn.

Lemma split_space_chars_plain (l : list ascii) :
  (∀ c, c ∈ l → c ≠ " "%char) → split_space_chars l = [l].
Proof.
  induction l as [|c l IH]; intros Hl; [done|].
  cbn. rewrite bool_decide_eq_false_2 by (apply Hl, list_elem_of_here).
  rewrite IH; [done|]. intros d Hd. apply Hl. by apply list_elem_of_further.
Qed.

Lemma split_space_chars_app (l r : list ascii) :
  (∀ c, c ∈ l → c ≠ " "%char) →
  split_space_chars (l ++ " "%char :: r) = l :: split_space_chars r.
Proof.
  induction l as [|c l IH]; intros Hl; [done|].
  cbn. rewrite bool_decide_eq_false_2 by (apply Hl, list_elem_of_here).
  rewrite IH; [done|]. intros d Hd. apply Hl. by apply list_elem_of_further.
Qed.

(** The token of a header made of a word, a space and a token. *)
Lemma token_of_header (scheme token : string) :
  (∀ c, c ∈ Text.chars scheme → c ≠ " "%char) →
  (∀ c, c ∈ Text.chars token → c ≠ " "%char) →
  token_of (Some (scheme +:+ " " +:+ token)) = Some token.
Proof.
  intros Hs Ht. unfold token_of.
  assert (Hc : Text.chars (scheme +:+ " " +:+ token)
               = Text.chars scheme ++ " "%char :: Text.chars token).
  { by rewrite !chars_app. }
  rewrite truthy_Some.
  - cbn [or_empty]. unfold split_space. rewrite Hc.
    rewrite (split_space_chars_app _ _ Hs), (split_space_chars_plain _ Ht).
    cbn. by rewrite of_chars_chars.
  - intros He. rewrite He in Hc. by destruct (Text.chars scheme).
Qed.

(** A header without a space carries no token. *)
Lemma token_of_word (header : option string) :
  (∀ c, c ∈ Text.chars (or_empty header) → c ≠ " "%char) →
  truthy (token_of header) = false.
Proof.
  intros Hh. unfold token_of. destruct (truthy header) eqn:Ht; [|done].
  unfold split_space. by rewrite (split_space_chars_plain _ Hh).
Qed.

(** X16: the scheme word of the [authorization] header is not looked at,
    and a header token wins over the cookie.  For a header made of any
    word, a space and a non-empty token, the identity service is asked
    about that token only; the outcome is the one of the same token sent
    as a [Bearer] header without cookie; and the cookie is cleared exactly
    when there is one and the token is rejected. *)
Theorem header_token_is_presented
    (getUser : string → Answer) (scheme token : string) (cookie : option string) :
  (∀ c, c ∈ Text.chars scheme → c ≠ " "%char) →
  (∀ c, c ∈ Text.chars token → c ≠ " "%char) →
  token ≠ EmptyString →
  let r := authenticateToken getUser
             {| authorization := Some (scheme +:+ " " +:+ token);
                auth_token := cookie |} in
  asked r = [token]
  ∧ outcome r
    = outcome (authenticateToken getUser
                 {| authorization := Some ("Bearer" +:+ " " +:+ token);
                    auth_token := None |})
  ∧ (cleared_cookie r = true
     ↔ truthy cookie = true ∧ outcome r = Refused 403 "Invalid or expired token").
Proof.
  intros Hs Ht Hne r. subst r. unfold authenticateToken. cbn [authorization auth_token].
  rewrite (token_of_header scheme token Hs Ht).
  rewrite (token_of_header "Bearer" token); [|clear; intros c; cbn|done].
  2: { rewrite !elem_of_cons, elem_of_nil.
       intros [->|[->|[->|[->|[->|[->|[]]]]]]]; done. }
  rewrite (truthy_Some token Hne). cbn [negb andb or_empty].
  destruct (getUser token) as [[u|] [e|]|msg]; cbn; split_and!; try done.
  all: split; [intros H|intros [H1 H2]]; try done.
Qed.

Lemma header_token_is_presented_witness :
  let r := authenticateToken sample_getUser
             {| authorization := Some ("Basic" +:+ " " +:+ "tok-1");
                auth_token := Some "stale" |} in
  asked r = ["tok-1"]
  ∧ outcome r
    = outcome (authenticateToken sample_getUser
                 {| authorization := Some ("Bearer" +:+ " " +:+ "tok-1");
                    auth_token := None |})
  ∧ (cleared_cookie r = true
     ↔ truthy (Some "stale") = true ∧ outcome r = Refused 403 "Invalid or expired token").
Proof.
  apply (header_token_is_presented sample_getUser "Basic" "tok-1" (Some "stale")).
  - intros c. cbn. rewrite !elem_of_cons, elem_of_nil.
    intros [->|[->|[->|[->|[->|[]]]]]]; done.
  - intros c. cbn. rewrite !elem_of_cons, elem_of_nil.
    intros [->|[->|[->|[->|[->|[]]]]]]; done.
  - done.
Defined.

(** X17: a header without a space carries no token.  When the
    [authorization] header is absent or is a single word, such as a bare
    token, the cookie decides: without cookie the reply is 401 and the
    identity service is not contacted; with a cookie the service is asked
    about the cookie's token, a user it resolves proceeds with the email
    defaulted to [N/A], and a rejected token is answered 403 with the
    cookie cleared. *)
Theorem bare_header_falls_back_to_cookie
    (getUser : string → Answer) (header cookie : option string) :
  (∀ c, c ∈ Text.chars (or_empty header) → c ≠ " "%char) →
  let r := authenticateToken getUser
             {| authorization := header; auth_token := cookie |} in
  (truthy cookie = false →
   r = {| asked := []; cleared_cookie := false;
          outcome := Refused 401 "Auth token required" |})
  ∧ (∀ k, cookie = Some k → k ≠ EmptyString →
       asked r = [k]
       ∧ (∀ u, getUser k = Resolved (Some u) None →
            ∃ mail, outcome r = Next {| user_id := id u; user_email := mail |}
                    ∧ mail ≠ EmptyString
                    ∧ (email u = None → mail = "N/A")
                    ∧ cleared_cookie r = false)
       ∧ (∀ u e, getUser k = Resolved u e → u = None ∨ e ≠ None →
            outcome r = Refused 403 "Invalid or expired token"
            ∧ cleared_cookie r = true)).
Proof.
  intros Hh r. subst r. unfold authenticateToken. cbn [authorization auth_token].
  pose proof (token_of_word header Hh) as Htok. rewrite Htok. cbn [negb andb].
  split.
  - intros ->. done.
  - intros k -> Hk. rewrite (truthy_Some k Hk). cbn [negb or_empty].
    split_and!.
    + by destruct (getUser k) as [[u|] [e|]|msg].
    + intros u ->. cbn. eexists. split; [reflexivity|]. split_and!; try done.
      * destruct (email u) as [m|]; cbn; [|done].
        destruct (bool_decide (m = EmptyString)) eqn:Hm; cbn; [done|].
        by apply bool_decide_eq_false in Hm.
      * by intros ->.
    + intros u e -> [->|He]; [by destruct e|].
      destruct e; [by destruct u|done].
Qed.

Lemma bare_header_falls_back_to_cookie_witness :
  authenticateToken sample_getUser
    {| authorization := Some "tok-1"; auth_token := None |}
  = {| asked := []; cleared_cookie := false;
       outcome := Refused 401 "Auth token required" |}.
Proof.
  destruct (bare_header_falls_back_to_cookie sample_getUser (Some "tok-1") None)
    as [Hnone _].
  - intros c. cbn. rewrite !elem_of_cons, elem_of_nil.
    intros [->|[->|[->|[->|[->|[]]]]]]; done.
  - by apply Hnone.
Defined.
End AuthnFacts.

(** ** Sync and membership *)

Section AccountFacts.
Import Accounts.

Lemma split_at {A B : Type} (f : A → B) (l : list A) (s : A) :
  NoDup (f <$> l) → s ∈ l →
  ∃ l1 l2, l = l1 ++ s :: l2
           ∧ (∀ y, y ∈ l1 → f y ≠ f s) ∧ (∀ y, y ∈ l2 → f y ≠ f s).
Proof.
  intros Hnd Hs. apply list_elem_of_split in Hs as (l1 & l2 & ->).
  exists l1, l2. split; [done|].
  rewrite fmap_app, fmap_cons in Hnd.
  apply NoDup_app in Hnd as (_ & Hdis & Hnd2).
  apply NoDup_cons in Hnd2 as [Hnot _].
  split; intros y Hy Heq.
  - apply (Hdis (f y)).
    + apply list_elem_of_fmap. eauto.
    + rewrite Heq. apply list_elem_of_here.
  - apply Hnot. rewrite <- Heq. apply list_elem_of_fmap. eauto.
Qed.

Lemma fmap_fixed {A : Type} (f : A → A) (l : list A) :
  (∀ y, y ∈ l → f y = y) → f <$> l = l.
Proof.
  induction l as [|x l IH]; intros Hl; [done|].
  rewrite fmap_cons, (Hl x) by apply list_elem_of_here.
  rewrite IH; [done|]. intros y Hy. apply Hl. by apply list_elem_of_further.
Qed.

(** The profile read by [single] among rows of distinct identifiers. *)
Lemma single_at (l1 l2 : Table) (a : Account) :
  (∀ y, y ∈ l1 → pr_id (profile y) ≠ pr_id (profile a)) →
  (∀ y, y ∈ l2 → pr_id (profile y) ≠ pr_id (profile a)) →
  single (l1 ++ a :: l2) (pr_id (profile a)) = Some a.
Proof. intros H1 H2. unfold single, Table. by rewrite filter_only. Qed.

Lemma single_none (t : Table) (userId : string) :
  (∀ a, a ∈ t → pr_id (profile a) ≠ userId) → single t userId = None.
Proof. intros Hno. unfold single, Table. by rewrite filter_none. Qed.

Lemma update_email_at (l1 l2 : Table) (a : Account) (userEmail : string) :
  (∀ y, y ∈ l1 → pr_id (profile y) ≠ pr_id (profile a)) →
  (∀ y, y ∈ l2 → pr_id (profile y) ≠ pr_id (profile a)) →
  update_email (pr_id (profile a)) userEmail (l1 ++ a :: l2)
  = l1 ++ {| profile := profile a; email := Some userEmail |} :: l2.
Proof.
  intros H1 H2. unfold update_email, Table.
  rewrite fmap_app, fmap_cons, decide_True by done.
  rewrite (fmap_fixed _ l1), (fmap_fixed _ l2); [done| |].
  - intros y Hy. by rewrite decide_False by (by apply H2).
  - intros y Hy. by rewrite decide_False by (by apply H1).
Qed.

Lemma update_email_profiles (userId userEmail : string) (t : Table) :
  profile <$> update_email userId userEmail t = profile <$> t.
Proof.
  unfold update_email, Table. rewrite <- list_fmap_compose.
  apply list_fmap_ext. intros _ a _. cbn. by case_decide.
Qed.

(** The user set by [authenticateToken] has an email. *)
Lemma authenticated_email (getUser : string → Authn.Answer) (h : Authn.Headers)
    (user : Authn.User) :
  Authn.outcome (Authn.authenticateToken getUser h) = Authn.Next user →
  Authn.user_email user ≠ EmptyString.
Proof.
  unfold Authn.authenticateToken.
  destruct (negb (truthy (Authn.token_of (Authn.authorization h))) && _); [done|].
  destruct (getUser _) as [[u|] [e|]|msg]; cbn; try done.
  intros [= <-]. cbn.
  destruct (Authn.email u) as [m|]; cbn; [|done].
  destruct (bool_decide (m = EmptyString)) eqn:Hm; cbn; [done|].
  by apply bool_decide_eq_false in Hm.
Qed.

Lemma membership_of_tier (db : Stores) (userId : string) :
  userId ≠ EmptyString →
  getMembershipHandler db (Some userId)
  = ([SelectProfile userId], inr (Membership (profile_tier db userId))).
Proof.
  intros Huser. unfold getMembershipHandler. rewrite (truthy_Some userId Huser).
  reflexivity.
Qed.

(** The first sync of a user, and the tier it leaves. *)
Lemma first_sync_run (getUser : string → Authn.Answer) (t : Table)
    (h : Authn.Headers) (user : Authn.User) :
  Authn.outcome (Authn.authenticateToken getUser h) = Authn.Next user →
  Authn.user_id user ≠ EmptyString →
  (∀ a, a ∈ t → pr_id (profile a) ≠ Authn.user_id user) →
  sync_route getUser t h
  = (t ++ [account (Authn.user_id user) (Some "basic") (Some (Authn.user_email user))],
     inr {| status := 201; json := Success "Profile created." (Some "basic") |}).
Proof.
  intros Hauth Huser Hnew.
  pose proof (authenticated_email getUser h user Hauth) as Hmail.
  unfold sync_route. rewrite Hauth. unfold syncUserHandler.
  cbn [fmap option_fmap option_map].
  rewrite (truthy_Some _ Huser), (truthy_Some _ Hmail). cbn [negb orb or_empty].
  by rewrite (single_none t _ Hnew).
Qed.

Lemma tier_of_appended (db : Stores) (t : Table) (userId : string)
    (tier mail : option string) :
  (∀ a, a ∈ t → pr_id (profile a) ≠ userId) →
  profile_tier (with_profiles db (t ++ [account userId tier mail])) userId = tier.
Proof.
  intros Hnew. unfold profile_tier. cbn [profiles with_profiles].
  rewrite fmap_app, filter_app. rewrite (filter_none _ (profile <$> t)).
  - cbn. by rewrite decide_True.
  - intros pr Hpr Hid. apply list_elem_of_fmap in Hpr as (a & -> & Ha).
    by apply (Hnew a).
Qed.

(** X18: the first sync of a user creates a basic profile.  For an
    authenticated user without profile row, the reply is 201 with tier
    basic and one row is appended; the membership endpoint then answers
    basic for that user; the tiers of all other users are as before; and a
    second sync is answered 200 with the same tier and changes nothing. *)
Theorem first_sync_creates_basic_profile
    (db : Stores) (getUser : string → Authn.Answer) (t : Table) (h : Authn.Headers)
    (user : Authn.User) :
  Authn.outcome (Authn.authenticateToken getUser h) = Authn.Next user →
  Authn.user_id user ≠ EmptyString →
  (∀ a, a ∈ t → pr_id (profile a) ≠ Authn.user_id user) →
  let r := sync_route getUser t h in
  let db' := with_profiles db r.1 in
  r.2 = inr {| status := 201; json := Success "Profile created." (Some "basic") |}
  ∧ r.1 = t ++ [account (Authn.user_id user) (Some "basic")
                  (Some (Authn.user_email user))]
  ∧ getMembershipHandler db' (Some (Authn.user_id user))
    = ([SelectProfile (Authn.user_id user)], inr (Membership (Some "basic")))
  ∧ (∀ u, u ≠ Authn.user_id user →
          profile_tier db' u = profile_tier (with_profiles db t) u)
  ∧ sync_route getUser r.1 h
    = (r.1, inr {| status := 200; json := Success "User synced." (Some "basic") |}).
Proof.
  intros Hauth Huser Hnew r db'.
  pose proof (authenticated_email getUser h user Hauth) as Hmail.
  assert (Hr : r = (t ++ [account (Authn.user_id user) (Some "basic")
                            (Some (Authn.user_email user))],
                    inr {| status := 201;
                           json := Success "Profile created." (Some "basic") |})).
  { subst r. by apply first_sync_run. }
  subst db'. rewrite Hr. cbn [fst snd]. split_and!; [done|done| | |].
  - rewrite (membership_of_tier _ _ Huser). by rewrite tier_of_appended.
  - intros u Hu. unfold profile_tier. cbn [profiles with_profiles].
    rewrite fmap_app, filter_app. cbn.
    rewrite decide_False by (cbn; congruence). by rewrite app_nil_r.
  - unfold sync_route. rewrite Hauth. unfold syncUserHandler. cbn [fmap option_fmap option_map].
    rewrite (truthy_Some _ Huser), (truthy_Some _ Hmail). cbn [negb orb or_empty].
    pose proof (single_at t [] (account (Authn.user_id user) (Some "basic")
                                  (Some (Authn.user_email user)))) as Hs.
    cbn [profile account pr_id] in Hs. rewrite Hs.
    + cbn. by rewrite decide_False by (by intros []).
    + done.
    + intros y Hy. by apply elem_of_nil in Hy.
Qed.

Lemma first_sync_creates_basic_profile_witness :
  let h := {| Authn.authorization := Some "Bearer tok-1"; Authn.auth_token := None |} in
  let r := sync_route Authn.sample_getUser [account "u-expert" (Some "expert") None] h in
  r.2 = inr {| status := 201; json := Success "Profile created." (Some "basic") |}
  ∧ r.1 = [account "u-expert" (Some "expert") None;
           account "u-premium" (Some "basic") (Some "N/A")]
  ∧ sync_route Authn.sample_getUser r.1 h
    = (r.1, inr {| status := 200; json := Success "User synced." (Some "basic") |}).
Proof.
  destruct (first_sync_creates_basic_profile (stores [] [] [])
              Authn.sample_getUser [account "u-expert" (Some "expert") None]
              {| Authn.authorization := Some "Bearer tok-1"; Authn.auth_token := None |}
              {| Authn.user_id := "u-premium"; Authn.user_email := "N/A" |})
    as (Hreply & Hrows & _ & _ & Hagain); try done.
  intros a. rewrite elem_of_cons, elem_of_nil. intros [->|[]]. done.
Defined.

(** X19: a sync never changes a tier.  For an authenticated user who has
    a profile row (identifiers being distinct), the reply is 200 with the
    stored tier; the identifiers and tiers of all rows are as before, in
    the same order; the user's row now holds the email of the identity
    service, the rows of other users are untouched; and a second sync
    gives the same reply and changes nothing. *)
Theorem sync_keeps_the_tier
    (getUser : string → Authn.Answer) (t : Table) (h : Authn.Headers)
    (user : Authn.User) (a : Account) :
  Authn.outcome (Authn.authenticateToken getUser h) = Authn.Next user →
  Authn.user_id user ≠ EmptyString →
  NoDup (pr_id ∘ profile <$> t) →
  a ∈ t → pr_id (profile a) = Authn.user_id user →
  let r := sync_route getUser t h in
  r.2 = inr {| status := 200;
               json := Success "User synced." (pr_membership_tier (profile a)) |}
  ∧ profile <$> r.1 = profile <$> t
  ∧ (∀ a', a' ∈ r.1 → pr_id (profile a') = Authn.user_id user →
           email a' = Some (Authn.user_email user))
  ∧ (∀ a', pr_id (profile a') ≠ Authn.user_id user → (a' ∈ r.1 ↔ a' ∈ t))
  ∧ sync_route getUser r.1 h = r.
Proof.
  intros Hauth Huser Hnd Ha Hid r.
  pose proof (authenticated_email getUser h user Hauth) as Hmail.
  destruct (split_at (pr_id ∘ profile) t a Hnd Ha) as (l1 & l2 & -> & H1 & H2).
  cbn [compose] in H1, H2.
  set (a' := {| profile := profile a; email := Some (Authn.user_email user) |}).
  assert (Hrun : ∀ b, profile b = profile a →
            sync_route getUser (l1 ++ b :: l2) h
            = (if decide (email b ≠ Some (Authn.user_email user))
               then l1 ++ a' :: l2 else l1 ++ b :: l2,
               inr {| status := 200;
                      json := Success "User synced."
                                (pr_membership_tier (profile a)) |})).
  { intros b Hb. unfold sync_route. rewrite Hauth. unfold syncUserHandler.
    cbn [fmap option_fmap option_map].
    rewrite (truthy_Some _ Huser), (truthy_Some _ Hmail). cbn [negb orb or_empty].
    rewrite <- Hid, <- Hb.
    rewrite (single_at l1 l2 b) by (rewrite Hb; done).
    rewrite (update_email_at l1 l2 b) by (rewrite Hb; done).
    rewrite Hb. done. }
  assert (Hr : r = (if decide (email a ≠ Some (Authn.user_email user))
                    then l1 ++ a' :: l2 else l1 ++ a :: l2,
                    inr {| status := 200;
                           json := Success "User synced."
                                     (pr_membership_tier (profile a)) |})).
  { subst r. by apply Hrun. }
  rewrite Hr. cbn [fst snd]. split_and!; [done| | | |].
  - case_decide; [|done]. by rewrite !fmap_app, !fmap_cons.
  - intros b Hb Hbid.
    assert (Hb' : b ∈ l1 ++ a' :: l2 ∨ (b ∈ l1 ++ a :: l2
                                        ∧ email a = Some (Authn.user_email user))).
    { case_decide as Hd; [by left|]. right. split; [done|].
      by destruct (decide (email a = Some (Authn.user_email user))); [|destruct Hd]. }
    destruct Hb' as [Hb'|[Hb' He]].
    + rewrite elem_of_app, elem_of_cons in Hb'. destruct Hb' as [Hb'|[->|Hb']].
      * destruct (H1 b Hb'). congruence.
      * done.
      * destruct (H2 b Hb'). congruence.
    + rewrite elem_of_app, elem_of_cons in Hb'. destruct Hb' as [Hb'|[->|Hb']].
      * destruct (H1 b Hb'). congruence.
      * done.
      * destruct (H2 b Hb'). congruence.
  - intros b Hbid. case_decide; [|done].
    rewrite !elem_of_app, !elem_of_cons. split.
    + intros [?|[->|?]]; auto. by destruct Hbid.
    + intros [?|[->|?]]; auto. by destruct Hbid.
  - case_decide as Hd.
    + rewrite (Hrun a') by done. by rewrite decide_False by (by intros []).
    + rewrite (Hrun a) by done. by rewrite decide_False by (by intros Hn).
Qed.

Lemma sync_keeps_the_tier_witness :
  let h := {| Authn.authorization := Some "Bearer tok-1"; Authn.auth_token := None |} in
  let r := sync_route Authn.sample_getUser sample_accounts h in
  r.2 = inr {| status := 200; json := Success "User synced." (Some "premium") |}
  ∧ profile <$> r.1 = profile <$> sample_accounts
  ∧ sync_route Authn.sample_getUser r.1 h = r.
Proof.
  destruct (sync_keeps_the_tier Authn.sample_getUser sample_accounts
              {| Authn.authorization := Some "Bearer tok-1"; Authn.auth_token := None |}
              {| Authn.user_id := "u-premium"; Authn.user_email := "N/A" |}
              (account "u-premium" (Some "premium") (Some "old@example.org")))
    as (Hreply & Hprofiles & _ & _ & Hagain); try done.
  - cbn. repeat constructor; rewrite ?elem_of_cons, ?elem_of_nil; intuition congruence.
  - apply list_elem_of_here.
Defined.
(** X20: a user created by the sync cannot search through this service.
    After the first sync of a user who has no primary location, and after
    any sequence of requests to the saved-location routes, by anyone, a
    valid search by that user is answered 404 [Primary location not
    found]: the new profile is basic, and only premium and expert users
    may add a location or choose a primary one. *)
Theorem new_user_cannot_search
    (ST_Distance : Geom → Geom → Qc) (db : Stores) (getUser : string → Authn.Answer)
    (t : Table) (h : Authn.Headers) (user : Authn.User)
    (saved : Locations.Table) (reqs : list (Auth * Locations.Request)) (b : Body) :
  Authn.outcome (Authn.authenticateToken getUser h) = Authn.Next user →
  Authn.user_id user ≠ EmptyString →
  (∀ a, a ∈ t → pr_id (profile a) ≠ Authn.user_id user) →
  findProvidersSchema b = true →
  (∀ s, s ∈ Locations.rows saved → Locations.owned_by (Authn.user_id user) s →
        ul_is_primary (Locations.location s) = false) →
  let db' := with_profiles db (sync_route getUser t h).1 in
  find_providers_route ST_Distance
    (Locations.with_locations db' (Locations.serve db' saved reqs))
    (Verified (Authn.user_id user)) b
  = ([SelectProfile (Authn.user_id user);
      SelectUserLocation (Authn.user_id user) true None],
     inr (respond 404 "Primary location not found")).
Proof.
  intros Hauth Huser Hnew Hschema Hno db'. subst db'.
  rewrite (first_sync_run getUser t h user Hauth Huser Hnew). cbn [fst].
  set (t' := t ++ [account (Authn.user_id user) (Some "basic")
                     (Some (Authn.user_email user))]).
  assert (Htier : profile_tier (with_profiles db t') (Authn.user_id user)
                  = Some "basic") by (by apply tier_of_appended).
  apply search_without_primary; try done.
  cbn [user_locations Locations.with_locations]. intros ul Hul Hu.
  apply list_elem_of_fmap in Hul as (s & -> & Hs).
  apply (serve_keeps_no_primary (with_profiles db t') reqs (Authn.user_id user))
    with (t := saved); try done.
  all: rewrite Htier; done.
Qed.

Lemma new_user_cannot_search_witness :
  let h := {| Authn.authorization := Some "Bearer tok-1"; Authn.auth_token := None |} in
  let db' := with_profiles db_two_rows
               (sync_route Authn.sample_getUser
                  [account "u-expert" (Some "expert") None] h).1 in
  find_providers_route taxicab
    (Locations.with_locations db'
       (Locations.serve db' {| Locations.rows := []; Locations.next_id := 1 |}
          [(Verified "u-premium", Locations.Add "Home" "19104");
           (Verified "u-premium", Locations.MakePrimary 1)]))
    (Verified "u-premium") (sample_body (Some "19104") (Some "Home"))
  = ([SelectProfile "u-premium"; SelectUserLocation "u-premium" true None],
     inr (respond 404 "Primary location not found")).
Proof.
  apply (new_user_cannot_search taxicab db_two_rows Authn.sample_getUser
           [account "u-expert" (Some "expert") None]
           {| Authn.authorization := Some "Bearer tok-1"; Authn.auth_token := None |}
           {| Authn.user_id := "u-premium"; Authn.user_email := "N/A" |});
    try done.
  - intros a. rewrite elem_of_cons, elem_of_nil. intros [->|[]]. done.
  - intros s Hs. by apply elem_of_nil in Hs.
Defined.
End AccountFacts.

(** ** Subscription check and metering *)

(** Membership in an explicit trace. *)
Ltac in_trace H :=
  cbn in H; rewrite ?elem_of_cons, ?elem_of_nil in H;
  repeat (destruct H as [H|H]); try done; simplify_eq.

Section GatingFacts.
Import Metering.

Lemma select_prescribers_rows (w : World) (filters : Filters) (pl : Plan)
    (r : Prescriber) :
  r ∈ select_prescribers w filters pl → r ∈ prescribers w ∧ passes filters r = true.
Proof.
  unfold select_prescribers. intros H.
  assert (Hin : r ∈ filter (λ r, passes filters r = true) (prescribers w)).
  { repeat case_decide; [by eapply subseteq_take..|done]. }
  apply list_elem_of_filter in Hin. tauto.
Qed.

Lemma select_prescribers_length (w : World) (filters : Filters) (pl : Plan) :
  (tier pl = "basic" → (length (select_prescribers w filters pl) ≤ 100)%nat)
  ∧ (tier pl = "professional" → (length (select_prescribers w filters pl) ≤ 1000)%nat).
Proof.
  unfold select_prescribers. split; intros Ht; rewrite Ht.
  - rewrite decide_True by done. rewrite length_take. lia.
  - rewrite decide_False by done. rewrite decide_True by done.
    rewrite length_take. lia.
Qed.

(** Once the subscription and the plan are found, the data query is sent
    with the limit of the first plan row. *)
Lemma data_query_is_sent (w : World) (userId : string) (filters : Filters)
    (us : UserSubscription) (rest : list UserSubscription)
    (pl : Plan) (plans : list Plan) :
  active_rows w userId = us :: rest →
  plan_rows w userId = pl :: plans →
  ∃ more,
    trace (getPrescriberDataWithSubscriptionCheck w userId filters)
    = [SelectActiveSubscription userId; SelectPlan userId;
       SelectPrescribers (row_limit pl)] ++ more.
Proof.
  intros Ha Hp. unfold getPrescriberDataWithSubscriptionCheck.
  rewrite Ha. cbn. rewrite Hp. cbn.
  destruct (prescribers_error w) as [err|]; cbn; [by eexists|].
  destruct (if usage_based pl then record_usage w userId filters else ret tt)
    as [t [e|[]]]; cbn; by eexists.
Qed.

(** The metering block sends no data query. *)
Lemma record_usage_sends_no_data_query (w : World) (userId : string)
    (filters : Filters) (lim : option Z) :
  SelectPrescribers lim ∉ trace (record_usage w userId filters).
Proof.
  unfold record_usage. intros H.
  destruct (subscription_rows w userId) as [|us subs]; cbn in H; [in_trace H|].
  unfold createUsageRecord in H.
  destruct (stripe_retrieve w (stripe_subscription_id us)) as [err|[|item items]];
    cbn in H; [in_trace H..|].
  destruct (stripe_usage w item 1) as [err|[]]; cbn in H; [in_trace H|].
  destruct (insert_usage_log w) as [err|[]]; cbn in H; in_trace H.
Qed.

(** X21: prescriber data is asked for only on behalf of a subscriber,
    within the limits of the plan.  Without an active subscription the
    function throws after its first query, before any data is read.
    Whenever the data query is sent, the user has an active subscription
    and a plan, and the query carries the limit of the first plan row, 100
    rows on tier basic and 1000 on tier professional; the rows it is
    answered with are stored prescribers that pass the filters, at most as
    many as that limit. *)
Theorem data_needs_an_active_subscription
    (w : World) (userId : string) (filters : Filters) :
  let run := getPrescriberDataWithSubscriptionCheck w userId filters in
  ((∀ us, us ∈ user_subscriptions w → user_id us = userId →
          subscription_status us ≠ "active") →
   run = ([SelectActiveSubscription userId], inl "No active subscription found"))
  ∧ ∀ lim, SelectPrescribers lim ∈ trace run →
      (∃ us, us ∈ user_subscriptions w ∧ user_id us = userId
             ∧ subscription_status us = "active")
      ∧ ∃ pl, head (plan_rows w userId) = Some pl
              ∧ lim = row_limit pl
              ∧ (tier pl = "basic" →
                 lim = Some 100
                 ∧ (length (select_prescribers w filters pl) ≤ 100)%nat)
              ∧ (tier pl = "professional" →
                 lim = Some 1000
                 ∧ (length (select_prescribers w filters pl) ≤ 1000)%nat)
              ∧ ∀ r, r ∈ select_prescribers w filters pl →
                     r ∈ prescribers w ∧ passes filters r = true.
Proof.
  intros run. subst run. split.
  - intros Hnone. unfold getPrescriberDataWithSubscriptionCheck.
    unfold active_rows. rewrite filter_none; [done|].
    intros us Hus [Hu Hs]. by apply (Hnone us).
  - intros lim Hin.
    destruct (active_rows w userId) as [|us rest] eqn:Ha.
    { unfold getPrescriberDataWithSubscriptionCheck in Hin. rewrite Ha in Hin.
      in_trace Hin. }
    destruct (plan_rows w userId) as [|pl plans] eqn:Hp.
    { unfold getPrescriberDataWithSubscriptionCheck in Hin. rewrite Ha in Hin.
      cbn in Hin. rewrite Hp in Hin. in_trace Hin. }
    assert (Hlim : lim = row_limit pl).
    { unfold getPrescriberDataWithSubscriptionCheck in Hin. rewrite Ha in Hin.
      cbn in Hin. rewrite Hp in Hin. cbn in Hin.
      destruct (prescribers_error w) as [err|]; cbn in Hin; [by in_trace Hin|].
      destruct (usage_based pl); [|by in_trace Hin].
      pose proof (record_usage_sends_no_data_query w userId filters lim) as Hno.
      destruct (record_usage w userId filters) as [t [e|[]]]; cbn in Hin, Hno.
      all: rewrite !elem_of_cons in Hin.
      all: destruct Hin as [Hin|[Hin|[Hin|Hin]]]; try done; by simplify_eq. }
    split.
    + exists us.
      assert (Hus : us ∈ active_rows w userId) by (rewrite Ha; apply list_elem_of_here).
      apply list_elem_of_filter in Hus as [[Hu Hs] Hus]. done.
    + exists pl. split_and!; [done|done|..].
      * intros Ht. split; [|by apply select_prescribers_length].
        rewrite Hlim. unfold row_limit. by rewrite decide_True.
      * intros Ht. split; [|by apply select_prescribers_length].
        rewrite Hlim. unfold row_limit. rewrite Ht.
        rewrite decide_False by done. by rewrite decide_True.
      * apply select_prescribers_rows.
Qed.

Lemma data_needs_an_active_subscription_witness :
  let flat := {| user_subscriptions := [sample_subscription];
                 subscription_plans :=
                   [{| stripe_product_id := "prod_1"; tier := "basic";
                       usage_based := false |}];
                 prescribers := prescribers (sample_world true true);
                 prescribers_error := None;
                 stripe_retrieve := stripe_retrieve (sample_world true true);
                 stripe_usage := stripe_usage (sample_world true true);
                 insert_usage_log := inr tt |} in
  getPrescriberDataWithSubscriptionCheck flat "u-other" no_filters
  = ([SelectActiveSubscription "u-other"], inl "No active subscription found")
  ∧ (∃ us, us ∈ user_subscriptions flat ∧ user_id us = "u-metered"
           ∧ subscription_status us = "active")
  ∧ ∃ pl, head (plan_rows flat "u-metered") = Some pl
          ∧ Some 100 = row_limit pl
          ∧ (tier pl = "basic" →
             Some 100 = Some 100
             ∧ (length (select_prescribers flat no_filters pl) ≤ 100)%nat)
          ∧ (tier pl = "professional" →
             Some 100 = Some 1000
             ∧ (length (select_prescribers flat no_filters pl) ≤ 1000)%nat)
          ∧ ∀ r, r ∈ select_prescribers flat no_filters pl →
                 r ∈ prescribers flat ∧ passes no_filters r = true.
Proof.
  intros flat. split.
  - destruct (data_needs_an_active_subscription flat "u-other" no_filters)
      as [Hnone _].
    apply Hnone. intros us. cbn. rewrite elem_of_cons, elem_of_nil.
    intros [->|[]]. done.
  - destruct (data_needs_an_active_subscription flat "u-metered" no_filters)
      as [_ Hsent].
    apply (Hsent (Some 100)).
    assert (Ht : trace (getPrescriberDataWithSubscriptionCheck flat "u-metered"
                          no_filters)
                 = [SelectActiveSubscription "u-metered"; SelectPlan "u-metered";
                    SelectPrescribers (Some 100)]) by reflexivity.
    rewrite Ht, !elem_of_cons. auto.
Defined.
End GatingFacts.

(** ** Webhook *)

Section WebhookFacts.
Import Metering.

Lemma bind_none {A B : Type} (f : A → list B) (l : list A) :
  (∀ x, x ∈ l → f x = []) → l ≫= f = [].
Proof.
  induction l as [|x l IH]; intros Hl; [done|].
  rewrite bind_cons, (Hl x) by apply list_elem_of_here.
  apply IH. intros y Hy. apply Hl. by apply list_elem_of_further.
Qed.

Lemma filter_fmap_fixed {A : Type} (P : A → Prop) `{∀ x, Decision (P x)}
    (f : A → A) (l : list A) :
  (∀ x, x ∈ l → P x → f x = x) → (∀ x, x ∈ l → P (f x) → P x) →
  filter P (f <$> l) = filter P l.
Proof.
  induction l as [|x l IH]; intros Hfix Hback; [done|].
  rewrite fmap_cons, !filter_cons.
  rewrite IH.
  - destruct (decide (P x)) as [Hx|Hx].
    + rewrite (Hfix x) by (done || apply list_elem_of_here). by rewrite decide_True.
    + rewrite decide_False; [done|]. intros Hfx. apply Hx, Hback; [|done].
      apply list_elem_of_here.
  - intros y Hy. apply Hfix. by apply list_elem_of_further.
  - intros y Hy. apply Hback. by apply list_elem_of_further.
Qed.

Lemma update_status_user_ids (subscriptionId status : string)
    (l : list UserSubscription) :
  user_id <$> Webhook.update_status subscriptionId status l = user_id <$> l.
Proof.
  unfold Webhook.update_status. rewrite <- list_fmap_compose.
  apply list_fmap_ext. intros _ us _. cbn. by case_decide.
Qed.

(** After the upsert the user has the given row, and it is their only
    one when user identifiers were distinct. *)
Lemma upsert_split (row : UserSubscription) (l : list UserSubscription) :
  NoDup (user_id <$> l) →
  ∃ l1 l2, Webhook.upsert row l = l1 ++ row :: l2
           ∧ (∀ y, y ∈ l1 → y ∈ l ∧ user_id y ≠ user_id row)
           ∧ (∀ y, y ∈ l2 → y ∈ l ∧ user_id y ≠ user_id row)
           ∧ (∀ y, y ∈ l → user_id y ≠ user_id row → y ∈ l1 ++ l2).
Proof.
  intros Hnd. unfold Webhook.upsert.
  destruct (decide (Exists (λ us, user_id us = user_id row) l)) as [Hex|Hex].
  - apply Exists_exists in Hex as (x & Hx & Hid).
    destruct (split_at user_id l x Hnd Hx) as (l1 & l2 & -> & H1 & H2).
    rewrite Hid in H1, H2.
    exists l1, l2. rewrite fmap_app, fmap_cons, decide_True by done.
    rewrite (fmap_fixed _ l1), (fmap_fixed _ l2).
    + split_and!.
      * rewrite Hid. by destruct row.
      * intros y Hy. split; [|by apply H1]. apply elem_of_app. by left.
      * intros y Hy. split; [|by apply H2].
        apply elem_of_app. right. by apply list_elem_of_further.
      * intros y. rewrite !elem_of_app, elem_of_cons.
        intros [?|[->|?]] Hne; auto. done.
    + intros y Hy. by rewrite decide_False by (by apply H2).
    + intros y Hy. by rewrite decide_False by (by apply H1).
  - exists l, []. split_and!.
    + done.
    + intros y Hy. split; [done|]. intros Hid. apply Hex, Exists_exists. eauto.
    + intros y Hy. by apply elem_of_nil in Hy.
    + intros y Hy _. by rewrite app_nil_r.
Qed.

Lemma upsert_user_ids (row : UserSubscription) (l : list UserSubscription) :
  NoDup (user_id <$> l) → NoDup (user_id <$> Webhook.upsert row l).
Proof.
  intros Hnd. unfold Webhook.upsert.
  destruct (decide (Exists (λ us, user_id us = user_id row) l)) as [Hex|Hex].
  - assert (Heq : user_id <$>
                    ((λ us, if decide (user_id us = user_id row)
                            then {| user_id := user_id us;
                                    subscription_status := subscription_status row;
                                    plan_id := plan_id row;
                                    stripe_subscription_id := stripe_subscription_id row |}
                            else us) <$> l) = user_id <$> l).
    { rewrite <- list_fmap_compose. apply list_fmap_ext. intros _ us _. cbn.
      by case_decide. }
    by rewrite Heq.
  - rewrite fmap_app. apply NoDup_app. split_and!; [done| |].
    + intros u Hu Hrow. cbn in Hrow. apply list_elem_of_singleton in Hrow as ->.
      apply list_elem_of_fmap in Hu as (us & Hid & Hus).
      apply Hex, Exists_exists. eauto.
    + cbn. apply NoDup_singleton.
Qed.

(** The function reads [user_subscriptions] through its three queries
    only. *)
Lemma subscription_check_congr (w : World) (l : list UserSubscription)
    (userId : string) (filters : Filters) :
  active_rows (Webhook.with_subscriptions w l) userId = active_rows w userId →
  plan_rows (Webhook.with_subscriptions w l) userId = plan_rows w userId →
  subscription_rows (Webhook.with_subscriptions w l) userId
  = subscription_rows w userId →
  getPrescriberDataWithSubscriptionCheck (Webhook.with_subscriptions w l) userId filters
  = getPrescriberDataWithSubscriptionCheck w userId filters.
Proof.
  intros Ha Hp Hs. unfold getPrescriberDataWithSubscriptionCheck.
  rewrite Ha, Hp. unfold record_usage. rewrite Hs. reflexivity.
Qed.

(** X23: a webhook call that throws leaves the subscriptions as they
    were, and no call breaks the key of the table.  When the signature
    check, the subscription lookup or an insert fails, the error is
    logged, thrown on, and [user_subscriptions] is unchanged, the
    transaction being rolled back; and with one row per user before a
    call there is one row per user after it. *)
Theorem failed_webhook_changes_nothing
    (a : Webhook.Answers) (l : list UserSubscription) (rawBody signature : string) :
  let r := Webhook.handleStripeWebhook a l rawBody signature in
  (∀ error, Webhook.result r = inl error →
     Webhook.subscriptions r = l
     ∧ list.last (Webhook.steps r)
       = Some (Webhook.ConsoleError "Error handling Stripe webhook:")
     ∧ Webhook.Commit ∉ Webhook.steps r)
  ∧ (NoDup (user_id <$> l) → NoDup (user_id <$> Webhook.subscriptions r)).
Proof.
  intros r. subst r. unfold Webhook.handleStripeWebhook.
  destruct (Webhook.constructEvent a rawBody signature) as [e|event].
  { split; [|done]. intros error _. split_and!; [done..|].
    intros H. in_trace H. }
  destruct event as [session|invoice|invoice|sub|sub|type].
  - unfold Webhook.handleCheckoutComplete.
    destruct (Webhook.subscriptions_retrieve a _) as [e|sub]; cbn.
    { split; [|done]. intros error _. split_and!; [done..|]. intros H. in_trace H. }
    destruct (Webhook.product sub) as [p|]; cbn.
    + split; [done|]. apply upsert_user_ids.
    + split; [|done]. intros error _. split_and!; [done..|]. intros H. in_trace H.
  - unfold Webhook.handleInvoicePaid.
    destruct (Webhook.subscriptions_retrieve a _) as [e|sub]; cbn.
    { split; [|done]. intros error _. split_and!; [done..|]. intros H. in_trace H. }
    destruct (Webhook.insert_payment a) as [e|[]]; cbn.
    + split; [|done]. intros error _. split_and!; [done..|]. intros H. in_trace H.
    + split; [done|]. by rewrite update_status_user_ids.
  - unfold Webhook.handlePaymentFailed.
    destruct (Webhook.insert_payment_failure a) as [e|[]]; cbn.
    + split; [|done]. intros error _. split_and!; [done..|]. intros H. in_trace H.
    + split; done.
  - cbn. split; [done|]. by rewrite update_status_user_ids.
  - cbn. split; [done|]. by rewrite update_status_user_ids.
  - cbn. split; done.
Qed.

Lemma failed_webhook_changes_nothing_witness :
  let a := Webhook.sample_answers (Webhook.other_event "ping")
             {| Webhook.id := "sub_1"; Webhook.status := "active";
                Webhook.product := None |} in
  Webhook.subscriptions (Webhook.handleStripeWebhook a [sample_subscription] "{}" "forged")
  = [sample_subscription]
  ∧ NoDup (user_id <$>
             Webhook.subscriptions
               (Webhook.handleStripeWebhook a [sample_subscription] "{}" "sig-ok")).
Proof.
  intros a.
  destruct (failed_webhook_changes_nothing a [sample_subscription] "{}" "forged")
    as [Hfail _].
  destruct (failed_webhook_changes_nothing a [sample_subscription] "{}" "sig-ok")
    as [_ Hkey].
  split.
  - by destruct (Hfail "No signatures found matching the expected signature for payload").
  - apply Hkey. cbn. apply NoDup_singleton.
Defined.

(** X24: a cancelled subscription no longer releases data.  After a
    verified [customer.subscription.deleted] event whose status is not
    [active], a user all of whose subscription rows belong to that
    subscription is refused with [No active subscription found], before
    any data is read or usage billed; for a user with no row of that
    subscription, the function runs as it did before the event. *)
Theorem cancelled_subscription_is_refused
    (a : Webhook.Answers) (w : World) (rawBody signature : string)
    (sub : Webhook.Subscription) (filters : Filters) :
  Webhook.constructEvent a rawBody signature
  = inr (Webhook.customer_subscription_deleted sub) →
  Webhook.status sub ≠ "active" →
  let w' := Webhook.after a w rawBody signature in
  (∀ userId,
     (∀ us, us ∈ user_subscriptions w → user_id us = userId →
            stripe_subscription_id us = Webhook.id sub) →
     getPrescriberDataWithSubscriptionCheck w' userId filters
     = ([SelectActiveSubscription userId], inl "No active subscription found"))
  ∧ (∀ userId,
       (∀ us, us ∈ user_subscriptions w → user_id us = userId →
              stripe_subscription_id us ≠ Webhook.id sub) →
       getPrescriberDataWithSubscriptionCheck w' userId filters
       = getPrescriberDataWithSubscriptionCheck w userId filters).
Proof.
  intros Hevent Hstatus w'.
  assert (Hw : w' = Webhook.with_subscriptions w
                      (Webhook.update_status (Webhook.id sub) (Webhook.status sub)
                         (user_subscriptions w))).
  { subst w'. unfold Webhook.after, Webhook.handleStripeWebhook. by rewrite Hevent. }
  rewrite Hw. clear Hw w'. split.
  - intros userId Hall. unfold getPrescriberDataWithSubscriptionCheck.
    unfold active_rows. cbn [user_subscriptions Webhook.with_subscriptions].
    rewrite filter_none; [done|].
    intros us' Hus' [Hu Hs]. unfold Webhook.update_status in Hus'.
    apply list_elem_of_fmap in Hus' as (us & -> & Hus).
    destruct (decide (stripe_subscription_id us = Webhook.id sub)) as [Hid|Hid].
    + by cbn in Hs.
    + apply Hid, Hall; done.
  - intros userId Hnone.
    assert (Hfix : ∀ P : UserSubscription → Prop, ∀ Hdec : ∀ x, Decision (P x),
              (∀ us, P us → user_id us = userId) →
              (∀ us status, P {| user_id := user_id us; subscription_status := status;
                                 plan_id := plan_id us;
                                 stripe_subscription_id := stripe_subscription_id us |} →
                            user_id us = userId) →
              filter P (Webhook.update_status (Webhook.id sub) (Webhook.status sub)
                          (user_subscriptions w))
              = filter P (user_subscriptions w)).
    { intros P Hdec HP HP'. unfold Webhook.update_status. apply filter_fmap_fixed.
      - intros us Hus Hp. rewrite decide_False; [done|].
        apply Hnone; [done|]. by apply HP.
      - intros us Hus. case_decide as Hid; [|done]. intros Hp.
        destruct (Hnone us Hus); [|done]. by apply (HP' us (Webhook.status sub)). }
    apply subscription_check_congr.
    + unfold active_rows. cbn [user_subscriptions Webhook.with_subscriptions].
      apply Hfix; [by intros us [? _]|by intros us status [? _]].
    + unfold plan_rows. cbn [user_subscriptions subscription_plans
                                Webhook.with_subscriptions].
      apply list_bind_ext; [|done]. intros sp. f_equal.
      apply Hfix; [by intros us [_ ?]|by intros us status [_ ?]].
    + unfold subscription_rows. cbn [user_subscriptions Webhook.with_subscriptions].
      apply Hfix; [done|done].
Qed.

Lemma cancelled_subscription_is_refused_witness :
  let sub := {| Webhook.id := "sub_1"; Webhook.status := "canceled";
                Webhook.product := None |} in
  let a := Webhook.sample_answers (Webhook.customer_subscription_deleted sub) sub in
  getPrescriberDataWithSubscriptionCheck
    (Webhook.after a (sample_world true true) "{}" "sig-ok") "u-metered" no_filters
  = ([SelectActiveSubscription "u-metered"], inl "No active subscription found").
Proof.
  intros sub a.
  destruct (cancelled_subscription_is_refused a (sample_world true true) "{}" "sig-ok"
              sub no_filters) as [Hrefused _]; [done|done|].
  apply Hrefused. intros us. cbn. rewrite elem_of_cons, elem_of_nil.
  intros [->|[]]. done.
Defined.

(** X25: a completed checkout opens the data.  After a verified
    [checkout.session.completed] event whose subscription is active and
    holds a product with a plan, with one row per user and one plan per
    product, the user of the session has exactly one subscription row, the
    active one of that subscription and plan; and the function then
    passes its subscription check and its plan lookup and sends the data
    query with the limit of that plan. *)
Theorem completed_checkout_opens_the_data
    (a : Webhook.Answers) (w : World) (rawBody signature : string)
    (session : Webhook.Session) (sub : Webhook.Subscription) (productId : string)
    (pl : Plan) (filters : Filters) :
  Webhook.constructEvent a rawBody signature
  = inr (Webhook.checkout_session_completed session) →
  Webhook.subscriptions_retrieve a (Webhook.subscription session) = inr sub →
  Webhook.status sub = "active" →
  Webhook.product sub = Some productId →
  NoDup (user_id <$> user_subscriptions w) →
  NoDup (stripe_product_id <$> subscription_plans w) →
  pl ∈ subscription_plans w → stripe_product_id pl = productId →
  let w' := Webhook.after a w rawBody signature in
  let userId := Webhook.client_reference_id session in
  subscription_rows w' userId
  = [{| user_id := userId; subscription_status := "active"; plan_id := productId;
        stripe_subscription_id := Webhook.id sub |}]
  ∧ active_rows w' userId = subscription_rows w' userId
  ∧ plan_rows w' userId = [pl]
  ∧ ∃ more,
      trace (getPrescriberDataWithSubscriptionCheck w' userId filters)
      = [SelectActiveSubscription userId; SelectPlan userId;
         SelectPrescribers (row_limit pl)] ++ more.
Proof.
  intros Hevent Hsub Hstatus Hproduct Hnd Hplans Hpl Hid w' userId.
  set (row := {| user_id := userId; subscription_status := "active";
                 plan_id := productId; stripe_subscription_id := Webhook.id sub |}).
  assert (Hw : w' = Webhook.with_subscriptions w
                      (Webhook.upsert row (user_subscriptions w))).
  { subst w'. unfold Webhook.after, Webhook.handleStripeWebhook. rewrite Hevent.
    unfold Webhook.handleCheckoutComplete. rewrite Hsub, Hproduct. cbn.
    by rewrite Hstatus. }
  destruct (upsert_split row (user_subscriptions w) Hnd)
    as (l1 & l2 & Hup & H1 & H2 & _).
  rewrite Hw, Hup. clear Hw w'.
  assert (Hsubs : subscription_rows
                    (Webhook.with_subscriptions w (l1 ++ row :: l2)) userId = [row]).
  { unfold subscription_rows. cbn [user_subscriptions Webhook.with_subscriptions].
    apply filter_only; [|done|].
    - intros y Hy. by apply H1.
    - intros y Hy. by apply H2. }
  assert (Hact : active_rows
                   (Webhook.with_subscriptions w (l1 ++ row :: l2)) userId = [row]).
  { unfold active_rows. cbn [user_subscriptions Webhook.with_subscriptions].
    apply filter_only; [|done|].
    - intros y Hy [Hu _]. by apply (H1 y Hy).
    - intros y Hy [Hu _]. by apply (H2 y Hy). }
  assert (Hplan : plan_rows
                    (Webhook.with_subscriptions w (l1 ++ row :: l2)) userId = [pl]).
  { unfold plan_rows.
    cbn [user_subscriptions subscription_plans Webhook.with_subscriptions].
    destruct (split_at stripe_product_id (subscription_plans w) pl Hplans Hpl)
      as (p1 & p2 & -> & Hp1 & Hp2).
    rewrite bind_app, bind_cons.
    rewrite (bind_none _ p1), (bind_none _ p2).
    - rewrite filter_only; [done| |by rewrite Hid|].
      + intros y Hy [_ Hu]. by apply (H1 y Hy).
      + intros y Hy [_ Hu]. by apply (H2 y Hy).
    - intros sp Hsp. rewrite filter_none; [done|].
      intros y Hy [Hp Hu]. apply elem_of_app in Hy as [Hy|Hy].
      + by apply (H1 y Hy).
      + apply elem_of_cons in Hy as [->|Hy]; [|by apply (H2 y Hy)].
        apply (Hp2 sp Hsp). cbn in Hp. congruence.
    - intros sp Hsp. rewrite filter_none; [done|].
      intros y Hy [Hp Hu]. apply elem_of_app in Hy as [Hy|Hy].
      + by apply (H1 y Hy).
      + apply elem_of_cons in Hy as [->|Hy]; [|by apply (H2 y Hy)].
        apply (Hp1 sp Hsp). cbn in Hp. congruence. }
  split_and!; [done|by rewrite Hact, Hsubs|done|].
  by apply (data_query_is_sent _ userId filters row [] pl []).
Qed.

Lemma completed_checkout_opens_the_data_witness :
  let sub := {| Webhook.id := "sub_9"; Webhook.status := "active";
                Webhook.product := Some "prod_1" |} in
  let session := {| Webhook.client_reference_id := "u-new";
                    Webhook.subscription := "sub_9" |} in
  let a := Webhook.sample_answers (Webhook.checkout_session_completed session) sub in
  let w' := Webhook.after a (sample_world true true) "{}" "sig-ok" in
  subscription_rows w' "u-new"
  = [{| user_id := "u-new"; subscription_status := "active"; plan_id := "prod_1";
        stripe_subscription_id := "sub_9" |}]
  ∧ active_rows w' "u-new" = subscription_rows w' "u-new"
  ∧ plan_rows w' "u-new" = [sample_plan]
  ∧ ∃ more,
      trace (getPrescriberDataWithSubscriptionCheck w' "u-new" no_filters)
      = [SelectActiveSubscription "u-new"; SelectPlan "u-new";
         SelectPrescribers (row_limit sample_plan)] ++ more.
Proof.
  intros sub session a w'.
  apply (completed_checkout_opens_the_data a (sample_world true true) "{}" "sig-ok"
           session sub "prod_1" sample_plan no_filters); try done.
  - cbn. apply NoDup_singleton.
  - cbn. apply NoDup_singleton.
  - apply list_elem_of_here.
Defined.
End WebhookFacts.

(** ** Suggestions and bounds *)

Section SuggestionFacts.

Lemma suggestions_run (db : Stores) (userId q : string) (names : list string) :
  outcome (getDrugSuggestionsHandler db (Some userId) (Some q))
  = inr {| status := 200; json := NamesJson names |} →
  names = suggestions_query db ("%" +:+ q +:+ "%").
Proof.
  unfold getDrugSuggestionsHandler.
  destruct (negb (truthy (Some userId))); [done|].
  case_decide; [done|]. cbn. by intros [= <-].
Qed.

(** X26: the suggestions are complete unless cut at ten.  A query of
    fewer than 2 characters is answered 400 without a database
    round-trip.  When fewer than 10 names come back, every drug name and
    generic name of the prescription records that matches the pattern is
    among them; for a query free of pattern characters that is every name
    containing the query, letter case ignored. *)
Theorem suggestions_are_complete_below_ten
    (db : Stores) (userId q : string) (names : list string) :
  userId ≠ EmptyString →
  ((length (Text.chars q) < 2)%nat →
   getDrugSuggestionsHandler db (Some userId) (Some q)
   = ([], inr (respond 400 "Query parameter q must be at least 2 characters long.")))
  ∧ (outcome (getDrugSuggestionsHandler db (Some userId) (Some q))
     = inr {| status := 200; json := NamesJson names |} →
     (length names < 10)%nat →
     ∀ np n, np ∈ npi_prescriptions db →
             np_drug_name np = Some n ∨ np_generic_name np = Some n →
             (Text.ilike n ("%" +:+ q +:+ "%") = true → n ∈ names)
             ∧ (Forall (λ c, Text.is_meta c = false) (Text.chars q) →
                Text.contains_ci n q → n ∈ names)).
Proof.
  intros Huser. split.
  - intros Hshort. unfold getDrugSuggestionsHandler.
    rewrite (truthy_Some userId Huser). cbn [negb].
    by rewrite decide_True.
  - intros Hrun Hlen np n Hnp Hcol.
    apply suggestions_run in Hrun. subst names.
    assert (Hin : Text.ilike n ("%" +:+ q +:+ "%") = true →
                  n ∈ suggestions_query db ("%" +:+ q +:+ "%")).
    { intros Hlike. unfold suggestions_query in *.
      rewrite take_ge by (rewrite length_take in Hlen; lia).
      rewrite !elem_of_remove_dups, elem_of_app, !elem_of_names_ilike.
      destruct Hcol as [Hcol|Hcol]; [left|right]; eauto. }
    split; [done|]. intros Hplain Hc. apply Hin. by apply ilike_infix_contains.
Qed.

Lemma suggestions_are_complete_below_ten_witness :
  getDrugSuggestionsHandler db_two_rows (Some "u-expert") (Some "s")
  = ([], inr (respond 400 "Query parameter q must be at least 2 characters long.")).
Proof.
  destruct (suggestions_are_complete_below_ten db_two_rows "u-expert" "s" [])
    as [Hshort _]; [done|].
  apply Hshort. cbn. lia.
Defined.

(** X27: a suggested name can be searched for as it is.  A suggestion
    free of pattern characters, sent as the drug name of a search, passes
    the drug condition of the search on the prescription record it was
    taken from. *)
Theorem suggested_name_matches_in_search
    (db : Stores) (userId q : string) (names : list string) (n : string) (p : Params) :
  outcome (getDrugSuggestionsHandler db (Some userId) (Some q))
  = inr {| status := 200; json := NamesJson names |} →
  n ∈ names →
  Forall (λ c, Text.is_meta c = false) (Text.chars n) →
  p_drugName p = n →
  ∃ np, np ∈ npi_prescriptions db
        ∧ (np_drug_name np = Some n ∨ np_generic_name np = Some n)
        ∧ ∀ nd na uz, drug_clause p (nd, na, np, uz) = true.
Proof.
  intros Hrun Hn Hplain Hdrug.
  apply suggestions_run in Hrun. subst names.
  unfold suggestions_query in Hn. apply subseteq_take in Hn.
  rewrite !elem_of_remove_dups, elem_of_app, !elem_of_names_ilike in Hn.
  assert (Hself : Text.ilike n n = true) by (by apply ilike_plain_equal).
  destruct Hn as [(np & Hin & Hcol & _)|(np & Hin & Hcol & _)].
  - exists np. split_and!; [done|by left|].
    intros nd na uz. unfold drug_clause. cbn. rewrite Hcol, Hdrug. cbn.
    by rewrite Hself.
  - exists np. split_and!; [done|by right|].
    intros nd na uz. unfold drug_clause. cbn. rewrite Hcol, Hdrug. cbn.
    rewrite Hself. by rewrite orb_true_r.
Qed.

Lemma suggested_name_matches_in_search_witness :
  ∃ np, np ∈ npi_prescriptions db_deactivated
        ∧ (np_drug_name np = Some "SERTRALINE HCL"
           ∨ np_generic_name np = Some "SERTRALINE HCL")
        ∧ ∀ nd na uz,
            drug_clause (sample_params "SERTRALINE HCL" "distance" None None)
              (nd, na, np, uz) = true.
Proof.
  apply (suggested_name_matches_in_search db_deactivated "u-expert" "hcl"
           ["SERTRALINE HCL"]).
  - vm_compute. reflexivity.
  - apply list_elem_of_here.
  - repeat constructor.
  - reflexivity.
Defined.
End SuggestionFacts.

(** The end of [findProvidersHandler] once the search zip is known. *)
Ltac finish_search H z :=
  unfold bind, ret in H; cbn in H;
  destruct (negb (truthy z)); cbn in H;
  [unfold respond in H; discriminate H|];
  try (destruct (negb (truthy z)); cbn in H;
       [unfold respond in H; discriminate H|]);
  lazymatch type of H with
  | context [findProviders ?st ?d ?p] =>
      let Hf := fresh "Hf" in
      destruct (findProviders st d p) as [tf [err|r]] eqn:Hf;
      cbn in H;
      [ exfalso; unfold on_search_error in H;
        destruct (Text.includes err "not found"); cbn in H;
        unfold respond in H; discriminate H
      | injection H as ->; exists (or_empty z); by rewrite Hf ]
  end.

Section BoundFacts.
Context (ST_Distance : Geom → Geom → Qc).

(** A search response of the route is the result of [findProviders] for a
    body that passed the schema. *)
Lemma route_answer_is_a_search (db : Stores) (auth : Auth) (b : Body)
    (res : SearchResult) :
  outcome (find_providers_route ST_Distance db auth b)
  = inr {| status := 200; json := SearchJson res |} →
  findProvidersSchema b = true
  ∧ ∃ z, outcome (findProviders ST_Distance db (params_of b z)) = inr res.
Proof.
  unfold find_providers_route. destruct auth as [| |userId]; [done..|].
  destruct (findProvidersSchema b); [|done]. intros H. split; [done|].
  unfold findProvidersHandler in H.
  destruct (negb (truthy (Some userId))); [done|].
  unfold getUserTier, query, searchZip_of_tier, getUserLocation, query in H.
  cbn in H.
  destruct (decide (profile_tier db userId = Some "basic")) as [Hbasic|Hbasic].
  { destruct (location_rows db userId None true) as [|loc rest]; [done|].
    finish_search H (ul_zip_code loc). }
  destruct (decide (profile_tier db userId = Some "premium")) as [Hpremium|Hpremium].
  { destruct (negb (truthy (locationName b))); [done|].
    destruct (location_rows db userId (locationName b) false) as [|loc rest].
    - exfalso. cbn in H. unfold on_search_error in H.
      destruct (Text.includes _ "not found"); cbn in H;
        unfold respond in H; discriminate H.
    - finish_search H (ul_zip_code loc). }
  destruct (decide (profile_tier db userId = Some "expert")) as [Hexpert|Hexpert];
    finish_search H (zipCode b).
Qed.

(** X28: the bounds the schema puts on every answered search.  Whenever
    the find-providers route answers with a page, the page holds no more
    providers than the limit asked for, 10 when none was given, and never
    more than 100; and a next cursor lies beyond the page, at the cursor
    asked for plus the length of the page, and below the total. *)
Theorem answered_pages_are_bounded
    (db : Stores) (auth : Auth) (b : Body) (res : SearchResult) :
  outcome (find_providers_route ST_Distance db auth b)
  = inr {| status := 200; json := SearchJson res |} →
  (Z.of_nat (length (data res)) ≤ default 10 (limit b) ≤ 100)
  ∧ (∀ c, nextCursor res = Some c →
          default 0 (cursor b) + Z.of_nat (length (data res)) = c
          ∧ c < totalCount res).
Proof.
  intros H. apply route_answer_is_a_search in H as (Hschema & z & Hres).
  unfold findProvidersSchema in Hschema.
  rewrite !andb_true_iff in Hschema.
  destruct Hschema as (((((((_ & _) & _) & _) & _) & _) & Hcursor) & Hlimit).
  assert (Hlim : 1 ≤ default 10 (limit b) ≤ 100).
  { destruct (limit b) as [n|]; cbn; [|lia]. by apply bool_decide_eq_true in Hlimit. }
  destruct (origin db (p_zipCode (params_of b z))) as [g|] eqn:Ho.
  2: { rewrite (findProviders_not_found _ _ _ Ho) in Hres. discriminate. }
  rewrite (findProviders_found _ _ _ _ Ho) in Hres. cbn in Hres.
  injection Hres as <-. cbn [data totalCount nextCursor].
  rewrite length_fmap. split_and!.
  - unfold finalQuery. rewrite length_take. lia.
  - lia.
  - intros c. case_decide; [|done]. intros [= <-]. split; [done|lia].
Qed.
End BoundFacts.

(** At [db_two_rows] the listing has three rows: a first page of one row
    carries the next cursor 1. *)
Lemma answered_pages_are_bounded_witness :
  let b := {| drugName := "sertraline";
              radiusMiles := Qc_of_Z 10;
              minClaims := Qc_of_Z 5;
              taxonomyClass := None;
              sortBy := "claims";
              locationName := None;
              zipCode := Some "19104";
              cursor := Some 0;
              limit := Some 1 |} in
  ∃ res,
    outcome (find_providers_route taxicab db_two_rows (Verified "u-expert") b)
    = inr {| status := 200; json := SearchJson res |}
    ∧ nextCursor res = Some 1
    ∧ (Z.of_nat (length (data res)) ≤ default 10 (limit b) ≤ 100)
    ∧ (∀ c, nextCursor res = Some c →
            default 0 (cursor b) + Z.of_nat (length (data res)) = c
            ∧ c < totalCount res).
Proof.
  intros b.
  set (o := outcome (find_providers_route taxicab db_two_rows (Verified "u-expert") b)).
  assert (Ho : ∃ res, o = inr {| status := 200; json := SearchJson res |}
                      ∧ nextCursor res = Some 1).
  { vm_compute. eexists. split; reflexivity. }
  destruct Ho as (res & Hres & Hnext). exists res.
  destruct (answered_pages_are_bounded taxicab db_two_rows (Verified "u-expert") b
              res Hres) as [Hsize Hcursor].
  split_and!; [exact Hres|exact Hnext|apply Hsize|apply Hsize|exact Hcursor].
Defined.

(** ** When the count and the pages agree *)

Section AgreementFacts.
Context (ST_Distance : Geom → Geom → Qc).



End AgreementFacts.

